(** * Framebuffer support for device namespaces (drivers/video/fb_devns.c)

    A shallow embedding of the shadow-framebuffer layer: every C function
    the properties below talk about is a Rocq function over an explicit
    kernel state ([world]), in a small monad whose outcomes separate a
    normal return from a [BUG()] and from an invalid memory access.

    Conventions.
    - Pointers are integers, [NULL] is [0]; objects live in [heap].
    - Everything the file calls but does not define (the hardware driver's
      operations, the file's mmap operation, the allocator's verdict) is a
      deterministic function of the history of observable actions
      ([trace]); each such action is appended to the trace as an [event].
    - The model is sequential: [fb_ns_mutex] is only logged. *)

From stdpp Require Import gmap list.

Open Scope Z_scope.

(** ** Data model *)

Definition NULL : Z := 0.

(** [int] and [atomic_t] arithmetic wraps at 32 bits (the kernel builds with
    -fno-strict-overflow). *)
Definition wrap_int (z : Z) : Z := (z + 2 ^ 31) `mod` 2 ^ 32 - 2 ^ 31.

(** Store to a [__u16] field. *)
Definition to_u16 (z : Z) : Z := z `mod` 2 ^ 16.

(** Store to a [__u32] field. *)
Definition to_u32 (z : Z) : Z := z `mod` 2 ^ 32.

(** struct fb_inode *)
Record fb_inode := mk_fb_inode {
  inode : Z;
  use_count : Z;  (* the field [count] *)
}.

(** struct fb_colreg *)
Record fb_colreg := mk_fb_colreg {
  regno : Z;
  red : Z;
  green : Z;
  blue : Z;
  transp : Z;
}.

(** Modelled from the spec: struct fb_var_screeninfo is declared in
    linux/fb.h, which is not part of the sources.  The specification calls it
    the geometry request of a mode change and gives it a resolution
    ("800x600"); the code only reads [xres] and copies the structure whole. *)
Record fb_var_screeninfo := mk_var {
  xres : Z;
  yres : Z;
}.

(** The part of struct fb_fix_screeninfo the file touches. *)
Record fb_fix_screeninfo := mk_fix {
  fix_id : Z;  (* the field [id] *)
  smem_start : Z;
  smem_len : Z;
}.

(** struct fb_ns_info, the private data ([par]) of a virtual fb_info.  The
    array [inodes] is kept by value; [colreg] and [vmem_buf] are pointers. *)
Record fb_ns_info := mk_fb_ns_info {
  fb_ns : Z;
  info : Z;
  ns_var : fb_var_screeninfo;  (* the field [var] *)
  colreg : Z;
  colreg_pos : Z;
  colreg_len : Z;
  vmem_buf : Z;
  vmem_len : Z;
  ns_screen_base : Z;  (* the DEBUG field [screen_base] *)
  ns_screen_size : Z;  (* the DEBUG field [screen_size] *)
  inodes : list fb_inode;
  inodes_len : Z;
}.

(** The part of struct fb_info the file touches.  [par] is [None] for a
    hardware device, whose private data belongs to its driver. *)
Record fb_info := mk_fb_info {
  node : Z;
  flags : Z;
  count : Z;
  fix_ : fb_fix_screeninfo;  (* the field [fix] *)
  var : fb_var_screeninfo;
  pseudo_palette : Z;
  cmap : Z;
  pixmap : Z;
  screen_base : Z;
  screen_size : Z;
  fbops : Z;
  device : Z;
  par : option fb_ns_info;
}.

(** The slots of struct fb_ops. *)
Inductive fb_op :=
  | op_fb_open | op_fb_release | op_fb_read | op_fb_write
  | op_fb_check_var | op_fb_set_par | op_fb_setcolreg | op_fb_setcmap
  | op_fb_blank | op_fb_pan_display | op_fb_fillrect | op_fb_copyarea
  | op_fb_imageblit | op_fb_cursor | op_fb_rotate | op_fb_sync
  | op_fb_ioctl | op_fb_compat_ioctl | op_fb_mmap | op_fb_get_caps
  | op_fb_destroy | op_fb_debug_enter | op_fb_debug_leave.

(** The functions a slot can point to: the hardware driver's own handler, or
    one of those named in [fb_devns_ops]. *)
Inductive handler :=
  | h_driver
  | h_fb_ns_open | h_fb_ns_release | h_fb_sys_read | h_fb_sys_write
  | h_fb_ns_check_var | h_fb_ns_set_par | h_fb_ns_setcolreg
  | h_fb_ns_setcmap | h_cfb_fillrect | h_cfb_copyarea | h_cfb_imageblit
  | h_fb_ns_cursor | h_fb_ns_rotate | h_fb_ns_ioctl | h_fb_ns_compat_ioctl
  | h_fb_ns_mmap | h_fb_ns_get_caps | h_fb_ns_destroy
  | h_fb_ns_debug_enter | h_fb_ns_debug_leave.

#[global] Instance fb_op_eq_dec : EqDecision fb_op.
Proof. solve_decision. Defined.

(** struct fb_ops: the slots that are not [NULL], each with the function it
    points to. *)
Definition fb_ops := list (fb_op * handler).

(** [ops->o], [None] when the slot is [NULL]. *)
Fixpoint slot (ops : fb_ops) (o : fb_op) : option handler :=
  match ops with
  | [] => None
  | (o', h) :: ops' => if decide (o' = o) then Some h else slot ops' o
  end.

(** [ops->o = NULL] *)
Definition clear_slot (o : fb_op) (ops : fb_ops) : fb_ops :=
  filter (fun p => p.1 <> o) ops.

(** struct fb_dev_ns.  [ns_count] is the reference count kept in its
    [dev_ns_info]. *)
Record fb_dev_ns := mk_fb_dev_ns {
  fb : list Z;
  dev_ns : Z;
  ns_count : Z;
}.

(** The part of struct vm_area_struct that [do_fb_ns_remap] reads. *)
Record vm_area_struct := mk_vma {
  vm_mm : Z;
  vm_start : Z;
  vm_end : Z;
  vm_pgoff : Z;
  vm_flags : Z;
  vm_file : Z;
}.

(** What an address holds. *)
Inductive block :=
  | BInfo (i : fb_info)
  | BMem (bytes : list Z)
  | BColreg (a : list fb_colreg)
  | BOps (o : fb_ops)
  | BNs (n : fb_dev_ns)
  | BVma (v : vm_area_struct).

Inductive kind := KInfo | KMem | KColreg | KOps | KNs | KVma.

#[global] Instance kind_eq_dec : EqDecision kind.
Proof. solve_decision. Defined.

Definition kind_of (b : block) : kind :=
  match b with
  | BInfo _ => KInfo
  | BMem _ => KMem
  | BColreg _ => KColreg
  | BOps _ => KOps
  | BNs _ => KNs
  | BVma _ => KVma
  end.

(** Observable actions. *)
Inductive event :=
  | EvMutexLock
  | EvMutexUnlock
  | EvAlloc (ok : bool)
  | EvNotifyRegister (ns : Z)
  | EvIMmapLock (mapping : Z)
  | EvIMmapUnlock (mapping : Z)
  | EvMmGrab (mm : Z)
  | EvMmDrop (mm : Z)
  | EvDownWrite (mm : Z)
  | EvUpWrite (mm : Z)
  | EvZapPageRange (vma start size : Z)
  | EvVmaAdjust (vma : Z)
  | EvMmap (vma ret : Z)
  | EvSync (hw : Z)
  | EvMemcpyToFb (dst src size : Z)
  | EvMemcpyFromFb (dst src size : Z)
  | EvSetColreg (hw : Z) (c : fb_colreg) (ret : Z)
  | EvSetPar (hw : Z) (v : fb_var_screeninfo) (ret : Z)
  | EvPanDisplay (hw : Z) (v : fb_var_screeninfo).

(** The kernel state. *)
Record world := mk_world {
  heap : gmap Z block;
  trace : list event;
  current_dev_ns : Z;          (* the calling task's device namespace *)
  active_dev_ns : gset Z;      (* the namespaces [is_active_dev_ns] accepts *)
  fb_ns_of : gmap Z Z;         (* device namespace -> its fb_dev_ns *)
  i_mmap : gmap Z (list Z);    (* inode -> the vmas mapping its file *)
}.

Definition set_heap (h : gmap Z block) (w : world) : world :=
  mk_world h (trace w) (current_dev_ns w) (active_dev_ns w) (fb_ns_of w)
           (i_mmap w).

Definition set_trace (t : list event) (w : world) : world :=
  mk_world (heap w) t (current_dev_ns w) (active_dev_ns w) (fb_ns_of w)
           (i_mmap w).

Definition set_fb_ns_of (m : gmap Z Z) (w : world) : world :=
  mk_world (heap w) (trace w) (current_dev_ns w) (active_dev_ns w) m
           (i_mmap w).

(** ** The monad *)

Inductive outcome (A : Type) :=
  | Ret (a : A) (w : world)  (* normal return *)
  | Bug (w : world)          (* BUG() or BUG_ON() fired *)
  | Oops (w : world).        (* invalid memory access *)

Arguments Ret {A} a w.
Arguments Bug {A} w.
Arguments Oops {A} w.

Definition M (A : Type) : Type := world -> outcome A.

Definition ret {A} (a : A) : M A := fun w => Ret a w.

Definition bind {A B} (m : M A) (k : A -> M B) : M B :=
  fun w =>
    match m w with
    | Ret a w' => k a w'
    | Bug w' => Bug w'
    | Oops w' => Oops w'
    end.

Definition BUG {A} : M A := fun w => Bug w.
Definition oops {A} : M A := fun w => Oops w.

Definition BUG_ON (c : bool) : M unit := if c then BUG else ret tt.

Declare Scope kern_scope.
Delimit Scope kern_scope with kern.
Notation "x <- m ;; k" := (bind m (fun x => k))
  (at level 100, m at next level, right associativity) : kern_scope.
Notation "m ;;; k" := (bind m (fun _ => k))
  (at level 100, right associativity) : kern_scope.
Open Scope kern_scope.

Definition final {A} (o : outcome A) : world :=
  match o with Ret _ w | Bug w | Oops w => w end.

Definition log (e : event) : M unit :=
  fun w => Ret tt (set_trace (trace w ++ [e]) w).

Definition get_world : M world := fun w => Ret w w.

(** *** Memory *)

Definition load_info (p : Z) : M fb_info :=
  fun w => match heap w !! p with Some (BInfo i) => Ret i w | _ => Oops w end.

(** A write through a pointer: the address has to hold an object of the
    type written. *)
Definition store (p : Z) (b : block) : M unit :=
  fun w => match heap w !! p with
           | Some b0 =>
               if decide (kind_of b0 = kind_of b)
               then Ret tt (set_heap (<[p := b]> (heap w)) w)
               else Oops w
           | None => Oops w
           end.

Definition store_info (p : Z) (i : fb_info) : M unit := store p (BInfo i).

(** [virt->par], read as a struct fb_ns_info. *)
Definition load_par (p : Z) : M fb_ns_info :=
  i <- load_info p ;;
  match par i with Some n => ret n | None => oops end.

Definition set_par_of (i : fb_info) (n : fb_ns_info) : fb_info :=
  mk_fb_info (node i) (flags i) (count i) (fix_ i) (var i) (pseudo_palette i)
             (cmap i) (pixmap i) (screen_base i) (screen_size i) (fbops i)
             (device i) (Some n).

Definition store_par (p : Z) (n : fb_ns_info) : M unit :=
  i <- load_info p ;; store_info p (set_par_of i n).

Definition load_ns (p : Z) : M fb_dev_ns :=
  fun w => match heap w !! p with Some (BNs n) => Ret n w | _ => Oops w end.

Definition load_ops (p : Z) : M fb_ops :=
  fun w => match heap w !! p with Some (BOps o) => Ret o w | _ => Oops w end.

Definition load_mem (p : Z) : M (list Z) :=
  fun w => match heap w !! p with Some (BMem b) => Ret b w | _ => Oops w end.

Definition load_colreg (p : Z) : M (list fb_colreg) :=
  fun w => match heap w !! p with Some (BColreg a) => Ret a w | _ => Oops w end.

Definition load_vma (p : Z) : M vm_area_struct :=
  fun w => match heap w !! p with Some (BVma v) => Ret v w | _ => Oops w end.

(** kfree() and vfree(): freeing [NULL] does nothing. *)
Definition free_heap (p : Z) (h : gmap Z block) : gmap Z block :=
  if p =? NULL then h else delete p h.

Definition free (p : Z) : M unit :=
  fun w => Ret tt (set_heap (free_heap p (heap w)) w).

(** ** The environment

    Constants and functions that other parts of the kernel define.  The
    build modelled is the one with CONFIG_DEV_NS set (so DEBUG is defined)
    and CONFIG_FB_DEV_NS_UNIPAGE_BACK_BUFFER unset. *)
Class kernel := {
  FBINFO_DEV_NS : Z;             (* linux/fb.h *)
  FB_MAX : nat;                  (* linux/fb.h *)
  ENOMEM : Z;                    (* asm-generic/errno-base.h *)
  VM_IO : Z;                     (* linux/mm.h *)
  init_dev_ns : Z;               (* &init_dev_ns *)
  CONFIG_FB_DEV_NS_PAN : bool;
  (* whether the next allocation succeeds *)
  alloc_ok : list event -> bool;
  (* info->fbops->fb_setcolreg(regno, red, green, blue, transp, info) *)
  hw_fb_setcolreg : list event -> Z -> Z -> Z -> Z -> Z -> Z -> Z;
  (* info->fbops->fb_set_par(info) *)
  hw_fb_set_par : list event -> Z -> Z;
  (* vma->vm_file->f_op->mmap(vma->vm_file, vma) *)
  f_op_mmap : list event -> Z -> Z;
  (* the vma as that call leaves it *)
  f_op_mmap_vma : list event -> Z -> vm_area_struct -> vm_area_struct;
  sizeof_long : Z;               (* sizeof(unsigned long) *)
}.

(** A function returning a pointer or an ERR_PTR(). *)
Inductive ptr_or_err :=
  | Ptr (p : Z)
  | ERR_PTR (e : Z).

Section fb_devns.
Context `{K : kernel}.

(** *** Allocation *)

(** One allocation attempt: the allocator's verdict, logged. *)
Definition try_alloc : M bool :=
  fun w => let ok := alloc_ok (trace w) in
           Ret ok (set_trace (trace w ++ [EvAlloc ok]) w).

(** kmalloc(), kzalloc(), vmalloc_user(), framebuffer_alloc(): a block at an
    address that is neither [NULL] nor in use, or [NULL]. *)
Definition alloc (b : block) : M Z :=
  ok <- try_alloc ;;
  if ok then
    fun w => let p := fresh ({[NULL]} ∪ dom (heap w)) in
             Ret p (set_heap (<[p := b]> (heap w)) w)
  else ret NULL.

(** ** fb_info_is_virt *)
Definition fb_info_is_virt (fb_info : fb_info) : bool :=
  negb (Z.land (flags fb_info) FBINFO_DEV_NS =? 0).

(** Modelled from the spec: [is_active_dev_ns] is declared in
    linux/dev_namespace.h, which is not part of the sources.  The
    specification's NamespaceActivationState is "a single boolean-valued
    fact per namespace at any instant", supplied by the namespace manager. *)
Definition is_active_dev_ns (ns : Z) : M bool :=
  fun w => Ret (bool_decide (ns ∈ active_dev_ns w)) w.

(** ** fb_virt_is_active *)
Definition fb_virt_is_active (virt : Z) : M bool :=
  v <- load_info virt ;;
  if negb (fb_info_is_virt v) then ret false
  else
    fb_ns_info <- load_par virt ;;
    ns <- load_ns (fb_ns fb_ns_info) ;;
    a <- is_active_dev_ns (dev_ns ns) ;;
    ret (a || (dev_ns ns =? init_dev_ns)).

(** ** fb_virt_to_info *)
Definition fb_virt_to_info (virt : Z) : M Z :=
  v <- load_info virt ;;
  if negb (fb_info_is_virt v) then ret virt
  else
    fb_ns_info <- load_par virt ;;
    ret (info fb_ns_info).

(** ** fb_virt_to_info_ns *)
Definition fb_virt_to_info_ns (virt : Z) : M Z :=
  a <- fb_virt_is_active virt ;;
  if a then fb_virt_to_info virt else ret virt.

(** ** _fb_debug_diff

    The printk() lines and the WARN_ON() only report; the two BUG_ON()s
    can stop the caller. *)
Definition fb_debug_diff (virt : Z) : M unit :=
  v <- load_info virt ;;
  BUG_ON (negb (fb_info_is_virt v)) ;;;
  fb_ns_info <- load_par virt ;;
  info <- fb_virt_to_info virt ;;
  i <- load_info info ;;
  BUG_ON (negb (ns_screen_base fb_ns_info =? screen_base i)
          || negb (ns_screen_size fb_ns_info =? screen_size i)).

(** ** find_fb_inode

    The result is the index of the entry found, standing for [&inodes[i]]. *)
Fixpoint find_from (l : list fb_inode) (i : nat) (ino : Z) : option nat :=
  match l with
  | [] => None
  | e :: l' => if inode e =? ino then Some i else find_from l' (S i) ino
  end.

Definition find_fb_inode (virt ino : Z) : M (option nat) :=
  fb_ns_info <- load_par virt ;;
  ret (find_from (take (Z.to_nat (inodes_len fb_ns_info)) (inodes fb_ns_info))
                 0 ino).

Definition set_inodes (n : fb_ns_info) (l : list fb_inode) (len : Z)
  : fb_ns_info :=
  mk_fb_ns_info (fb_ns n) (info n) (ns_var n) (colreg n) (colreg_pos n)
                (colreg_len n) (vmem_buf n) (vmem_len n) (ns_screen_base n)
                (ns_screen_size n) l len.

Definition inc_count (e : fb_inode) : fb_inode :=
  mk_fb_inode (inode e) (wrap_int (use_count e + 1)).

(** ** track_fb_inode *)
Definition track_fb_inode (virt ino : Z) : M Z :=
  _ <- load_info virt ;;
  log EvMutexLock ;;;
  fb_inode <- find_fb_inode virt ino ;;
  r <- match fb_inode with
       | Some i => ret (Some i)
       | None =>
           n <- load_par virt ;;
           let len := inodes_len n in
           ok <- try_alloc ;;  (* krealloc *)
           if negb ok then ret None
           else
             store_par virt
               (set_inodes n (take (Z.to_nat len) (inodes n)
                              ++ [mk_fb_inode ino 0]) (wrap_int (len + 1))) ;;;
             ret (Some (Z.to_nat len))
       end ;;
  match r with
  | None => log EvMutexUnlock ;;; ret (- ENOMEM)
  | Some i =>
      n <- load_par virt ;;
      store_par virt (set_inodes n (alter inc_count i (inodes n))
                                 (inodes_len n)) ;;;
      log EvMutexUnlock ;;;
      ret 0
  end.

(** ** untrack_fb_inode

    The krealloc() to a smaller size returns its argument. *)
Definition untrack_fb_inode (virt ino : Z) : M unit :=
  _ <- load_info virt ;;
  if ino =? NULL then ret tt
  else
    log EvMutexLock ;;;
    fb_inode <- find_fb_inode virt ino ;;
    BUG_ON (negb (bool_decide (is_Some fb_inode))) ;;;
    match fb_inode with
    | None => ret tt
    | Some i =>
        n <- load_par virt ;;
        match inodes n !! i with
        | None => oops
        | Some e =>
            let c := wrap_int (use_count e - 1) in
            let l := <[i := mk_fb_inode (inode e) c]> (inodes n) in
            if c =? 0 then
              let len := wrap_int (inodes_len n - 1) in
              match l !! Z.to_nat len with
              | None => oops
              | Some last =>
                  store_par virt
                    (set_inodes n (take (Z.to_nat len) (<[i := last]> l)) len)
              end
            else store_par virt (set_inodes n l (inodes_len n))
        end
    end ;;;
    log EvMutexUnlock.

(** ** fb_devns_ops: [fb_blank], [fb_pan_display] and [fb_sync] are [NULL] *)
Definition fb_devns_ops : fb_ops :=
  [ (op_fb_open, h_fb_ns_open);
    (op_fb_release, h_fb_ns_release);
    (op_fb_read, h_fb_sys_read);
    (op_fb_write, h_fb_sys_write);
    (op_fb_check_var, h_fb_ns_check_var);
    (op_fb_set_par, h_fb_ns_set_par);
    (op_fb_setcolreg, h_fb_ns_setcolreg);
    (op_fb_setcmap, h_fb_ns_setcmap);
    (op_fb_fillrect, h_cfb_fillrect);
    (op_fb_copyarea, h_cfb_copyarea);
    (op_fb_imageblit, h_cfb_imageblit);
    (op_fb_cursor, h_fb_ns_cursor);
    (op_fb_rotate, h_fb_ns_rotate);
    (op_fb_ioctl, h_fb_ns_ioctl);
    (op_fb_compat_ioctl, h_fb_ns_compat_ioctl);
    (op_fb_mmap, h_fb_ns_mmap);
    (op_fb_get_caps, h_fb_ns_get_caps);
    (op_fb_destroy, h_fb_ns_destroy);
    (op_fb_debug_enter, h_fb_ns_debug_enter);
    (op_fb_debug_leave, h_fb_ns_debug_leave) ].

(** [if (!info->fbops->probe) fbops->o = NULL;] *)
Definition null_unless (hw : fb_ops) (probe o : fb_op) (f : fb_ops)
  : fb_ops :=
  match slot hw probe with
  | Some _ => f
  | None => clear_slot o f
  end.

(** The table fb_ns_make_fb_ops builds from the hardware's: a copy of
    [fb_devns_ops] without the optional handlers the hardware lacks.  The
    last test reads [fb_debug_leave] and clears [fb_debug_enter], as the
    source does. *)
Definition make_fb_ops_table (hw : fb_ops) : fb_ops :=
  let same o := null_unless hw o o in
  null_unless hw op_fb_debug_leave op_fb_debug_enter
    (same op_fb_debug_enter
    (same op_fb_compat_ioctl
    (same op_fb_get_caps
    (same op_fb_ioctl
    (same op_fb_rotate
    (same op_fb_cursor
    (same op_fb_imageblit
    (same op_fb_copyarea
    (same op_fb_fillrect
    (same op_fb_setcmap
    (same op_fb_check_var fb_devns_ops))))))))))).

(** ** fb_ns_make_fb_ops *)
Definition fb_ns_make_fb_ops (info : Z) : M Z :=
  ops <- alloc (BOps fb_devns_ops) ;;  (* kmalloc, memcpy *)
  if ops =? NULL then ret NULL
  else
    i <- load_info info ;;
    hw <- load_ops (fbops i) ;;
    store ops (BOps (make_fb_ops_table hw)) ;;;
    ret ops.

(** ** fb_ns_free_fb_ops *)
Definition fb_ns_free_fb_ops (fbops : Z) : M unit := free fbops.

(** ** allocate_backbuffer: vmalloc_user() returns zeroed memory. *)
Definition allocate_backbuffer (size : Z) : M Z :=
  alloc (BMem (replicate (Z.to_nat size) 0)).

(** framebuffer_alloc() and framebuffer_release() of fbsysfs.c: a zeroed
    fb_info with room for its private data, and its kfree(). *)
Definition zero_var : fb_var_screeninfo := mk_var 0 0.

Definition zero_ns_info : fb_ns_info :=
  mk_fb_ns_info NULL NULL zero_var NULL 0 0 NULL 0 NULL 0 [] 0.

Definition framebuffer_alloc (dev : Z) : M Z :=
  alloc (BInfo (mk_fb_info 0 0 0 (mk_fix 0 0 0) zero_var 0 0 0 NULL 0 NULL dev
                           (Some zero_ns_info))).

Definition framebuffer_release (p : Z) : M unit := free p.

(** ** fb_ns_info_alloc *)
Definition fb_ns_info_alloc (fb_ns fb_info : Z) : M Z :=
  hw <- load_info fb_info ;;
  fb_virt <- framebuffer_alloc (device hw) ;;
  if fb_virt =? NULL then ret NULL
  else
    (* the pr_info() reads [fb_ns->dev_ns_info.dev_ns] *)
    _ <- load_ns fb_ns ;;
    (* copy most pieces from underlying fb_info *)
    store_info fb_virt
      (mk_fb_info (node hw) (flags hw) 0 (fix_ hw) (var hw)
                  (pseudo_palette hw) (cmap hw) (pixmap hw) NULL 0 NULL
                  (device hw) (Some zero_ns_info)) ;;;
    (* allocate per-namespace virtual buffer *)
    let vlen := smem_len (fix_ hw) in
    vmem <- (if 0 <? vlen then allocate_backbuffer vlen else ret NULL) ;;
    if (0 <? vlen) && (vmem =? NULL) then
      framebuffer_release fb_virt ;;; ret NULL
    else
      (* setup namespace aware data, make it namespace aware *)
      let n := mk_fb_ns_info fb_ns fb_info zero_var NULL 0 0 vmem vlen
                             (screen_base hw) (screen_size hw) [] 0 in
      store_info fb_virt
        (mk_fb_info (node hw) (Z.lor (flags hw) FBINFO_DEV_NS) 0 (fix_ hw)
                    (var hw) (pseudo_palette hw) (cmap hw) (pixmap hw) NULL 0
                    NULL (device hw) (Some n)) ;;;
      ops <- fb_ns_make_fb_ops fb_info ;;
      if ops =? NULL then
        free vmem ;;; framebuffer_release fb_virt ;;; ret NULL
      else
        store_info fb_virt
          (mk_fb_info (node hw) (Z.lor (flags hw) FBINFO_DEV_NS) 0
                      (mk_fix (fix_id (fix_ hw)) vmem vlen)
                      (var hw) (pseudo_palette hw) (cmap hw) (pixmap hw)
                      vmem (screen_size hw) ops (device hw) (Some n)) ;;;
        ret fb_virt.

(** ** fb_ns_info_free *)
Definition fb_ns_info_free (fb_virt : Z) : M unit :=
  fb_ns_info <- load_par fb_virt ;;
  v <- load_info fb_virt ;;
  free (vmem_buf fb_ns_info) ;;;
  free (colreg fb_ns_info) ;;;
  fb_ns_free_fb_ops (fbops v) ;;;
  framebuffer_release fb_virt.

(** ** fb_devns_create

    The namespace core fills in [dev_ns_info] after the call. *)
Definition fb_devns_create (ns : Z) : M ptr_or_err :=
  p <- alloc (BNs (mk_fb_dev_ns (replicate FB_MAX NULL) NULL 0)) ;;
  if p =? NULL then ret (ERR_PTR (- ENOMEM))
  else log (EvNotifyRegister ns) ;;; ret (Ptr p).

Definition set_ns_count (n : fb_dev_ns) (c : Z) : fb_dev_ns :=
  mk_fb_dev_ns (fb n) (dev_ns n) c.

(** Modelled from the spec: [get_fb_ns_cur] and [put_fb_ns] come from the
    macro DEFINE_DEV_NS_INFO of linux/dev_namespace.h, which is not part of
    the sources.  The specification's NamespaceShadowSet is "one
    per namespace", "created lazily on first access from that namespace;
    destroyed when the namespace itself is destroyed": getting it creates it
    when the calling task's namespace has none and takes a reference,
    putting it drops the reference and destroys nothing. *)
Definition get_fb_ns_cur : M Z :=
  w <- get_world ;;
  let cur := current_dev_ns w in
  match fb_ns_of w !! cur with
  | Some p =>
      n <- load_ns p ;;
      store p (BNs (set_ns_count n (wrap_int (ns_count n + 1)))) ;;;
      ret p
  | None =>
      r <- fb_devns_create cur ;;
      match r with
      | ERR_PTR _ => ret NULL
      | Ptr p =>
          n <- load_ns p ;;
          store p (BNs (mk_fb_dev_ns (fb n) cur 1)) ;;;
          (fun w' => Ret tt (set_fb_ns_of (<[cur := p]> (fb_ns_of w')) w')) ;;;
          ret p
      end
  end.

Definition put_fb_ns (p : Z) : M unit :=
  n <- load_ns p ;;
  store p (BNs (set_ns_count n (wrap_int (ns_count n - 1)))).

(** [fb_ns->fb[idx]], read and written; an index outside the array is an
    invalid access. *)
Definition fb_slot (p idx : Z) : M Z :=
  n <- load_ns p ;;
  if idx <? 0 then oops
  else match fb n !! Z.to_nat idx with
       | Some v => ret v
       | None => oops
       end.

Definition set_fb_slot (p idx v : Z) : M unit :=
  n <- load_ns p ;;
  if (idx <? 0) || (Z.of_nat (length (fb n)) <=? idx) then oops
  else store p (BNs (mk_fb_dev_ns (<[Z.to_nat idx := v]> (fb n)) (dev_ns n)
                                  (ns_count n))).

Definition set_count (i : fb_info) (c : Z) : fb_info :=
  mk_fb_info (node i) (flags i) c (fix_ i) (var i) (pseudo_palette i)
             (cmap i) (pixmap i) (screen_base i) (screen_size i) (fbops i)
             (device i) (par i).

(** atomic_inc(&p->count) *)
Definition atomic_inc (p : Z) : M unit :=
  i <- load_info p ;; store_info p (set_count i (wrap_int (count i + 1))).

(** atomic_dec_and_test(&p->count) *)
Definition atomic_dec_and_test (p : Z) : M bool :=
  i <- load_info p ;;
  let c := wrap_int (count i - 1) in
  store_info p (set_count i c) ;;; ret (c =? 0).

(** ** get_fb_info_ns *)
Definition get_fb_info_ns (fb_info : Z) : M ptr_or_err :=
  p <- get_fb_ns_cur ;;
  if p =? NULL then ret (ERR_PTR (- ENOMEM))
  else
    hw <- load_info fb_info ;;
    let idx := node hw in
    log EvMutexLock ;;;
    slot <- fb_slot p idx ;;
    (if slot =? NULL then
       v <- fb_ns_info_alloc p fb_info ;; set_fb_slot p idx v
     else ret tt) ;;;
    fb_virt <- fb_slot p idx ;;
    r <- (if negb (fb_virt =? NULL) then
            atomic_inc fb_virt ;;; ret (Ptr fb_virt)
          else ret (ERR_PTR (- ENOMEM))) ;;
    log EvMutexUnlock ;;;
    match r with
    | ERR_PTR _ => put_fb_ns p
    | Ptr _ => ret tt
    end ;;;
    ret r.

(** ** put_fb_info_ns *)
Definition put_fb_info_ns (fb_virt : Z) : M unit :=
  fb_ns_info <- load_par fb_virt ;;
  put_fb_ns (fb_ns fb_ns_info) ;;;
  z <- atomic_dec_and_test fb_virt ;;
  if z then
    v <- load_info fb_virt ;;
    set_fb_slot (fb_ns fb_ns_info) (node v) NULL ;;;
    fb_ns_info_free fb_virt
  else ret tt.

(** ** fb_ns_open, fb_ns_release, fb_ns_destroy: each is [{ BUG(); }] *)
Definition fb_ns_open (virt user : Z) : M Z := BUG.
Definition fb_ns_release (virt user : Z) : M Z := BUG.
Definition fb_ns_destroy (virt : Z) : M unit := BUG.

Definition set_ns_var (n : fb_ns_info) (v : fb_var_screeninfo) : fb_ns_info :=
  mk_fb_ns_info (fb_ns n) (info n) v (colreg n) (colreg_pos n) (colreg_len n)
                (vmem_buf n) (vmem_len n) (ns_screen_base n)
                (ns_screen_size n) (inodes n) (inodes_len n).

Definition set_colreg_pos (n : fb_ns_info) (pos : Z) : fb_ns_info :=
  mk_fb_ns_info (fb_ns n) (info n) (ns_var n) (colreg n) pos (colreg_len n)
                (vmem_buf n) (vmem_len n) (ns_screen_base n)
                (ns_screen_size n) (inodes n) (inodes_len n).

(** ** fb_ns_set_par *)
Definition fb_ns_set_par (virt : Z) : M Z :=
  v <- load_info virt ;;
  BUG_ON (negb (fb_info_is_virt v)) ;;;
  fb_debug_diff virt ;;;
  (* stash parameters for later, when fb becomes active *)
  fb_ns_info <- load_par virt ;;
  store_par virt (set_ns_var fb_ns_info (var v)) ;;;
  ret 0.

(** krealloc() of the array of staged registers to [n] entries: a new
    block that starts with the old contents, the old block freed. *)
Definition krealloc_colreg (p n : Z) : M Z :=
  old <- (if p =? NULL then ret [] else load_colreg p) ;;
  q <- alloc (BColreg (take (Z.to_nat n)
                         (old ++ replicate (Z.to_nat n - length old)
                                           (mk_fb_colreg 0 0 0 0 0)))) ;;
  if q =? NULL then ret NULL else free p ;;; ret q.

(** ** fb_ns_setcolreg

    In the source the allocation is followed by [if (colreg == NULL);], an
    empty statement, and then by [return -ENOMEM;]: the return is taken
    whatever krealloc() gave, and the two assignments after it are never
    reached. *)
Definition fb_ns_setcolreg (regno red green blue transp virt : Z) : M Z :=
  v <- load_info virt ;;
  BUG_ON (negb (fb_info_is_virt v)) ;;;
  fb_debug_diff virt ;;;
  fb_ns_info <- load_par virt ;;
  if colreg_pos fb_ns_info =? colreg_len fb_ns_info then
    let size := wrap_int (colreg_pos fb_ns_info + 256) in
    _ <- krealloc_colreg (colreg fb_ns_info) size ;;
    ret (- ENOMEM)
  else
    a <- load_colreg (colreg fb_ns_info) ;;
    let pos := colreg_pos fb_ns_info in
    if (pos <? 0) || (Z.of_nat (length a) <=? pos) then oops
    else
      store (colreg fb_ns_info)
        (BColreg (<[Z.to_nat pos := mk_fb_colreg (to_u32 regno) (to_u16 red)
                                      (to_u16 green) (to_u16 blue)
                                      (to_u16 transp)]> a)) ;;;
      store_par virt (set_colreg_pos fb_ns_info (wrap_int (pos + 1))) ;;;
      ret 0.

(** [info->fbops->fb_setcolreg(...)]: the call faults when the slot is
    [NULL]. *)
Definition call_fb_setcolreg (hw : Z) (c : fb_colreg) : M Z :=
  i <- load_info hw ;;
  ops <- load_ops (fbops i) ;;
  match slot ops op_fb_setcolreg with
  | None => oops
  | Some _ =>
      fun w =>
        let r := hw_fb_setcolreg (trace w) (regno c) (red c) (green c)
                                 (blue c) (transp c) hw in
        Ret r (set_trace (trace w ++ [EvSetColreg hw c r]) w)
  end.

(** The body of [while (i--)] in fb_ns_apply_colreg, over the entries still
    to replay. *)
Fixpoint apply_colreg_loop (hw : Z) (l : list fb_colreg) (err : Z) : M Z :=
  match l with
  | [] => ret err
  | c :: l' =>
      r <- call_fb_setcolreg hw c ;;
      apply_colreg_loop hw l' (if (r <? 0) && (err =? 0) then r else err)
  end.

(** ** fb_ns_apply_colreg *)
Definition fb_ns_apply_colreg (virt : Z) : M Z :=
  fb_ns_info <- load_par virt ;;
  hw <- fb_virt_to_info virt ;;
  let i := colreg_pos fb_ns_info in
  err <- (if i =? 0 then ret 0
          else
            a <- load_colreg (colreg fb_ns_info) ;;
            if (i <? 0) || (Z.of_nat (length a) <? i) then oops
            else apply_colreg_loop hw (take (Z.to_nat i) a) 0) ;;
  n <- load_par virt ;;
  store_par virt (set_colreg_pos n 0) ;;;
  ret err.

(** ** fb_ns_apply_setpar

    The source returns 0 right after its first pr_info(); the test of
    [var->xres], the copy into [info->var], the call of the driver's
    fb_set_par and the reset of [var->xres] come after that return. *)
Definition fb_ns_apply_setpar (virt : Z) : M Z :=
  _ <- load_par virt ;;
  _ <- fb_virt_to_info virt ;;
  ret 0.

(** memcpy() between two buffers; running over either end is an invalid
    access. *)
Definition memcpy (dst src size : Z) : M unit :=
  s <- load_mem src ;;
  d <- load_mem dst ;;
  if (Z.of_nat (length s) <? size) || (Z.of_nat (length d) <? size) then oops
  else store dst (BMem (take (Z.to_nat size) s ++ drop (Z.to_nat size) d)).

Definition fb_memcpy_tofb (dst src size : Z) : M unit :=
  log (EvMemcpyToFb dst src size) ;;; memcpy dst src size.

Definition fb_memcpy_fromfb (dst src size : Z) : M unit :=
  log (EvMemcpyFromFb dst src size) ;;; memcpy dst src size.

(** [((unsigned long * ) p)[0]] and [[1]], read for a message: a buffer
    shorter than two longs is an invalid access. *)
Definition peek_two_longs (p : Z) : M unit :=
  m <- load_mem p ;;
  if Z.of_nat (length m) <? 2 * sizeof_long then oops else ret tt.

(** ** fb_ns_swap_vmem *)
Definition fb_ns_swap_vmem (virt : Z) (activate : bool) : M unit :=
  hw <- fb_virt_to_info virt ;;
  v <- load_info virt ;;
  let size := smem_len (fix_ v) in
  fb_debug_diff virt ;;;
  i <- load_info hw ;;
  (* do nothing for zero size framebuffers *)
  if (size =? 0) || (screen_base i =? NULL) || (screen_base v =? NULL)
  then ret tt
  else
    peek_two_longs (screen_base i) ;;;
    peek_two_longs (screen_base v) ;;;
    (* follow logic in fb_read()/fb_write() *)
    ops <- load_ops (fbops i) ;;
    match slot ops op_fb_sync with
    | Some _ => log (EvSync hw)
    | None => ret tt
    end ;;;
    (if activate then fb_memcpy_tofb (screen_base i) (screen_base v) size
     else fb_memcpy_fromfb (screen_base v) (screen_base i) size) ;;;
    peek_two_longs (screen_base i) ;;;
    peek_two_longs (screen_base v).

(** struct fb_mmlist, without its link.  [mm_vma] is the vma that
    find_vma(mm, start) gives back in the second loop: with nothing else
    running it is the vma the entry was collected from, whose file maps
    [mapping], so the BUG_ON() there does not fire. *)
Record fb_mmlist := mk_mmlist {
  mm : Z;
  start : Z;
  size : Z;
  mm_vma : Z;
}.

(** The first loop of do_fb_ns_remap: collect the address spaces that map
    the file, newest first; stop with -ENOMEM when kmalloc() fails. *)
Fixpoint remap_collect (vmas : list Z) (mmhead : list fb_mmlist)
  : M (Z * list fb_mmlist) :=
  match vmas with
  | [] => ret (0, mmhead)
  | vma :: rest =>
      ok <- try_alloc ;;
      if negb ok then ret (- ENOMEM, mmhead)
      else
        v <- load_vma vma ;;
        log (EvMmGrab (vm_mm v)) ;;;
        remap_collect rest
          (mk_mmlist (vm_mm v) (vm_start v) (vm_end v - vm_start v) vma
           :: mmhead)
  end.

Definition clear_vm_io (v : vm_area_struct) : vm_area_struct :=
  mk_vma (vm_mm v) (vm_start v) (vm_end v) (vm_pgoff v)
         (Z.land (vm_flags v) (Z.lnot VM_IO)) (vm_file v).

(** vma_adjust(vma, vma->vm_start, vma->vm_end, pgoff, NULL) of mm/mmap.c:
    the range stays and [vm_pgoff] becomes [pgoff]; its result is only
    reported. *)
Definition vma_adjust (v : vm_area_struct) (pgoff : Z) : vm_area_struct :=
  mk_vma (vm_mm v) (vm_start v) (vm_end v) pgoff (vm_flags v) (vm_file v).

(** [vma->vm_file->f_op->mmap(vma->vm_file, vma)]: the file's mmap gives a
    result and leaves the vma as it sees fit. *)
Definition call_f_op_mmap (vma : Z) : M Z :=
  v <- load_vma vma ;;
  w <- get_world ;;
  let r := f_op_mmap (trace w) vma in
  store vma (BVma (f_op_mmap_vma (trace w) vma v)) ;;;
  log (EvMmap vma r) ;;;
  ret r.

(** The second loop: unmap the old buffer, map the new one. *)
Fixpoint remap_apply (l : list fb_mmlist) (err : Z) : M Z :=
  match l with
  | [] => ret err
  | m :: l' =>
      log (EvDownWrite (mm m)) ;;;
      v <- load_vma (mm_vma m) ;;
      (* remove previous mapping *)
      log (EvZapPageRange (mm_vma m) (start m) (size m)) ;;;
      log (EvVmaAdjust (mm_vma m)) ;;;
      store (mm_vma m) (BVma (clear_vm_io (vma_adjust v 0))) ;;;
      (* create new mapping *)
      r <- call_f_op_mmap (mm_vma m) ;;
      log (EvUpWrite (mm m)) ;;;
      (* proceed in case of errors *)
      remap_apply l' (if (r <? 0) && (err =? 0) then r else err)
  end.

(** The loop at [out:]. *)
Fixpoint remap_drop (l : list fb_mmlist) : M unit :=
  match l with
  | [] => ret tt
  | m :: l' => log (EvMmDrop (mm m)) ;;; remap_drop l'
  end.

(** ** do_fb_ns_remap

    [mapping] is [inode->i_mapping], named by its inode. *)
Definition do_fb_ns_remap (virt mapping : Z) : M Z :=
  log (EvIMmapLock mapping) ;;;
  w <- get_world ;;
  c <- remap_collect (default [] (i_mmap w !! mapping)) [] ;;
  log (EvIMmapUnlock mapping) ;;;
  err <- (if c.1 <? 0 then ret c.1 else remap_apply c.2 c.1) ;;
  remap_drop c.2 ;;;
  ret err.

(** The body of the [for] loop of fb_ns_swap_mmap, over the tracked inodes
    still to visit. *)
Fixpoint swap_mmap_loop (virt : Z) (l : list fb_inode) (err : Z) : M Z :=
  match l with
  | [] => ret err
  | e :: l' =>
      (if inode e =? NULL then oops else ret tt) ;;;
      r <- do_fb_ns_remap virt (inode e) ;;
      swap_mmap_loop virt l' (if (r <? 0) || (err =? 0) then r else err)
  end.

(** ** fb_ns_swap_mmap *)
Definition fb_ns_swap_mmap (virt : Z) (activate : bool) : M Z :=
  fb_ns_info <- load_par virt ;;
  swap_mmap_loop virt
    (take (Z.to_nat (inodes_len fb_ns_info)) (inodes fb_ns_info)) 0.

(** fb_pan_display() of fbmem.c; its result is not looked at. *)
Definition fb_pan_display (hw : Z) (v : fb_var_screeninfo) : M unit :=
  log (EvPanDisplay hw v).

(** ** do_fb_activate_ns *)
Definition do_fb_activate_ns (virt : Z) (activate : bool) : M Z :=
  r <- fb_ns_swap_mmap virt activate ;;
  if r <? 0 then ret r
  else
    fb_ns_swap_vmem virt activate ;;;
    (if activate then
       _ <- fb_ns_apply_colreg virt ;;
       _ <- fb_ns_apply_setpar virt ;;
       ret tt
     else ret tt) ;;;
    (if CONFIG_FB_DEV_NS_PAN && activate then
       hw <- fb_virt_to_info virt ;;
       v <- load_info virt ;;
       fb_pan_display hw (var v)
     else ret tt) ;;;
    ret 0.

End fb_devns.

(** * The other operations of a shadow, and the callbacks *)

(** What these need from the rest of the kernel, besides [kernel]. *)
Class notifications := {
  DEV_NS_EVENT_ACTIVATE : Z;     (* linux/dev_namespace.h *)
  DEV_NS_EVENT_DEACTIVATE : Z;   (* linux/dev_namespace.h *)
  FB_EVENT_FB_REGISTERED : Z;    (* linux/fb.h *)
  FB_EVENT_FB_UNREGISTERED : Z;  (* linux/fb.h *)
  (* what info->fbops->fb_debug_enter(info) returns *)
  hw_fb_debug_enter : list event -> Z -> Z;
  (* what info->fbops->fb_debug_leave(info) returns *)
  hw_fb_debug_leave : list event -> Z -> Z;
  (* what info->fbops->fb_check_var(var, info) returns *)
  hw_fb_check_var : list event -> Z -> Z -> Z;
}.

(** The part of struct fb_cmap the file touches. *)
Record fb_cmap := mk_fb_cmap {
  cmap_start : Z;  (* the field [start] *)
  cmap_len : Z;    (* the field [len] *)
}.

(** The pointer a function returning a pointer or an ERR_PTR() hands to a
    caller that does not test it with IS_ERR(): ERR_PTR(e) is the pointer
    of value [e]. *)
Definition ptr_of (r : ptr_or_err) : Z :=
  match r with
  | Ptr p => p
  | ERR_PTR e => e
  end.

Section fb_devns_callbacks.
Context `{K : kernel} `{N : notifications}.

(** ** fb_ns_check_var

    The driver's handler may adjust [*var], which belongs to the caller. *)
Definition fb_ns_check_var (var virt : Z) : M Z :=
  v <- load_info virt ;;
  BUG_ON (negb (fb_info_is_virt v)) ;;;
  fb_debug_diff virt ;;;
  info <- fb_virt_to_info virt ;;
  i <- load_info info ;;
  ops <- load_ops (fbops i) ;;
  match slot ops op_fb_check_var with
  | Some _ => fun w => Ret (hw_fb_check_var (trace w) var info) w
  | None => ret 0
  end.

(** ** fb_ns_setcmap

    [cmap] is the struct fb_cmap the pointer leads to, [None] when it leads
    to none: the FB_NOISE() reads [cmap->start] and [cmap->len]. *)
Definition fb_ns_setcmap (cmap : option fb_cmap) (virt : Z) : M Z :=
  v <- load_info virt ;;
  BUG_ON (negb (fb_info_is_virt v)) ;;;
  fb_debug_diff virt ;;;
  match cmap with
  | None => oops
  | Some _ => ret 0
  end.

(** ** fb_ns_cursor *)
Definition fb_ns_cursor (virt cursor : Z) : M Z :=
  v <- load_info virt ;;
  BUG_ON (negb (fb_info_is_virt v)) ;;;
  ret 0.

(** ** fb_ns_rotate: the pr_info() reads [virt->node]. *)
Definition fb_ns_rotate (virt angle : Z) : M unit :=
  _ <- load_info virt ;;
  ret tt.

(** ** fb_ns_ioctl *)
Definition fb_ns_ioctl (virt cmd arg : Z) : M Z :=
  v <- load_info virt ;;
  BUG_ON (negb (fb_info_is_virt v)) ;;;
  fb_debug_diff virt ;;;
  ret 0.

(** ** fb_ns_compat_ioctl *)
Definition fb_ns_compat_ioctl (virt cmd arg : Z) : M Z :=
  v <- load_info virt ;;
  BUG_ON (negb (fb_info_is_virt v)) ;;;
  fb_debug_diff virt ;;;
  ret 0.

(** [info->fbops->o] read in order to be called: the call faults when the
    slot is [NULL]. *)
Definition hw_slot (o : fb_op) (hw : Z) : M handler :=
  i <- load_info hw ;;
  ops <- load_ops (fbops i) ;;
  match slot ops o with
  | None => oops
  | Some h => ret h
  end.

(** ** fb_ns_get_caps

    The driver's handler fills in [*caps], which belongs to the caller. *)
Definition fb_ns_get_caps (virt caps var : Z) : M unit :=
  v <- load_info virt ;;
  BUG_ON (negb (fb_info_is_virt v)) ;;;
  fb_debug_diff virt ;;;
  info <- fb_virt_to_info virt ;;
  _ <- hw_slot op_fb_get_caps info ;;
  ret tt.

(** ** fb_ns_debug_enter *)
Definition fb_ns_debug_enter (virt : Z) : M Z :=
  v <- load_info virt ;;
  BUG_ON (negb (fb_info_is_virt v)) ;;;
  info <- fb_virt_to_info virt ;;
  _ <- hw_slot op_fb_debug_enter info ;;
  fun w => Ret (hw_fb_debug_enter (trace w) info) w.

(** ** fb_ns_debug_leave *)
Definition fb_ns_debug_leave (virt : Z) : M Z :=
  v <- load_info virt ;;
  BUG_ON (negb (fb_info_is_virt v)) ;;;
  info <- fb_virt_to_info virt ;;
  _ <- hw_slot op_fb_debug_leave info ;;
  fun w => Ret (hw_fb_debug_leave (trace w) info) w.

(** Modelled from the spec: [find_fb_ns], like [get_fb_ns_cur], comes from
    the macro DEFINE_DEV_NS_INFO of linux/dev_namespace.h, which is not part
    of the sources.  The specification's NamespaceShadowSet is "one per
    namespace", "created lazily on first access from that namespace": finding
    it gives the set of a namespace that has one and [NULL] for one that has
    none; it creates nothing and takes no reference. *)
Definition find_fb_ns (dev_ns : Z) : M Z :=
  fun w => Ret (default NULL (fb_ns_of w !! dev_ns)) w.

(** The body of the [for] loop of fb_activate_ns, over the indices still to
    visit. *)
Fixpoint activate_loop (fb_ns : Z) (idx : list nat) (activate : bool)
    (err : Z) : M Z :=
  match idx with
  | [] => ret err
  | i :: rest =>
      virt <- fb_slot fb_ns (Z.of_nat i) ;;
      if virt =? NULL then activate_loop fb_ns rest activate err
      else
        r <- do_fb_activate_ns virt activate ;;
        activate_loop fb_ns rest activate (if r <? 0 then r else err)
  end.

(** ** fb_activate_ns: the WARN() only reports. *)
Definition fb_activate_ns (dev_ns : Z) (activate : bool) : M Z :=
  log EvMutexLock ;;;
  fb_ns <- find_fb_ns dev_ns ;;
  err <- activate_loop fb_ns (seq 0 FB_MAX) activate 0 ;;
  log EvMutexUnlock ;;;
  ret err.

(** ** fb_ns_switch_callback: [data] is the namespace. *)
Definition fb_ns_switch_callback (action data : Z) : M Z :=
  if action =? DEV_NS_EVENT_ACTIVATE then fb_activate_ns data true
  else if action =? DEV_NS_EVENT_DEACTIVATE then fb_activate_ns data false
  else ret 0.

(** ** fb_ns_event_callback

    [data] is the struct fb_event, given by its field [info]; [None] is a
    [NULL] event.  The result of get_fb_info_ns() is used as it comes. *)
Definition fb_ns_event_callback (action : Z) (data : option Z) : M Z :=
  match data with
  | None => ret 0
  | Some info =>
      if info =? NULL then ret 0
      else
        _ <- load_info info ;;  (* the pr_debug() reads [info->node] *)
        if action =? FB_EVENT_FB_REGISTERED then ret 0
        else if action =? FB_EVENT_FB_UNREGISTERED then
          r <- get_fb_info_ns info ;;
          let virt := ptr_of r in
          a <- fb_virt_is_active virt ;;
          (if a then _ <- do_fb_activate_ns virt false ;; ret tt
           else ret tt) ;;;
          put_fb_info_ns virt ;;;
          ret 0
        else ret 0
  end.

End fb_devns_callbacks.
(** * Vocabulary of the properties *)

Definition returned {A} (o : outcome A) : option A :=
  match o with Ret a _ => Some a | _ => None end.

(** The events a run adds to the history. *)
Definition events_of {A} (m : M A) (w : world) : list event :=
  drop (length (trace w)) (trace (final (m w))).

(** The fb_info at [p], when there is one. *)
Definition info_at (w : world) (p : Z) : option fb_info :=
  match heap w !! p with
  | Some (BInfo i) => Some i
  | _ => None
  end.

(** The private data of the shadow at [virt], when there is one. *)
Definition par_at (w : world) (virt : Z) : option fb_ns_info :=
  match heap w !! virt with
  | Some (BInfo v) => par v
  | _ => None
  end.

(** The consumers a shadow tracks, in table order. *)
Definition tracked (n : fb_ns_info) : list Z :=
  inode <$> take (Z.to_nat (inodes_len n)) (inodes n).

(** ** What a run can change

    [steps R m]: from any state, [m] ends (normally or not) in a state
    related to it by [R]. *)
Definition steps (R : relation world) {A} (m : M A) : Prop :=
  forall w, R w (final (m w)).

(** [changes keep P w w']: going from [w] to [w'] no object was freed or
    turned into one of another type, the objects of the kinds in [keep] are
    as they were, and the events added to the history all satisfy [P]. *)
Record changes (keep : kind -> bool) (P : event -> bool) (w w' : world)
  : Prop := mk_changes {
  ch_heap : forall p b,
    heap w !! p = Some b ->
    exists b', heap w' !! p = Some b' /\ kind_of b' = kind_of b /\
               (keep (kind_of b) = true -> b' = b);
  ch_trace : exists evs, trace w' = trace w ++ evs /\ forallb P evs = true;
  ch_current : current_dev_ns w' = current_dev_ns w;
  ch_active : active_dev_ns w' = active_dev_ns w;
  ch_fb_ns_of : fb_ns_of w' = fb_ns_of w;
  ch_i_mmap : i_mmap w' = i_mmap w;
}.

Inductive step_kind := StepRepoint | StepCopy | StepDrain.

(** The step an event belongs to; allocation, locking of [fb_ns_mutex] and
    the forced pan belong to none. *)
Definition step_of (e : event) : option step_kind :=
  match e with
  | EvIMmapLock _ | EvIMmapUnlock _ | EvMmGrab _ | EvMmDrop _
  | EvDownWrite _ | EvUpWrite _ | EvZapPageRange _ _ _ | EvVmaAdjust _
  | EvMmap _ _ => Some StepRepoint
  | EvSync _ | EvMemcpyToFb _ _ _ | EvMemcpyFromFb _ _ _ => Some StepCopy
  | EvSetColreg _ _ _ | EvSetPar _ _ _ => Some StepDrain
  | _ => None
  end.

Fixpoint nondecreasing (l : list nat) : bool :=
  match l with
  | [] => true
  | a :: l' => forallb (Nat.leb a) l' && nondecreasing l'
  end.

(** The events of the steps come in the order [rank] gives the steps. *)
Definition in_order (rank : step_kind -> nat) (evs : list event) : bool :=
  nondecreasing (rank <$> omap step_of evs).

(** Copy, re-point, drain. *)
Definition copy_first (k : step_kind) : nat :=
  match k with StepCopy => 0 | StepRepoint => 1 | StepDrain => 2 end.

(** Re-point, copy, drain. *)
Definition repoint_first (k : step_kind) : nat :=
  match k with StepRepoint => 0 | StepCopy => 1 | StepDrain => 2 end.

Definition only (k : option step_kind) (e : event) : bool :=
  match step_of e, k with
  | None, _ => true
  | Some StepRepoint, Some StepRepoint => true
  | Some StepCopy, Some StepCopy => true
  | Some StepDrain, Some StepDrain => true
  | _, _ => false
  end.

(** The events of one consumer's re-point, after the lock of its mapping. *)
Definition repoint_inner (e : event) : bool :=
  match e with
  | EvAlloc _ | EvIMmapUnlock _ | EvMmGrab _ | EvMmDrop _ | EvDownWrite _
  | EvUpWrite _ | EvZapPageRange _ _ _ | EvVmaAdjust _ | EvMmap _ _ => true
  | _ => false
  end.

(** The consumer whose re-point an event starts. *)
Definition locked_mapping (e : event) : option Z :=
  match e with EvIMmapLock m => Some m | _ => None end.

Definition is_vma (w : world) (p : Z) : bool :=
  match heap w !! p with Some (BVma _) => true | _ => false end.

(** A tracked inode is a valid pointer and the vmas of its mapping exist. *)
Definition mapping_ok (w : world) (ino : Z) : bool :=
  negb (ino =? NULL) && forallb (is_vma w) (default [] (i_mmap w !! ino)).

Definition all_kinds (k : kind) : bool := true.
Definition but_vma (k : kind) : bool :=
  match k with KVma => false | _ => true end.
Definition but_mem (k : kind) : bool :=
  match k with KMem => false | _ => true end.
Definition but_info (k : kind) : bool :=
  match k with KInfo => false | _ => true end.

(** One relation after another. *)
Definition then_ (R1 R2 : relation world) : relation world :=
  fun w w'' => exists w', R1 w w' /\ R2 w' w''.

Definition colreg_of (e : event) : option fb_colreg :=
  match e with EvSetColreg _ c _ => Some c | _ => None end.

Definition result_of (e : event) : option Z :=
  match e with EvSetColreg _ _ r => Some r | _ => None end.

(** The first negative result, 0 when there is none. *)
Fixpoint first_error (rets : list Z) : Z :=
  match rets with
  | [] => 0
  | r :: rets' => if r <? 0 then r else first_error rets'
  end.

(** The staged sequence of a shadow: the first [colreg_pos] entries of its
    array. *)
Definition staged (w : world) (n : fb_ns_info) : option (list fb_colreg) :=
  if colreg_pos n =? 0 then Some []
  else
    match heap w !! colreg n with
    | Some (BColreg a) =>
        if (0 <? colreg_pos n) && (colreg_pos n <=? Z.of_nat (length a))
        then Some (take (Z.to_nat (colreg_pos n)) a)
        else None
    | _ => None
    end.

Definition is_copy (e : event) : bool :=
  match step_of e with Some StepCopy => true | _ => false end.

Definition only_mem (k : kind) : bool :=
  match k with KMem => true | _ => false end.

(** The slot of hardware index [idx] in the table of the calling task's
    namespace. *)
Definition slot_at (w : world) (idx : Z) : option Z :=
  match fb_ns_of w !! current_dev_ns w with
  | Some p =>
      match heap w !! p with
      | Some (BNs ns) => fb ns !! Z.to_nat idx
      | _ => None
      end
  | None => None
  end.

(** The namespace has no shadow for the index yet: it has no table, or the
    slot is [NULL]. *)
Definition slot_free (w : world) (idx : Z) : Prop :=
  fb_ns_of w !! current_dev_ns w = None \/ slot_at w idx = Some NULL.

Definition count_at (w : world) (p : Z) : option Z := count <$> info_at w p.

(** The state a shadow [v] of hardware [hw] is in while the calling task's
    namespace holds it in its table with reference count [c]. *)
Definition shadow_ok (w : world) (hw : Z) (hwi : fb_info) (v c : Z)
    (n : fb_ns_info) : Prop :=
  exists ns vi,
    fb_ns_of w !! current_dev_ns w = Some (fb_ns n) /\
    heap w !! fb_ns n = Some (BNs ns) /\
    heap w !! hw = Some (BInfo hwi) /\
    0 <= node hwi /\
    fb ns !! Z.to_nat (node hwi) = Some v /\
    fb_ns n <> NULL /\ v <> NULL /\ hw <> v /\
    heap w !! v = Some (BInfo vi) /\
    node vi = node hwi /\ count vi = c /\ par vi = Some n /\
    (vmem_buf n = NULL \/ exists b, heap w !! vmem_buf n = Some (BMem b)) /\
    (colreg n = NULL \/ exists a, heap w !! colreg n = Some (BColreg a)) /\
    (fbops vi = NULL \/ exists o, heap w !! fbops vi = Some (BOps o)).

Definition is_set_par (e : event) : bool :=
  match e with EvSetPar _ _ _ => true | _ => false end.

(** The vma and the result of a call of the file's mmap. *)
Definition mmap_of (e : event) : option (Z * Z) :=
  match e with EvMmap vma r => Some (vma, r) | _ => None end.

Section vocabulary.
Context `{K : kernel}.

(** The namespace that owns a shadow is in the foreground, or is the initial
    namespace. *)
Definition owner_active (w : world) (ns : fb_dev_ns) : bool :=
  bool_decide (dev_ns ns ∈ active_dev_ns w) || (dev_ns ns =? init_dev_ns).

(** What do_fb_ns_remap does once it has locked the mapping. *)
Definition remap_locked (mapping : Z) : M Z :=
  w <- get_world ;;
  c <- remap_collect (default [] (i_mmap w !! mapping)) [] ;;
  log (EvIMmapUnlock mapping) ;;;
  err <- (if c.1 <? 0 then ret c.1 else remap_apply c.2 c.1) ;;
  remap_drop c.2 ;;;
  ret err.

(** The specification's replay, following its words - "replays every staged
    palette entry against the hardware device's own operation, in original
    submission order, continuing past individual failures": one call of the
    driver's fb_setcolreg on the hardware [hw] for each entry of [l], in the
    order of [l], each recorded with the result the driver gives at that
    point of the history [t]. *)
Fixpoint driver_replay (hw : Z) (t : list event) (l : list fb_colreg)
  : list event :=
  match l with
  | [] => []
  | c :: l' =>
      let e := EvSetColreg hw c
                 (hw_fb_setcolreg t (regno c) (red c) (green c) (blue c)
                                  (transp c) hw) in
      e :: driver_replay hw (t ++ [e]) l'
  end.

(** What do_fb_activate_ns does after the copy. *)
Definition after_copy (virt : Z) (activate : bool) : M Z :=
  (if activate then
     _ <- fb_ns_apply_colreg virt ;;
     _ <- fb_ns_apply_setpar virt ;;
     ret tt
   else ret tt) ;;;
  (if CONFIG_FB_DEV_NS_PAN && activate then
     hw <- fb_virt_to_info virt ;;
     v <- load_info virt ;;
     fb_pan_display hw (var v)
   else ret tt) ;;;
  ret 0.

End vocabulary.

(** ** A concrete machine

    One hardware framebuffer (index 0, eight bytes of video memory at 20, a
    driver with palette, mode-set and sync operations) and the shadow that a
    task of namespace 200 got for it. *)
Module Scenario.

Definition hw_ops : fb_ops :=
  [(op_fb_setcolreg, h_driver); (op_fb_set_par, h_driver);
   (op_fb_sync, h_driver)].

(** A kernel whose allocations succeed and whose driver accepts everything. *)
Definition K0 : kernel :=
  {| FBINFO_DEV_NS := 0x40000; FB_MAX := 4; ENOMEM := 12; VM_IO := 0x4000;
     init_dev_ns := 100; CONFIG_FB_DEV_NS_PAN := false;
     alloc_ok := fun _ => true;
     hw_fb_setcolreg := fun _ _ _ _ _ _ _ => 0;
     hw_fb_set_par := fun _ _ => 0;
     f_op_mmap := fun _ _ => 0;
     f_op_mmap_vma := fun _ _ v => v; sizeof_long := 4 |}.

Definition hw0 : fb_info :=
  mk_fb_info 0 1 1 (mk_fix 7 1000 8) (mk_var 640 480) 0 0 0 20 8 30 0 None.

(** Before any access from namespace 200. *)
Definition w0 : world :=
  mk_world (<[10 := BInfo hw0]> (<[20 := BMem [1; 2; 3; 4; 5; 6; 7; 8]]>
            (<[30 := BOps hw_ops]> ∅)))
           [] 200 ∅ ∅ ∅.

(** The shadow of hardware 10 in namespace 200: its private data, its
    operations and the fb_info itself, at 32, with backing buffer 33. *)
Definition n1 : fb_ns_info :=
  mk_fb_ns_info 31 10 zero_var NULL 0 0 33 8 20 8 [] 0.

Definition v1_ops : fb_ops :=
  [(op_fb_open, h_fb_ns_open); (op_fb_release, h_fb_ns_release);
   (op_fb_read, h_fb_sys_read); (op_fb_write, h_fb_sys_write);
   (op_fb_set_par, h_fb_ns_set_par); (op_fb_setcolreg, h_fb_ns_setcolreg);
   (op_fb_mmap, h_fb_ns_mmap); (op_fb_destroy, h_fb_ns_destroy);
   (op_fb_debug_leave, h_fb_ns_debug_leave)].

Definition v1 : fb_info :=
  mk_fb_info 0 0x40001 1 (mk_fix 7 33 8) (mk_var 640 480) 0 0 0 33 8 34 0
             (Some n1).

Definition ns1 : fb_dev_ns := mk_fb_dev_ns [32; 0; 0; 0] 200 1.

(** After the first [get_fb_info_ns]. *)
Definition w1 : world :=
  mk_world (<[31 := BNs ns1]> (<[32 := BInfo v1]>
            (<[33 := BMem [0; 0; 0; 0; 0; 0; 0; 0]]>
            (<[34 := BOps v1_ops]> (heap w0)))))
           [EvAlloc true; EvNotifyRegister 200; EvMutexLock; EvAlloc true;
            EvAlloc true; EvAlloc true; EvMutexUnlock]
           200 ∅ {[200 := 31]} ∅.

(** The same, with namespace 200 in the foreground. *)
Definition w1_active : world :=
  mk_world (heap w1) (trace w1) 200 {[200]} (fb_ns_of w1) (i_mmap w1).

(** What fb_set_var() of fbmem.c does around the call of the operation:
    [info->var = *var;] and then [info->fbops->fb_set_par(info)]. *)
Definition set_var_of (i : fb_info) (g : fb_var_screeninfo) : fb_info :=
  mk_fb_info (node i) (flags i) (count i) (fix_ i) g (pseudo_palette i)
             (cmap i) (pixmap i) (screen_base i) (screen_size i) (fbops i)
             (device i) (par i).

Definition stage_mode (virt : Z) (g : fb_var_screeninfo) : M Z :=
  v <- load_info virt ;;
  store_info virt (set_var_of v g) ;;;
  fb_ns_set_par (K := K0) virt.

Definition G1 : fb_var_screeninfo := mk_var 1024 768.
Definition G2 : fb_var_screeninfo := mk_var 800 600.

(** The shadow 32 with two consumers tracked (inodes 77 and 78, each mapped
    once, by the vmas 50 and 51), three palette updates staged at 60 and a
    drawing in its backing buffer. *)
Definition staged3 : list fb_colreg :=
  [mk_fb_colreg 1 10 10 10 0; mk_fb_colreg 2 20 20 20 0;
   mk_fb_colreg 3 255 0 0 255].

Definition n2 : fb_ns_info :=
  mk_fb_ns_info 31 10 zero_var 60 3 3 33 8 20 8
                [mk_fb_inode 77 1; mk_fb_inode 78 1] 2.

Definition v2 : fb_info :=
  mk_fb_info 0 0x40001 1 (mk_fix 7 33 8) (mk_var 640 480) 0 0 0 33 8 34 0
             (Some n2).

Definition w2 : world :=
  mk_world (<[32 := BInfo v2]> (<[33 := BMem [9; 8; 7; 6; 5; 4; 3; 2]]>
            (<[50 := BVma (mk_vma 900 4096 8192 0 0x4000 70)]>
            (<[51 := BVma (mk_vma 901 4096 8192 0 0x4000 71)]>
            (<[60 := BColreg staged3]> (heap w1))))))
           (trace w1) 200 ∅ (fb_ns_of w1) {[77 := [50]; 78 := [51]]}.

(** A driver that refuses registers 2 and 3. *)
Definition K_palette : kernel :=
  {| FBINFO_DEV_NS := 0x40000; FB_MAX := 4; ENOMEM := 12; VM_IO := 0x4000;
     init_dev_ns := 100; CONFIG_FB_DEV_NS_PAN := false;
     alloc_ok := fun _ => true;
     hw_fb_setcolreg := fun _ regno _ _ _ _ _ =>
       if regno =? 2 then -22 else if regno =? 3 then -5 else 0;
     hw_fb_set_par := fun _ _ => 0;
     f_op_mmap := fun _ _ => 0;
     f_op_mmap_vma := fun _ _ v => v; sizeof_long := 4 |}.

(** A file whose mmap fails, with -11 for vma 50 and -22 for vma 51. *)
Definition K_mmap : kernel :=
  {| FBINFO_DEV_NS := 0x40000; FB_MAX := 4; ENOMEM := 12; VM_IO := 0x4000;
     init_dev_ns := 100; CONFIG_FB_DEV_NS_PAN := false;
     alloc_ok := fun _ => true;
     hw_fb_setcolreg := fun _ _ _ _ _ _ _ => 0;
     hw_fb_set_par := fun _ _ => 0;
     f_op_mmap := fun _ vma => if vma =? 50 then -11 else -22;
     f_op_mmap_vma := fun _ _ v => v; sizeof_long := 4 |}.

(** A second hardware framebuffer, index 1, without video memory, and its
    shadow at 35. *)
Definition hwz : fb_info :=
  mk_fb_info 1 1 1 (mk_fix 8 0 0) zero_var 0 0 0 NULL 0 30 0 None.

Definition nz : fb_ns_info :=
  mk_fb_ns_info 31 11 zero_var NULL 0 0 NULL 0 NULL 0 [] 0.

Definition vz : fb_info :=
  mk_fb_info 1 0x40001 1 (mk_fix 8 0 0) zero_var 0 0 0 NULL 0 36 0 (Some nz).

Definition wz : world :=
  mk_world (<[11 := BInfo hwz]> (<[35 := BInfo vz]>
            (<[36 := BOps v1_ops]>
            (<[31 := BNs (mk_fb_dev_ns [32; 35; 0; 0] 200 2)]> (heap w1)))))
           (trace w1) 200 ∅ (fb_ns_of w1) ∅.

(** The machine of [wz] after the driver of hardware 11 announced a screen
    of 4096 bytes; the shadow 35 still records the size 0 it was created
    with. *)
Definition hwz_grown : fb_info :=
  mk_fb_info 1 1 1 (mk_fix 8 0 0) zero_var 0 0 0 NULL 4096 30 0 None.

Definition wz_grown : world :=
  set_heap (<[11 := BInfo hwz_grown]> (heap wz)) wz.

End Scenario.


(** ** Vocabulary of the further properties *)

(** The array of tracked inodes has the size its length field says. *)
Definition inodes_sized (n : fb_ns_info) : Prop :=
  0 <= inodes_len n /\ length (inodes n) = Z.to_nat (inodes_len n).

(** The use count a shadow keeps for an inode, when it tracks it. *)
Definition use_of (n : fb_ns_info) (ino : Z) : option Z :=
  (fun p => use_count p.2)
    <$> list_find (fun e => inode e = ino)
                  (take (Z.to_nat (inodes_len n)) (inodes n)).

(** The driver operations a shadow offers only when the hardware has them,
    by the tests of fb_ns_make_fb_ops that read the slot they clear. *)
Definition optional_ops : list fb_op :=
  [op_fb_check_var; op_fb_setcmap; op_fb_fillrect; op_fb_copyarea;
   op_fb_imageblit; op_fb_cursor; op_fb_rotate; op_fb_ioctl;
   op_fb_get_caps; op_fb_compat_ioctl].

(** The address space a reference is taken on, or dropped from. *)
Definition grabbed_mm (e : event) : option Z :=
  match e with EvMmGrab mm => Some mm | _ => None end.

Definition dropped_mm (e : event) : option Z :=
  match e with EvMmDrop mm => Some mm | _ => None end.

(** An event of the first loop of do_fb_ns_remap. *)
Definition collects (e : event) : bool :=
  match e with
  | EvAlloc _ | EvMmGrab _ => true
  | _ => false
  end.

(** An event of the second loop of do_fb_ns_remap: something is done to a
    mapping. *)
Definition touches_mapping (e : event) : bool :=
  match e with
  | EvDownWrite _ | EvUpWrite _ | EvZapPageRange _ _ _ | EvVmaAdjust _
  | EvMmap _ _ => true
  | _ => false
  end.

(** An event on [fb_ns_mutex]. *)
Definition on_mutex (e : event) : bool :=
  match e with
  | EvMutexLock | EvMutexUnlock => true
  | _ => false
  end.

Definition off_mutex (e : event) : bool := negb (on_mutex e).

(** Any object may change. *)
Definition no_kinds (k : kind) : bool := false.

Section vocabulary_shadow.
Context `{K : kernel}.

(** [virt] is a shadow whose recorded geometry is that of its hardware
    device. *)
Definition shadow_at (w : world) (virt : Z) (v : fb_info) (n : fb_ns_info)
    (hwi : fb_info) : Prop :=
  heap w !! virt = Some (BInfo v) /\
  fb_info_is_virt v = true /\
  par v = Some n /\
  heap w !! info n = Some (BInfo hwi) /\
  ns_screen_base n = screen_base hwi /\
  ns_screen_size n = screen_size hwi.

(** Each call of the file's mmap in [evs] is recorded with the result the
    file gives at that point of the history, which starts as [t]. *)
Fixpoint mmap_faithful (t evs : list event) : Prop :=
  match evs with
  | [] => True
  | e :: evs' =>
      match e with
      | EvMmap vma r => r = f_op_mmap t vma
      | _ => True
      end /\ mmap_faithful (t ++ [e]) evs'
  end.

(** The events of the copy: the driver's fb_sync when it has one, then the
    copy itself. *)
Definition copy_events (ops : fb_ops) (hw : Z) (e : event) : list event :=
  match slot ops op_fb_sync with
  | Some _ => [EvSync hw; e]
  | None => [e]
  end.

(** The hardware buffer and the backing buffer of a shadow [v] of hardware
    [hwi] exist, are two buffers, and hold [scr] and [buf], each at least as
    long as the length the shadow copies and as the two longs the copy step
    reads for its messages. *)
Definition buffers_at (w : world) (v hwi : fb_info) (scr buf : list Z)
  : Prop :=
  heap w !! screen_base hwi = Some (BMem scr) /\
  heap w !! screen_base v = Some (BMem buf) /\
  screen_base hwi <> NULL /\ screen_base v <> NULL /\
  screen_base hwi <> screen_base v /\
  0 < smem_len (fix_ v) /\
  smem_len (fix_ v) <= Z.of_nat (length scr) /\
  smem_len (fix_ v) <= Z.of_nat (length buf) /\
  2 * sizeof_long <= Z.of_nat (length scr) /\
  2 * sizeof_long <= Z.of_nat (length buf).

End vocabulary_shadow.

(** ** Further machines

    Variations of the machine of [Scenario]. *)
Module Cases.
Import Scenario.

(** The actions of the notifier chains: the framebuffer events as in
    linux/fb.h, sample values for the namespace events. *)
Definition N0 : notifications :=
  {| DEV_NS_EVENT_ACTIVATE := 1; DEV_NS_EVENT_DEACTIVATE := 2;
     FB_EVENT_FB_REGISTERED := 5; FB_EVENT_FB_UNREGISTERED := 6;
     hw_fb_debug_enter := fun _ _ => 0;
     hw_fb_debug_leave := fun _ _ => 0;
     hw_fb_check_var := fun _ _ _ => -22 |}.

(** A kernel out of memory: every allocation fails. *)
Definition K_nomem : kernel :=
  {| FBINFO_DEV_NS := 0x40000; FB_MAX := 4; ENOMEM := 12; VM_IO := 0x4000;
     init_dev_ns := 100; CONFIG_FB_DEV_NS_PAN := false;
     alloc_ok := fun _ => false;
     hw_fb_setcolreg := fun _ _ _ _ _ _ _ => 0;
     hw_fb_set_par := fun _ _ => 0;
     f_op_mmap := fun _ _ => 0;
     f_op_mmap_vma := fun _ _ v => v; sizeof_long := 4 |}.

(** A kernel short of memory: allocation works while the history has fewer
    than five events. *)
Definition K_short : kernel :=
  {| FBINFO_DEV_NS := 0x40000; FB_MAX := 4; ENOMEM := 12; VM_IO := 0x4000;
     init_dev_ns := 100; CONFIG_FB_DEV_NS_PAN := false;
     alloc_ok := fun t => (length t <? 5)%nat;
     hw_fb_setcolreg := fun _ _ _ _ _ _ _ => 0;
     hw_fb_set_par := fun _ _ => 0;
     f_op_mmap := fun _ _ => 0;
     f_op_mmap_vma := fun _ _ v => v; sizeof_long := 4 |}.

(** A file whose mmap marks the vma as I/O memory again, as the mmap of a
    framebuffer does, and fails with -11 for vma 50. *)
Definition K_io : kernel :=
  {| FBINFO_DEV_NS := 0x40000; FB_MAX := 4; ENOMEM := 12; VM_IO := 0x4000;
     init_dev_ns := 100; CONFIG_FB_DEV_NS_PAN := false;
     alloc_ok := fun _ => true;
     hw_fb_setcolreg := fun _ _ _ _ _ _ _ => 0;
     hw_fb_set_par := fun _ _ => 0;
     f_op_mmap := fun _ vma => if vma =? 50 then -11 else 0;
     f_op_mmap_vma := fun _ _ v =>
       mk_vma (vm_mm v) (vm_start v) (vm_end v) (vm_pgoff v)
              (Z.lor (vm_flags v) 0x4000) (vm_file v);
     sizeof_long := 4 |}.

(** The machine of [w0] where [get_fb_info_ns] creates the shadow of
    hardware 10: namespace 200 has its table, at 31, with every slot empty,
    and [fb_ns_mutex] is held. *)
Definition w_tabled : world :=
  mk_world (<[31 := BNs (mk_fb_dev_ns [0; 0; 0; 0] 200 1)]> (heap w0))
           [EvAlloc true; EvNotifyRegister 200; EvMutexLock]
           200 ∅ {[200 := 31]} ∅.

(** The machine of [w1] after the driver moved its video memory to 21. *)
Definition hw_moved : fb_info :=
  mk_fb_info 0 1 1 (mk_fix 7 1000 8) (mk_var 640 480) 0 0 0 21 8 30 0 None.

Definition w_moved : world :=
  set_heap (<[10 := BInfo hw_moved]> (heap w1)) w1.

(** The machine of [w1] with a driver that also has fb_check_var, which
    refuses every mode, fb_get_caps and the two debug hooks. *)
Definition hw_ops_dbg : fb_ops :=
  hw_ops ++ [(op_fb_check_var, h_driver); (op_fb_get_caps, h_driver);
             (op_fb_debug_enter, h_driver); (op_fb_debug_leave, h_driver)].

Definition w_dbg : world :=
  set_heap (<[30 := BOps hw_ops_dbg]> (heap w1)) w1.

(** The shadow 32 with an array of four registers at 60, two of them
    staged. *)
Definition a_room : list fb_colreg :=
  [mk_fb_colreg 1 10 10 10 0; mk_fb_colreg 2 20 20 20 0;
   mk_fb_colreg 0 0 0 0 0; mk_fb_colreg 0 0 0 0 0].

Definition n_room : fb_ns_info :=
  mk_fb_ns_info 31 10 zero_var 60 2 4 33 8 20 8 [] 0.

Definition v_room : fb_info := set_par_of v1 n_room.

Definition w_room : world :=
  set_heap (<[32 := BInfo v_room]> (<[60 := BColreg a_room]> (heap w1))) w1.

(** The machine of [w2] after the deactivation of the shadow 32, and then
    after another namespace drew to the screen. *)
Definition w_back : world :=
  final (do_fb_activate_ns (K := K0) 32 false w2).

Definition w_drawn : world :=
  set_heap (<[20 := BMem [5; 5; 5; 5; 5; 5; 5; 5]]> (heap w_back)) w_back.

(** The machine of [w1] with the second hardware framebuffer registered and
    no shadow of it yet. *)
Definition w_two : world :=
  set_heap (<[11 := BInfo hwz]> (heap w1)) w1.

End Cases.
(** * Properties *)

(** ** Running the monad *)

Section properties.
Context `{K : kernel}.

Lemma bind_Ret {A B} (m : M A) (k : A -> M B) w b w2 :
  bind m k w = Ret b w2 -> exists a w1, m w = Ret a w1 /\ k a w1 = Ret b w2.
Proof. unfold bind. destruct (m w); naive_solver. Qed.

Lemma bind_step {A B} (m : M A) (k : A -> M B) w a w1 :
  m w = Ret a w1 -> bind m k w = k a w1.
Proof. unfold bind. by intros ->. Qed.

Lemma load_info_ok w p i :
  heap w !! p = Some (BInfo i) -> load_info p w = Ret i w.
Proof. unfold load_info. by intros ->. Qed.

Lemma load_par_ok w p i n :
  heap w !! p = Some (BInfo i) -> par i = Some n -> load_par p w = Ret n w.
Proof.
  intros Hp Hn. unfold load_par, bind.
  by rewrite (load_info_ok _ _ _ Hp), Hn.
Qed.

Lemma load_ns_ok w p n :
  heap w !! p = Some (BNs n) -> load_ns p w = Ret n w.
Proof. unfold load_ns. by intros ->. Qed.

(** C7. [fb_virt_to_info_ns] gives the hardware fb_info behind a shadow
    whose namespace is active or is the initial namespace; in every other
    case, also for a handle that is no shadow, it gives back the handle. *)
Theorem fb_virt_to_info_ns_resolves w virt v :
  heap w !! virt = Some (BInfo v) ->
  (fb_info_is_virt v = false -> fb_virt_to_info_ns virt w = Ret virt w) /\
  (forall n ns,
     fb_info_is_virt v = true -> par v = Some n ->
     heap w !! fb_ns n = Some (BNs ns) ->
     fb_virt_to_info_ns virt w
     = Ret (if owner_active w ns then info n else virt) w).
Proof.
  intros Hv. split.
  - intros Hvirt. unfold fb_virt_to_info_ns, fb_virt_is_active, bind.
    rewrite (load_info_ok _ _ _ Hv), Hvirt. reflexivity.
  - intros n ns Hvirt Hn Hns.
    unfold fb_virt_to_info_ns, fb_virt_is_active, fb_virt_to_info, bind.
    rewrite (load_info_ok _ _ _ Hv), Hvirt. cbn [negb].
    rewrite (load_par_ok _ _ _ _ Hv Hn), (load_ns_ok _ _ _ Hns).
    unfold is_active_dev_ns, ret. fold (owner_active w ns).
    destruct (owner_active w ns); [|reflexivity].
    rewrite (load_info_ok _ _ _ Hv), Hvirt. cbn [negb].
    by rewrite (load_par_ok _ _ _ _ Hv Hn).
Qed.

End properties.

(** The first acquire on the machine of [Scenario]. *)
Example w1_reached :
  get_fb_info_ns (K := Scenario.K0) 10 Scenario.w0
  = Ret (Ptr 32) Scenario.w1.
Proof. vm_compute. reflexivity. Qed.

(** On that machine: the shadow 32 resolves to the hardware 10 when its
    namespace is in the foreground and to itself when it is not; the
    hardware resolves to itself. *)
Lemma fb_virt_to_info_ns_resolves_witness :
  fb_virt_to_info_ns (K := Scenario.K0) 32 Scenario.w1_active
    = Ret 10 Scenario.w1_active /\
  fb_virt_to_info_ns (K := Scenario.K0) 32 Scenario.w1 = Ret 32 Scenario.w1 /\
  fb_virt_to_info_ns (K := Scenario.K0) 10 Scenario.w1 = Ret 10 Scenario.w1.
Proof.
  split; [|split].
  - exact (proj2 (fb_virt_to_info_ns_resolves (K := Scenario.K0)
                    Scenario.w1_active 32 Scenario.v1 eq_refl)
                 Scenario.n1 Scenario.ns1 eq_refl eq_refl eq_refl).
  - exact (proj2 (fb_virt_to_info_ns_resolves (K := Scenario.K0)
                    Scenario.w1 32 Scenario.v1 eq_refl)
                 Scenario.n1 Scenario.ns1 eq_refl eq_refl eq_refl).
  - exact (proj1 (fb_virt_to_info_ns_resolves (K := Scenario.K0)
                    Scenario.w1 10 Scenario.hw0 eq_refl) eq_refl).
Defined.

(** ** Tracked inodes and lifecycle operations *)

Section simple_properties.
Context `{K : kernel}.

Lemma find_from_None l i ino :
  find_from l i ino = None <-> ino ∉ (inode <$> l).
Proof.
  revert i. induction l as [|e l IH]; intros i; simpl.
  - split; [intros _ | done]. apply not_elem_of_nil.
  - destruct (Z.eqb_spec (inode e) ino) as [->|Hne].
    + split; [done | intros Hn; destruct Hn; apply list_elem_of_here].
    + rewrite IH, not_elem_of_cons. split; [intros H; split; [congruence | done] | by intros [_ H]].
Qed.

(** C9. [untrack_fb_inode] for an inode that the shadow does not track
    stops in [BUG_ON(!fb_inode)], having taken the mutex and changed nothing
    else; [fb_ns_open], [fb_ns_release] and [fb_ns_destroy] stop in [BUG()]
    whatever they are given.  None of them returns. *)
Theorem untracked_and_lifecycle_are_fatal w virt ino v n user :
  heap w !! virt = Some (BInfo v) ->
  par v = Some n ->
  ino <> NULL ->
  ino ∉ tracked n ->
  untrack_fb_inode virt ino w = Bug (set_trace (trace w ++ [EvMutexLock]) w) /\
  fb_ns_open virt user w = Bug w /\
  fb_ns_release virt user w = Bug w /\
  fb_ns_destroy virt w = Bug w.
Proof.
  intros Hv Hn Hino Hnot. split; [|done].
  apply find_from_None with (i := 0%nat) in Hnot.
  unfold untrack_fb_inode, find_fb_inode, bind.
  rewrite (load_info_ok _ _ _ Hv).
  destruct (Z.eqb_spec ino NULL) as [|_]; [done|].
  unfold log.
  erewrite load_par_ok by (simpl; eauto).
  unfold ret. rewrite Hnot. reflexivity.
Qed.

(** C10. [untrack_fb_inode] with a [NULL] inode returns at once: the state
    it leaves is the state it found, so the mutex was not taken and no entry
    or count of the table was touched. *)
Theorem untrack_null_is_noop w virt v :
  heap w !! virt = Some (BInfo v) ->
  untrack_fb_inode virt NULL w = Ret tt w.
Proof.
  intros Hv. unfold untrack_fb_inode, bind.
  by rewrite (load_info_ok _ _ _ Hv).
Qed.

(** The slots of a shadow's operations table for the lifecycle calls are
    never cleared, whatever the hardware's table is. *)
Lemma clear_slot_other o o' ops :
  o <> o' -> slot (clear_slot o ops) o' = slot ops o'.
Proof.
  intros Hne. induction ops as [|[o1 h] ops IH]; [done|].
  unfold clear_slot in *. cbn.
  destruct (decide (o1 <> o)) as [Hd|Hd]; cbn.
  - destruct (decide (o1 = o')); [done | apply IH].
  - destruct (decide (o1 = o')) as [->|]; [|apply IH].
    destruct Hd. done.
Qed.

Lemma null_unless_other hw probe o o' ops :
  o <> o' -> slot (null_unless hw probe o ops) o' = slot ops o'.
Proof.
  intros Hne. unfold null_unless.
  destruct (slot hw probe); [done | by apply clear_slot_other].
Qed.

Lemma make_fb_ops_table_lifecycle hw :
  slot (make_fb_ops_table hw) op_fb_open = Some h_fb_ns_open /\
  slot (make_fb_ops_table hw) op_fb_release = Some h_fb_ns_release /\
  slot (make_fb_ops_table hw) op_fb_destroy = Some h_fb_ns_destroy.
Proof.
  unfold make_fb_ops_table.
  repeat split; rewrite !null_unless_other by done; reflexivity.
Qed.

End simple_properties.

(** On the machine of [Scenario], where the shadow 32 tracks nothing:
    untracking inode 77 is fatal. *)
Lemma untracked_and_lifecycle_are_fatal_witness :
  untrack_fb_inode 32 77 Scenario.w1
  = Bug (set_trace (trace Scenario.w1 ++ [EvMutexLock]) Scenario.w1) /\
  fb_ns_open 32 0 Scenario.w1 = Bug Scenario.w1 /\
  fb_ns_release 32 0 Scenario.w1 = Bug Scenario.w1 /\
  fb_ns_destroy 32 Scenario.w1 = Bug Scenario.w1.
Proof.
  apply (untracked_and_lifecycle_are_fatal Scenario.w1 32 77
           Scenario.v1 Scenario.n1 0 eq_refl eq_refl).
  - discriminate.
  - apply not_elem_of_nil.
Defined.

(** On the same machine, untracking [NULL] changes nothing. *)
Lemma untrack_null_is_noop_witness :
  untrack_fb_inode 32 NULL Scenario.w1 = Ret tt Scenario.w1.
Proof.
  exact (untrack_null_is_noop Scenario.w1 32 Scenario.v1
           eq_refl).
Defined.

Section steps.
Context (R : relation world) `{!PreOrder R}.

Lemma steps_ret {A} (a : A) : steps R (ret a).
Proof. intros w. reflexivity. Qed.

Lemma steps_BUG {A} : steps R (@BUG A).
Proof. intros w. reflexivity. Qed.

Lemma steps_oops {A} : steps R (@oops A).
Proof. intros w. reflexivity. Qed.

Lemma steps_BUG_ON c : steps R (BUG_ON c).
Proof. destruct c; [apply steps_BUG | apply steps_ret]. Qed.

Lemma steps_bind {A B} (m : M A) (k : A -> M B) :
  steps R m -> (forall a, steps R (k a)) -> steps R (bind m k).
Proof.
  intros Hm Hk w. unfold bind. specialize (Hm w).
  destruct (m w) as [a w1| |]; simpl in *; [|done..].
  etrans; [exact Hm | apply Hk].
Qed.

Lemma steps_get_world : steps R get_world.
Proof. intros w. reflexivity. Qed.

Lemma steps_load_info p : steps R (load_info p).
Proof. intros w. unfold load_info. repeat case_match; reflexivity. Qed.

Lemma steps_load_ns p : steps R (load_ns p).
Proof. intros w. unfold load_ns. repeat case_match; reflexivity. Qed.

Lemma steps_load_ops p : steps R (load_ops p).
Proof. intros w. unfold load_ops. repeat case_match; reflexivity. Qed.

Lemma steps_load_mem p : steps R (load_mem p).
Proof. intros w. unfold load_mem. repeat case_match; reflexivity. Qed.

Lemma steps_load_colreg p : steps R (load_colreg p).
Proof. intros w. unfold load_colreg. repeat case_match; reflexivity. Qed.

Lemma steps_load_vma p : steps R (load_vma p).
Proof. intros w. unfold load_vma. repeat case_match; reflexivity. Qed.

Lemma steps_load_par p : steps R (load_par p).
Proof.
  apply steps_bind; [apply steps_load_info|].
  intros i. destruct (par i); [apply steps_ret | apply steps_oops].
Qed.

End steps.

Lemma steps_mono (R R' : relation world) {A} (m : M A) :
  (forall w w', R w w' -> R' w w') -> steps R m -> steps R' m.
Proof. intros HR Hm w. apply HR, Hm. Qed.

Create HintDb steps discriminated.

#[global] Hint Resolve steps_ret steps_BUG steps_oops steps_BUG_ON
  steps_get_world steps_load_info steps_load_ns steps_load_ops steps_load_mem
  steps_load_colreg steps_load_vma steps_load_par : steps.

(** Take a definition apart along its binds and case distinctions, leaving
    the writes and calls that the hints do not cover. *)
Ltac steps_go :=
  repeat first
    [ progress intros
    | solve [eauto with steps]
    | apply steps_bind
    | match goal with
      | |- steps _ (match ?x with _ => _ end) => destruct x
      | |- steps _ (if ?x then _ else _) => destruct x
      | |- steps _ (let _ := _ in _) => cbv zeta
      end ].

#[global] Hint Extern 1 (PreOrder _) => apply _ : steps.

#[global] Instance changes_preorder keep P : PreOrder (changes keep P).
Proof.
  split.
  - intros w. split; try done.
    + intros p b Hb. by exists b.
    + exists []. by rewrite app_nil_r.
  - intros w1 w2 w3 [H1 [e1 [T1 F1]] ? ? ? ?] [H2 [e2 [T2 F2]] ? ? ? ?].
    split; try congruence.
    + intros p b Hb.
      destruct (H1 p b Hb) as (b1 & Hb1 & Hk1 & He1).
      destruct (H2 p b1 Hb1) as (b2 & Hb2 & Hk2 & He2).
      exists b2. split; [done|]. split; [congruence|].
      intros Hkeep. rewrite He2, He1; [done..|]. by rewrite Hk1.
    + exists (e1 ++ e2). rewrite T2, T1, <- app_assoc. split; [done|].
      by rewrite forallb_app, F1, F2.
Qed.

Lemma changes_mono (keep keep' : kind -> bool) (P P' : event -> bool) w w' :
  (forall k, keep' k = true -> keep k = true) ->
  (forall e, P e = true -> P' e = true) ->
  changes keep P w w' -> changes keep' P' w w'.
Proof.
  intros Hk HP [H1 [e [T F]] ? ? ? ?]. split; try done.
  - intros p b Hb. destruct (H1 p b Hb) as (b1 & ? & ? & ?).
    exists b1. naive_solver.
  - exists e. split; [done|].
    rewrite forallb_forall in *. auto.
Qed.

Lemma changes_kept keep P w w' p b :
  changes keep P w w' -> heap w !! p = Some b -> keep (kind_of b) = true ->
  heap w' !! p = Some b.
Proof.
  intros Hc Hb Hk. destruct (ch_heap _ _ _ _ Hc _ _ Hb) as (b' & ? & _ & Hb').
  by rewrite <- (Hb' Hk).
Qed.

Lemma changes_events keep P {A} (m : M A) w :
  changes keep P w (final (m w)) -> forallb P (events_of m w) = true.
Proof.
  intros [_ [e [T F]] _ _ _ _]. unfold events_of.
  by rewrite T, drop_app_length.
Qed.

Lemma changes_log keep P e : P e = true -> steps (changes keep P) (log e).
Proof.
  intros He w. split; try done.
  - intros p b Hb. by exists b.
  - exists [e]. simpl. by rewrite He.
Qed.

Lemma changes_store keep P p b :
  keep (kind_of b) = false -> steps (changes keep P) (store p b).
Proof.
  intros Hk w. unfold store.
  destruct (heap w !! p) as [b0|] eqn:Hp; [|reflexivity].
  destruct (decide (kind_of b0 = kind_of b)) as [Hkind|]; [|reflexivity].
  split; try done.
  - intros q c Hq. simpl. destruct (decide (p = q)) as [->|Hne].
    + rewrite lookup_insert_eq. exists b. rewrite Hq in Hp. simplify_eq.
      split; [done|]. split; [done|]. rewrite Hkind. congruence.
    + rewrite lookup_insert_ne by done. by exists c.
  - exists []. by rewrite app_nil_r.
Qed.

#[global] Hint Extern 2 (steps (changes _ _) (log _)) =>
  apply changes_log; reflexivity : steps.
#[global] Hint Extern 2 (steps (changes _ _) (store _ _)) =>
  apply changes_store; reflexivity : steps.

Section changes_kernel.
Context `{K : kernel}.

Lemma changes_try_alloc keep P :
  (forall ok, P (EvAlloc ok) = true) -> steps (changes keep P) try_alloc.
Proof.
  intros HP w. split; try done.
  - intros p b Hb. by exists b.
  - exists [EvAlloc (alloc_ok (trace w))]. simpl. by rewrite HP.
Qed.

Lemma steps_is_active_dev_ns R `{!PreOrder R} ns :
  steps R (is_active_dev_ns ns).
Proof. intros w. reflexivity. Qed.

Lemma steps_fb_virt_to_info R `{!PreOrder R} virt :
  steps R (fb_virt_to_info virt).
Proof. unfold fb_virt_to_info. steps_go. Qed.

Lemma steps_fb_debug_diff R `{!PreOrder R} virt : steps R (fb_debug_diff virt).
Proof. unfold fb_debug_diff. steps_go. Qed.

End changes_kernel.

#[global] Hint Resolve steps_is_active_dev_ns steps_fb_virt_to_info
  steps_fb_debug_diff : steps.
#[global] Hint Extern 2 (steps (changes _ _) try_alloc) =>
  apply changes_try_alloc; reflexivity : steps.

(** ** The three steps of a switch *)

Section switch_steps.
Context `{K : kernel}.

Lemma changes_remap_collect keep vmas mmhead :
  steps (changes keep repoint_inner) (remap_collect vmas mmhead).
Proof.
  revert mmhead. induction vmas as [|vma rest IH]; intros mmhead; simpl;
    steps_go.
Qed.

Lemma changes_call_f_op_mmap vma :
  steps (changes but_vma repoint_inner) (call_f_op_mmap vma).
Proof. unfold call_f_op_mmap. steps_go. Qed.

#[local] Hint Resolve changes_remap_collect changes_call_f_op_mmap : steps.

Lemma changes_remap_apply l err :
  steps (changes but_vma repoint_inner) (remap_apply l err).
Proof.
  revert err. induction l as [|m l IH]; intros err; simpl; steps_go.
Qed.

Lemma changes_remap_drop keep l :
  steps (changes keep repoint_inner) (remap_drop l).
Proof. induction l as [|m l IH]; simpl; steps_go. Qed.

#[local] Hint Resolve changes_remap_apply changes_remap_drop : steps.

Lemma do_fb_ns_remap_unfold virt mapping :
  do_fb_ns_remap virt mapping
  = (log (EvIMmapLock mapping) ;;; remap_locked mapping).
Proof. reflexivity. Qed.

Lemma changes_remap_locked mapping :
  steps (changes but_vma repoint_inner) (remap_locked mapping).
Proof. unfold remap_locked. steps_go. Qed.

Lemma repoint_inner_only e :
  repoint_inner e = true -> only (Some StepRepoint) e = true.
Proof. by destruct e. Qed.

Lemma changes_do_fb_ns_remap virt mapping :
  steps (changes but_vma (only (Some StepRepoint)))
        (do_fb_ns_remap virt mapping).
Proof.
  rewrite do_fb_ns_remap_unfold.
  apply steps_bind; [apply _ | by apply changes_log | intros _].
  eapply steps_mono; [|apply changes_remap_locked].
  intros w w'. apply changes_mono; [done | apply repoint_inner_only].
Qed.

#[local] Hint Resolve changes_do_fb_ns_remap : steps.

Lemma changes_swap_mmap_loop virt l err :
  steps (changes but_vma (only (Some StepRepoint)))
        (swap_mmap_loop virt l err).
Proof.
  revert err. induction l as [|e l IH]; intros err; simpl; steps_go.
Qed.

#[local] Hint Resolve changes_swap_mmap_loop : steps.

(** The re-point pass touches vmas only, and all it does belongs to the
    re-point step. *)
Lemma changes_fb_ns_swap_mmap virt activate :
  steps (changes but_vma (only (Some StepRepoint)))
        (fb_ns_swap_mmap virt activate).
Proof. unfold fb_ns_swap_mmap. steps_go. Qed.

Lemma changes_memcpy P dst src size :
  steps (changes but_mem P) (memcpy dst src size).
Proof. unfold memcpy. steps_go. Qed.

#[local] Hint Resolve changes_memcpy : steps.

(** The copy touches buffers only. *)
Lemma changes_fb_ns_swap_vmem virt activate :
  steps (changes but_mem (only (Some StepCopy)))
        (fb_ns_swap_vmem virt activate).
Proof.
  unfold fb_ns_swap_vmem, fb_memcpy_tofb, fb_memcpy_fromfb. steps_go.
Qed.

Lemma changes_store_par P virt n :
  steps (changes but_info P) (store_par virt n).
Proof. unfold store_par, store_info. steps_go. Qed.

Lemma changes_call_fb_setcolreg keep hw c :
  steps (changes keep (only (Some StepDrain))) (call_fb_setcolreg hw c).
Proof.
  unfold call_fb_setcolreg. steps_go.
  intros w. split; try done.
  - intros p b Hb. by exists b.
  - by eexists [_].
Qed.

#[local] Hint Resolve changes_store_par changes_call_fb_setcolreg : steps.

Lemma changes_apply_colreg_loop keep hw l err :
  steps (changes keep (only (Some StepDrain))) (apply_colreg_loop hw l err).
Proof.
  revert err. induction l as [|c l IH]; intros err; simpl; steps_go.
Qed.

#[local] Hint Resolve changes_apply_colreg_loop : steps.

(** The replay of the palette touches the shadow only. *)
Lemma changes_fb_ns_apply_colreg virt :
  steps (changes but_info (only (Some StepDrain))) (fb_ns_apply_colreg virt).
Proof. unfold fb_ns_apply_colreg. steps_go. Qed.

Lemma steps_fb_ns_apply_setpar R `{!PreOrder R} virt :
  steps R (fb_ns_apply_setpar virt).
Proof. unfold fb_ns_apply_setpar. steps_go. Qed.

End switch_steps.

(** ** The order of the steps *)

#[global] Instance then_reflexive R1 R2 :
  Reflexive R1 -> Reflexive R2 -> Reflexive (then_ R1 R2).
Proof. intros H1 H2 w. by exists w. Qed.

Lemma steps_then R1 R2 `{!Reflexive R2} {A B} (m : M A) (k : A -> M B) :
  steps R1 m -> (forall a, steps R2 (k a)) -> steps (then_ R1 R2) (bind m k).
Proof.
  intros Hm Hk w. unfold bind. specialize (Hm w).
  destruct (m w) as [a w1|w1|w1]; simpl in *.
  - exists w1. split; [done | apply Hk].
  - by exists w1.
  - by exists w1.
Qed.

Lemma nondecreasing_app k l1 l2 :
  Forall (fun a => (a <= k)%nat) l1 -> Forall (fun b => (k <= b)%nat) l2 ->
  nondecreasing l1 = true -> nondecreasing l2 = true ->
  nondecreasing (l1 ++ l2) = true.
Proof.
  intros H1 H2. induction H1 as [|a l1 Ha H1 IH]; simpl; [done|].
  rewrite !andb_true_iff, forallb_app. intros [Hl1 Hs1] Hs2.
  rewrite Hl1, IH by done. split; [|done]. simpl.
  apply forallb_forall. intros b Hb. apply Nat.leb_le.
  rewrite Forall_forall in H2. apply list_elem_of_In, H2 in Hb. lia.
Qed.

Lemma nondecreasing_const k l :
  Forall (eq k) l -> nondecreasing l = true.
Proof.
  induction 1 as [|a l <- Hl IH]; simpl; [done|].
  rewrite IH, andb_true_r. apply forallb_forall. intros b Hb.
  apply Nat.leb_le. rewrite Forall_forall in Hl.
  apply list_elem_of_In, Hl in Hb. lia.
Qed.

Lemma only_Some_ranks (rank : step_kind -> nat) s evs :
  forallb (only (Some s)) evs = true ->
  Forall (eq (rank s)) (rank <$> omap step_of evs).
Proof.
  induction evs as [|e evs IH]; simpl; [constructor|].
  rewrite andb_true_iff. intros [He Hevs]. unfold only in He.
  destruct (step_of e) as [s'|]; simpl; [|by apply IH].
  constructor; [|by apply IH].
  destruct s', s; done.
Qed.

Lemma only_None_ranks evs :
  forallb (only None) evs = true -> omap step_of evs = [].
Proof.
  induction evs as [|e evs IH]; simpl; [done|].
  rewrite andb_true_iff. intros [He Hevs]. unfold only in He.
  destruct (step_of e) as [[]|]; simpl; by try apply IH.
Qed.

Lemma in_order_phases e1 e2 e3 e4 :
  forallb (only (Some StepRepoint)) e1 = true ->
  forallb (only (Some StepCopy)) e2 = true ->
  forallb (only (Some StepDrain)) e3 = true ->
  forallb (only None) e4 = true ->
  in_order repoint_first (e1 ++ e2 ++ e3 ++ e4) = true.
Proof.
  intros H1 H2 H3 H4. unfold in_order.
  rewrite !omap_app, (only_None_ranks _ H4), app_nil_r, !fmap_app.
  apply (only_Some_ranks repoint_first) in H1, H2, H3. simpl in *.
  apply (nondecreasing_app 0).
  - eapply Forall_impl; [exact H1 | simpl; lia].
  - apply Forall_forall. intros x _. lia.
  - by eapply nondecreasing_const.
  - apply (nondecreasing_app 1).
    + eapply Forall_impl; [exact H2 | simpl; lia].
    + eapply Forall_impl; [exact H3 | simpl; lia].
    + by eapply nondecreasing_const.
    + by eapply nondecreasing_const.
Qed.

Section switch_order.
Context `{K : kernel}.

(** A switch is a re-point pass, then a copy, then a replay, then the
    optional pan; each touches its own kind of object. *)
Lemma do_fb_activate_ns_phases virt activate :
  steps (then_ (changes but_vma (only (Some StepRepoint)))
        (then_ (changes but_mem (only (Some StepCopy)))
        (then_ (changes but_info (only (Some StepDrain)))
               (changes all_kinds (only None)))))
        (do_fb_activate_ns virt activate).
Proof.
  unfold do_fb_activate_ns.
  apply steps_then; [apply _ | apply changes_fb_ns_swap_mmap |].
  intros r. destruct (r <? 0); [intros w; reflexivity|].
  apply steps_then; [apply _ | apply changes_fb_ns_swap_vmem |].
  intros _. apply steps_then; [apply _ | |].
  - destruct activate; [|steps_go].
    apply steps_bind; [apply _ | apply changes_fb_ns_apply_colreg |].
    steps_go.
  - intros _. unfold fb_pan_display. steps_go.
Qed.

(** C1, as the code has it.  Whatever the state, the events of an
    activation come re-point first, copy second, replay of the pending state
    last. *)
Theorem activate_repoints_then_copies_then_drains w virt :
  in_order repoint_first (events_of (do_fb_activate_ns virt true) w) = true.
Proof.
  destruct (do_fb_activate_ns_phases virt true w)
    as (w1 & [_ (e1 & T1 & F1) _ _ _ _] & w2 & [_ (e2 & T2 & F2) _ _ _ _]
        & w3 & [_ (e3 & T3 & F3) _ _ _ _] & [_ (e4 & T4 & F4) _ _ _ _]).
  unfold events_of. rewrite T4, T3, T2, T1, <- !app_assoc, drop_app_length.
  by apply in_order_phases.
Qed.

End switch_order.

(** ** The re-point pass *)

Section repoint_pass.
Context `{K : kernel}.

Lemma is_vma_changes keep P w w' p :
  changes keep P w w' -> is_vma w p = true -> is_vma w' p = true.
Proof.
  intros [H _ _ _ _ _]. unfold is_vma.
  destruct (heap w !! p) as [b|] eqn:Hb; [|done].
  destruct (H p b Hb) as (b' & -> & Hk & _).
  destruct b; try done. by destruct b'.
Qed.

Lemma mapping_ok_changes keep P w w' ino :
  changes keep P w w' -> mapping_ok w ino = true -> mapping_ok w' ino = true.
Proof.
  intros Hc. unfold mapping_ok. rewrite !andb_true_iff, (ch_i_mmap _ _ _ _ Hc).
  intros [? Hall]. split; [done|].
  rewrite forallb_forall in *. intros p Hp.
  eapply is_vma_changes; eauto.
Qed.

Lemma load_vma_ok w p v :
  heap w !! p = Some (BVma v) -> load_vma p w = Ret v w.
Proof. unfold load_vma. by intros ->. Qed.

Lemma is_vma_Some w p :
  is_vma w p = true -> exists v, heap w !! p = Some (BVma v).
Proof.
  unfold is_vma. destruct (heap w !! p) as [[]|]; try done. eauto.
Qed.

Lemma returns_bind {A B} (m : M A) (k : A -> M B) w a w1 :
  m w = Ret a w1 ->
  (exists b w2, k a w1 = Ret b w2) ->
  exists b w2, bind m k w = Ret b w2.
Proof. intros Hm Hk. unfold bind. by rewrite Hm. Qed.

Lemma store_ok w p b0 b :
  heap w !! p = Some b0 -> kind_of b0 = kind_of b ->
  store p b w = Ret tt (set_heap (<[p := b]> (heap w)) w).
Proof.
  intros Hp Hk. unfold store. rewrite Hp. by destruct (decide _).
Qed.

Lemma is_vma_insert w p q v :
  is_vma w p = true ->
  is_vma (set_heap (<[q := BVma v]> (heap w)) w) p = true.
Proof.
  unfold is_vma. simpl. destruct (decide (q = p)) as [->|Hne].
  - by rewrite lookup_insert_eq.
  - by rewrite lookup_insert_ne.
Qed.

Lemma remap_collect_returns vmas mmhead w :
  forallb (is_vma w) vmas = true ->
  forallb (fun m => is_vma w (mm_vma m)) mmhead = true ->
  exists c w', remap_collect vmas mmhead w = Ret c w' /\
               forallb (fun m => is_vma w' (mm_vma m)) c.2 = true.
Proof.
  revert mmhead w. induction vmas as [|vma rest IH]; intros mmhead w; simpl.
  - intros _ Hh. by exists (0, mmhead), w.
  - rewrite andb_true_iff. intros [Hv Hrest] Hh.
    unfold bind at 1, try_alloc.
    destruct (alloc_ok (trace w)); simpl.
    + destruct (is_vma_Some w vma Hv) as [v Hl].
      unfold bind at 1.
      rewrite (load_vma_ok _ vma v) by done.
      unfold bind at 1, log.
      apply IH; [exact Hrest|].
      change (is_vma w vma
              && forallb (fun m => is_vma w (mm_vma m)) mmhead = true).
      by rewrite Hv, Hh.
    + by exists (- ENOMEM, mmhead), (set_trace (trace w ++ [EvAlloc false]) w).
Qed.

(** The call of the file's mmap on a vma: its result, the event, and the
    vma as the file leaves it. *)
Lemma call_f_op_mmap_run w vma v :
  heap w !! vma = Some (BVma v) ->
  call_f_op_mmap vma w
  = Ret (f_op_mmap (trace w) vma)
        (set_trace (trace w ++ [EvMmap vma (f_op_mmap (trace w) vma)])
           (set_heap (<[vma := BVma (f_op_mmap_vma (trace w) vma v)]>
                        (heap w)) w)).
Proof.
  intros Hv. unfold call_f_op_mmap, bind, get_world.
  rewrite (load_vma_ok _ _ _ Hv).
  by rewrite (store_ok w vma (BVma v)
                (BVma (f_op_mmap_vma (trace w) vma v)) Hv eq_refl).
Qed.

Lemma remap_apply_returns l err w :
  forallb (fun m => is_vma w (mm_vma m)) l = true ->
  exists r w', remap_apply l err w = Ret r w'.
Proof.
  revert err w. induction l as [|m l IH]; intros err w; simpl.
  - intros _. by exists err, w.
  - rewrite andb_true_iff. intros [Hm Hl].
    eapply returns_bind; [reflexivity|].
    destruct (is_vma_Some w (mm_vma m) Hm) as [v Hh].
    eapply returns_bind; [by apply load_vma_ok|].
    eapply returns_bind; [reflexivity|].
    eapply returns_bind; [reflexivity|].
    eapply returns_bind; [by eapply store_ok|].
    eapply returns_bind;
      [apply call_f_op_mmap_run; simpl; apply lookup_insert_eq|].
    eapply returns_bind; [reflexivity|].
    apply IH. rewrite forallb_forall in *. intros p Hp.
    apply (is_vma_insert (set_heap _ w)), (is_vma_insert w). by apply Hl.
Qed.

Lemma remap_drop_returns l w : exists w', remap_drop l w = Ret tt w'.
Proof.
  revert w. induction l as [|m l IH]; intros w; simpl; [by exists w|].
  unfold bind at 1, log. apply IH.
Qed.

Lemma remap_locked_returns mapping w :
  forallb (is_vma w) (default [] (i_mmap w !! mapping)) = true ->
  exists r w', remap_locked mapping w = Ret r w'.
Proof.
  intros Hok. unfold remap_locked.
  eapply returns_bind; [reflexivity|].
  destruct (remap_collect_returns _ [] w Hok eq_refl) as ([e l] & w1 & Hc & Hl).
  eapply returns_bind; [exact Hc|].
  eapply returns_bind; [reflexivity|]. simpl in *.
  destruct (e <? 0).
  - eapply returns_bind; [reflexivity|].
    destruct (remap_drop_returns l (set_trace (trace w1 ++ [EvIMmapUnlock mapping]) w1))
      as [w2 Hd].
    eapply returns_bind; [exact Hd|]. by eexists _, _.
  - destruct (remap_apply_returns l e
                (set_trace (trace w1 ++ [EvIMmapUnlock mapping]) w1) Hl)
      as (r & w2 & Ha).
    eapply returns_bind; [exact Ha|].
    destruct (remap_drop_returns l w2) as [w3 Hd].
    eapply returns_bind; [exact Hd|]. by eexists _, _.
Qed.

(** One consumer: under valid mappings its re-point returns, and the only
    mapping it locks is its own. *)
Lemma do_fb_ns_remap_returns virt mapping w :
  forallb (is_vma w) (default [] (i_mmap w !! mapping)) = true ->
  exists r w' evs,
    do_fb_ns_remap virt mapping w = Ret r w' /\
    trace w' = trace w ++ evs /\
    omap locked_mapping evs = [mapping] /\
    changes but_vma (fun _ => true) w w'.
Proof.
  intros Hok. rewrite do_fb_ns_remap_unfold. unfold bind at 1, log.
  set (w0 := set_trace _ w).
  destruct (remap_locked_returns mapping w0 Hok) as (r & w' & Hr).
  pose proof (changes_remap_locked mapping w0) as Hc. rewrite Hr in Hc.
  simpl in Hc. destruct Hc as [Hh (evs & Ht & Hall) ? ? ? ?].
  exists r, w', (EvIMmapLock mapping :: evs). split; [done|].
  split; [by rewrite Ht; simpl; rewrite <- app_assoc|].
  split.
  - simpl. f_equal. clear -Hall. induction evs as [|e evs IH]; [done|].
    simpl in Hall. apply andb_true_iff in Hall as [He Hall].
    simpl. destruct e; try done; by apply IH.
  - split; try done. exists (EvIMmapLock mapping :: evs).
    split; [by rewrite Ht; simpl; rewrite <- app_assoc|].
    by apply forallb_forall.
Qed.

Lemma swap_mmap_loop_returns virt l err w :
  forallb (mapping_ok w) (inode <$> l) = true ->
  exists r w' evs,
    swap_mmap_loop virt l err w = Ret r w' /\
    trace w' = trace w ++ evs /\
    omap locked_mapping evs = inode <$> l.
Proof.
  revert err w. induction l as [|e l IH]; intros err w; simpl.
  - intros _. exists err, w, []. by rewrite app_nil_r.
  - rewrite andb_true_iff. intros [He Hl].
    unfold mapping_ok in He. apply andb_true_iff in He as [Hnn Hvmas].
    destruct (inode e =? NULL); [done|].
    unfold bind at 1, ret.
    destruct (do_fb_ns_remap_returns virt (inode e) w Hvmas)
      as (r1 & w1 & evs1 & Hr1 & Ht1 & Ho1 & Hc1).
    unfold bind at 1. rewrite Hr1.
    destruct (IH (if (r1 <? 0) || (err =? 0) then r1 else err) w1)
      as (r & w' & evs & Hr & Ht & Ho).
    { rewrite forallb_forall in *. intros p Hp.
      eapply mapping_ok_changes; eauto. }
    exists r, w', (evs1 ++ evs). split; [done|].
    split; [by rewrite Ht, Ht1, <- app_assoc|].
    by rewrite omap_app, Ho1, Ho.
Qed.

(** C6, as the code has it.  When the inodes a shadow tracks are valid and
    the vmas of their mappings exist, the re-point pass returns after it has
    visited every tracked consumer, in table order, whatever each visit
    gave; and when the pass reports an error the switch of the device
    returns that error there and then, in the state the pass left: no
    buffer copy and no replay of the pending state happened. *)
Theorem repoint_pass_visits_all_then_gates w virt activate v n :
  heap w !! virt = Some (BInfo v) ->
  par v = Some n ->
  forallb (mapping_ok w) (tracked n) = true ->
  exists err w1,
    fb_ns_swap_mmap virt activate w = Ret err w1 /\
    omap locked_mapping (events_of (fb_ns_swap_mmap virt activate) w)
    = tracked n /\
    (err < 0 -> do_fb_activate_ns virt activate w = Ret err w1).
Proof.
  intros Hv Hn Hok.
  assert (Hpar : load_par virt w = Ret n w) by eauto using load_par_ok.
  destruct (swap_mmap_loop_returns virt
              (take (Z.to_nat (inodes_len n)) (inodes n)) 0 w Hok)
    as (err & w1 & evs & Hr & Ht & Ho).
  assert (Hs : fb_ns_swap_mmap virt activate w = Ret err w1).
  { unfold fb_ns_swap_mmap, bind. by rewrite Hpar. }
  exists err, w1. split; [done|]. split.
  - unfold events_of. by rewrite Hs; simpl; rewrite Ht, drop_app_length.
  - intros Herr. unfold do_fb_activate_ns, bind. rewrite Hs.
    by destruct (Z.ltb_spec err 0); [|lia].
Qed.

End repoint_pass.

(** ** Replay of the staged palette *)

Section replay.
Context `{K : kernel}.

Lemma load_ops_ok w p o :
  heap w !! p = Some (BOps o) -> load_ops p w = Ret o w.
Proof. unfold load_ops. by intros ->. Qed.

Lemma load_colreg_ok w p a :
  heap w !! p = Some (BColreg a) -> load_colreg p w = Ret a w.
Proof. unfold load_colreg. by intros ->. Qed.

Lemma call_fb_setcolreg_ok w hw hwi ops c :
  heap w !! hw = Some (BInfo hwi) ->
  heap w !! fbops hwi = Some (BOps ops) ->
  is_Some (slot ops op_fb_setcolreg) ->
  let r := hw_fb_setcolreg (trace w) (regno c) (red c) (green c) (blue c)
                           (transp c) hw in
  call_fb_setcolreg hw c w
  = Ret r (set_trace (trace w ++ [EvSetColreg hw c r]) w).
Proof.
  intros Hhw Hops [h Hh]. unfold call_fb_setcolreg, bind.
  by rewrite (load_info_ok _ _ _ Hhw), (load_ops_ok _ _ _ Hops), Hh.
Qed.

Lemma apply_colreg_loop_spec hw hwi ops l err w :
  heap w !! hw = Some (BInfo hwi) ->
  heap w !! fbops hwi = Some (BOps ops) ->
  is_Some (slot ops op_fb_setcolreg) ->
  exists evs,
    apply_colreg_loop hw l err w
    = Ret (if err =? 0 then first_error (omap result_of evs) else err)
          (set_trace (trace w ++ evs) w) /\
    evs = driver_replay hw (trace w) l /\
    Forall2 (fun e c => exists r, e = EvSetColreg hw c r) evs l.
Proof.
  intros Hhw Hops Hslot. revert err w Hhw Hops.
  induction l as [|c l IH]; intros err w Hhw Hops; simpl.
  - exists []. split; [|split; [done|constructor]].
    unfold ret. rewrite app_nil_r. destruct w. simpl.
    by destruct (Z.eqb_spec err 0) as [->|].
  - pose proof (call_fb_setcolreg_ok w hw hwi ops c Hhw Hops Hslot) as Hr.
    cbv zeta in Hr.
    set (r := hw_fb_setcolreg (trace w) (regno c) (red c) (green c) (blue c)
                              (transp c) hw) in *.
    unfold bind. rewrite Hr.
    destruct (IH (if (r <? 0) && (err =? 0) then r else err)
                 (set_trace (trace w ++ [EvSetColreg hw c r]) w) Hhw Hops)
      as (evs & Hl & Hevs & Hall).
    exists (EvSetColreg hw c r :: evs). split; [|split].
    + rewrite Hl. simpl. rewrite <- app_assoc. f_equal.
      destruct (Z.ltb_spec r 0), (Z.eqb_spec err 0) as [->|]; simpl;
        repeat match goal with
               | |- context [?x =? 0] => destruct (Z.eqb_spec x 0); try lia
               end; done.
    + by rewrite Hevs.
    + constructor; [by exists r | done].
Qed.

(** The replay of a shadow's staged sequence, step by step. *)
Lemma fb_ns_apply_colreg_runs w virt v n hwi ops l :
  heap w !! virt = Some (BInfo v) ->
  fb_info_is_virt v = true ->
  par v = Some n ->
  heap w !! info n = Some (BInfo hwi) ->
  heap w !! fbops hwi = Some (BOps ops) ->
  is_Some (slot ops op_fb_setcolreg) ->
  staged w n = Some l ->
  exists w',
    fb_ns_apply_colreg virt w
    = Ret (first_error
             (omap result_of (events_of (fb_ns_apply_colreg virt) w))) w' /\
    events_of (fb_ns_apply_colreg virt) w
    = driver_replay (info n) (trace w) l /\
    Forall2 (fun e c => exists r, e = EvSetColreg (info n) c r)
            (events_of (fb_ns_apply_colreg virt) w) l /\
    info_at w' virt = Some (set_par_of v (set_colreg_pos n 0)).
Proof.
  intros Hv Hvirt Hn Hhw Hops Hslot Hst.
  assert (Hto : fb_virt_to_info virt w = Ret (info n) w).
  { unfold fb_virt_to_info, bind.
    rewrite (load_info_ok _ _ _ Hv), Hvirt. cbn [negb].
    by rewrite (load_par_ok _ _ _ _ Hv Hn). }
  assert (Hloop : exists evs,
    (if colreg_pos n =? 0 then ret 0
     else
       a <- load_colreg (colreg n) ;;
       if (colreg_pos n <? 0) || (Z.of_nat (length a) <? colreg_pos n)
       then oops
       else apply_colreg_loop (info n) (take (Z.to_nat (colreg_pos n)) a) 0) w
    = Ret (first_error (omap result_of evs)) (set_trace (trace w ++ evs) w) /\
    evs = driver_replay (info n) (trace w) l /\
    Forall2 (fun e c => exists r, e = EvSetColreg (info n) c r) evs l).
  { unfold staged in Hst. destruct (colreg_pos n =? 0).
    - exists []. simplify_eq. split; [|split; [done|constructor]].
      unfold ret. rewrite app_nil_r. by destruct w.
    - destruct (heap w !! colreg n) as [[| |a| | |]|] eqn:Ha; try done.
      destruct (Z.ltb_spec 0 (colreg_pos n)); [|done].
      destruct (Z.leb_spec (colreg_pos n) (Z.of_nat (length a))); [|done].
      simpl in Hst. simplify_eq.
      unfold bind. rewrite (load_colreg_ok _ _ _ Ha).
      destruct (Z.ltb_spec (colreg_pos n) 0); [lia|].
      destruct (Z.ltb_spec (Z.of_nat (length a)) (colreg_pos n)); [lia|].
      simpl.
      by apply (apply_colreg_loop_spec (info n) hwi ops). }
  destruct Hloop as (evs & Hloop & Hevs & Hall).
  set (w1 := set_trace (trace w ++ evs) w) in *.
  assert (Hv1 : heap w1 !! virt = Some (BInfo v)) by done.
  assert (Hrun : fb_ns_apply_colreg virt w
    = Ret (first_error (omap result_of evs))
          (set_heap (<[virt := BInfo (set_par_of v (set_colreg_pos n 0))]>
                       (heap w1)) w1)).
  { unfold fb_ns_apply_colreg. unfold bind at 1.
    rewrite (load_par_ok _ _ _ _ Hv Hn). unfold bind at 1. rewrite Hto.
    unfold bind at 1. rewrite Hloop. unfold bind at 1.
    rewrite (load_par_ok _ _ _ _ Hv1 Hn).
    unfold bind at 1, store_par, store_info. unfold bind at 1.
    rewrite (load_info_ok _ _ _ Hv1).
    by rewrite (store_ok w1 virt (BInfo v)
                  (BInfo (set_par_of v (set_colreg_pos n 0))) Hv1 eq_refl). }
  assert (Hev : events_of (fb_ns_apply_colreg virt) w = evs).
  { unfold events_of. rewrite Hrun. simpl. by rewrite drop_app_length. }
  rewrite Hev. eexists. split; [exact Hrun|]. split; [done|].
  split; [done|].
  unfold info_at. simpl. by rewrite lookup_insert_eq.
Qed.

(** C3. With the hardware's fb_setcolreg present, the replay of a shadow's
    staged sequence returns; what it did is the specification's replay: one
    call of the hardware driver's fb_setcolreg per staged entry, with that
    entry, in the order of the sequence, whatever the calls returned, each
    with the result the driver gave; its result is the first negative result
    among them, 0 without one; and the sequence is empty afterwards. *)
Theorem staged_palette_replayed_in_order w virt v n hwi ops l :
  heap w !! virt = Some (BInfo v) ->
  fb_info_is_virt v = true ->
  par v = Some n ->
  heap w !! info n = Some (BInfo hwi) ->
  heap w !! fbops hwi = Some (BOps ops) ->
  is_Some (slot ops op_fb_setcolreg) ->
  staged w n = Some l ->
  exists w',
    fb_ns_apply_colreg virt w
    = Ret (first_error
             (omap result_of (events_of (fb_ns_apply_colreg virt) w))) w' /\
    events_of (fb_ns_apply_colreg virt) w
    = driver_replay (info n) (trace w) l /\
    Forall2 (fun e c => exists r, e = EvSetColreg (info n) c r)
            (events_of (fb_ns_apply_colreg virt) w) l /\
    par_at w' virt = Some (set_colreg_pos n 0) /\
    staged w' (set_colreg_pos n 0) = Some [].
Proof.
  intros Hv Hvirt Hn Hhw Hops Hslot Hst.
  destruct (fb_ns_apply_colreg_runs w virt v n hwi ops l)
    as (w' & Hrun & Hrep & Hall & Hinfo); try done.
  exists w'. split; [done|]. split; [done|]. split; [done|]. split; [|done].
  unfold par_at. unfold info_at in Hinfo.
  destruct (heap w' !! virt) as [[]|]; by simplify_eq.
Qed.

End replay.

Lemma kind_neq w a b x y :
  heap w !! a = Some x -> heap w !! b = Some y -> kind_of x <> kind_of y ->
  a <> b.
Proof. intros Ha Hb Hk ->. congruence. Qed.

Ltac neq_by_kind :=
  match goal with
  | Ha : heap ?w !! ?a = Some _, Hb : heap ?w !! ?b = Some _ |- ?a <> ?b =>
      exact (kind_neq _ _ _ _ _ Ha Hb ltac:(simpl; discriminate))
  end.

Lemma bind_ret_l {A B} (a : A) (k : A -> M B) w : bind (ret a) k w = k a w.
Proof. reflexivity. Qed.

Lemma bind_assoc {A B C} (m : M A) (f : A -> M B) (g : B -> M C) w :
  bind (bind m f) g w = bind m (fun a => bind (f a) g) w.
Proof. unfold bind. by destruct (m w). Qed.

Lemma log_ok e w : log e w = Ret tt (set_trace (trace w ++ [e]) w).
Proof. reflexivity. Qed.

Lemma bind_store {B} w p b0 b (k : unit -> M B) :
  heap w !! p = Some b0 -> kind_of b0 = kind_of b ->
  bind (store p b) k w = k tt (set_heap (<[p := b]> (heap w)) w).
Proof. intros Hp Hk. by rewrite (bind_step _ _ _ _ _ (store_ok _ _ _ _ Hp Hk)). Qed.

Ltac step H := rewrite (bind_step _ _ _ _ _ H); cbv beta iota.
Ltac step_log := erewrite (bind_step _ _ _ _ _ (log_ok _ _)); cbv beta iota.
Ltac step_ret := rewrite bind_ret_l; cbv beta iota.

(** ** Shadows without anything to copy *)

Section no_copy.
Context `{K : kernel}.

Lemma do_fb_activate_ns_unfold virt activate :
  do_fb_activate_ns virt activate
  = (r <- fb_ns_swap_mmap virt activate ;;
     if r <? 0 then ret r
     else fb_ns_swap_vmem virt activate ;;; after_copy virt activate).
Proof. reflexivity. Qed.

Lemma changes_after_copy virt activate :
  steps (changes only_mem (fun e => negb (is_copy e)))
        (after_copy virt activate).
Proof.
  unfold after_copy, fb_pan_display.
  assert (steps (changes only_mem (fun e => negb (is_copy e)))
                (fb_ns_apply_colreg virt)).
  { eapply steps_mono; [|apply changes_fb_ns_apply_colreg].
    intros w w'. apply changes_mono; [by intros [] | by intros []]. }
  steps_go.
Qed.

(** The copy step on a shadow of length zero, or with either buffer
    missing: it returns and leaves the state as it found it. *)
Lemma fb_ns_swap_vmem_skips w virt activate v n hwi :
  heap w !! virt = Some (BInfo v) ->
  fb_info_is_virt v = true ->
  par v = Some n ->
  heap w !! info n = Some (BInfo hwi) ->
  ns_screen_base n = screen_base hwi ->
  ns_screen_size n = screen_size hwi ->
  smem_len (fix_ v) = 0 \/ screen_base hwi = NULL \/ screen_base v = NULL ->
  fb_ns_swap_vmem virt activate w = Ret tt w.
Proof.
  intros Hv Hvirt Hn Hhw Hbase Hsize Hskip.
  assert (Hto : fb_virt_to_info virt w = Ret (info n) w).
  { unfold fb_virt_to_info, bind.
    rewrite (load_info_ok _ _ _ Hv), Hvirt. cbn [negb].
    by rewrite (load_par_ok _ _ _ _ Hv Hn). }
  assert (Hdiff : fb_debug_diff virt w = Ret tt w).
  { unfold fb_debug_diff, bind.
    rewrite (load_info_ok _ _ _ Hv), Hvirt.
    change (BUG_ON (negb true) w) with (Ret tt w). cbv beta iota.
    rewrite (load_par_ok _ _ _ _ Hv Hn), Hto, (load_info_ok _ _ _ Hhw).
    by rewrite Hbase, Hsize, !Z.eqb_refl. }
  unfold fb_ns_swap_vmem, bind.
  rewrite Hto, (load_info_ok _ _ _ Hv), Hdiff, (load_info_ok _ _ _ Hhw).
  destruct Hskip as [->|[->| ->]]; simpl; [done| |].
  - by rewrite orb_true_r.
  - by rewrite !orb_true_r.
Qed.

Lemma staged_kept keep P w w' n l :
  changes keep P w w' -> keep KColreg = true ->
  staged w n = Some l -> staged w' n = Some l.
Proof.
  intros Hc Hk. unfold staged. destruct (colreg_pos n =? 0); [done|].
  destruct (heap w !! colreg n) as [b|] eqn:Hb; [|done].
  destruct b; try done. by rewrite (changes_kept _ _ _ _ _ _ Hc Hb Hk).
Qed.

(** With valid mappings, and on activation a staged sequence that the
    hardware can take, the transition of such a shadow returns. *)
Lemma skipping_transition_returns w virt activate v n hwi :
  heap w !! virt = Some (BInfo v) ->
  fb_info_is_virt v = true ->
  par v = Some n ->
  heap w !! info n = Some (BInfo hwi) ->
  ns_screen_base n = screen_base hwi ->
  ns_screen_size n = screen_size hwi ->
  smem_len (fix_ v) = 0 \/ screen_base hwi = NULL \/ screen_base v = NULL ->
  forallb (mapping_ok w) (tracked n) = true ->
  (activate = true ->
   exists l ops, staged w n = Some l /\
                 heap w !! fbops hwi = Some (BOps ops) /\
                 is_Some (slot ops op_fb_setcolreg)) ->
  exists r w', do_fb_activate_ns virt activate w = Ret r w'.
Proof.
  intros Hv Hvirt Hn Hhw Hbase Hsize Hskip Hmaps Hpal.
  destruct (swap_mmap_loop_returns virt
              (take (Z.to_nat (inodes_len n)) (inodes n)) 0 w Hmaps)
    as (err & w1 & evs & Hr & _ & _).
  assert (Hs : fb_ns_swap_mmap virt activate w = Ret err w1).
  { unfold fb_ns_swap_mmap. by step (load_par_ok _ _ _ _ Hv Hn). }
  pose proof (changes_fb_ns_swap_mmap virt activate w) as H1.
  rewrite Hs in H1. simpl in H1.
  assert (Hv1 := changes_kept _ _ _ _ _ _ H1 Hv eq_refl).
  assert (Hhw1 := changes_kept _ _ _ _ _ _ H1 Hhw eq_refl).
  rewrite do_fb_activate_ns_unfold. step Hs.
  destruct (err <? 0); [by eexists _, _|].
  step (fb_ns_swap_vmem_skips w1 virt activate v n hwi Hv1 Hvirt Hn Hhw1
          Hbase Hsize Hskip).
  assert (Hto : forall w2 v2,
            heap w2 !! virt = Some (BInfo v2) -> fb_info_is_virt v2 = true ->
            forall n2, par v2 = Some n2 ->
            fb_virt_to_info virt w2 = Ret (info n2) w2).
  { intros w2 v2 Hv2 Hvirt2 n2 Hn2. unfold fb_virt_to_info.
    step (load_info_ok _ _ _ Hv2). rewrite Hvirt2. cbn [negb].
    by step (load_par_ok _ _ _ _ Hv2 Hn2). }
  assert (Htail : forall w2 v2 n2,
            heap w2 !! virt = Some (BInfo v2) -> fb_info_is_virt v2 = true ->
            par v2 = Some n2 ->
            exists w',
              ((if CONFIG_FB_DEV_NS_PAN && activate then
                  hw <- fb_virt_to_info virt ;;
                  v3 <- load_info virt ;;
                  fb_pan_display hw (var v3)
                else ret tt) ;;; ret 0) w2 = Ret 0 w').
  { intros w2 v2 n2 Hv2 Hvirt2 Hn2.
    destruct (CONFIG_FB_DEV_NS_PAN && activate); [|by eexists].
    rewrite bind_assoc. step (Hto w2 v2 Hv2 Hvirt2 n2 Hn2).
    rewrite bind_assoc. step (load_info_ok _ _ _ Hv2).
    unfold fb_pan_display. step_log. by eexists. }
  unfold after_copy. destruct activate.
  - destruct (Hpal eq_refl) as (l & ops & Hst & Hops & Hslot).
    assert (Hops1 := changes_kept _ _ _ _ _ _ H1 Hops eq_refl).
    assert (Hst1 := staged_kept _ _ _ _ _ _ H1 eq_refl Hst).
    destruct (fb_ns_apply_colreg_runs w1 virt v n hwi ops l)
      as (w2 & Hrun & _ & _ & Hinfo); try done.
    assert (Hv2 : heap w2 !! virt
                  = Some (BInfo (set_par_of v (set_colreg_pos n 0)))).
    { unfold info_at in Hinfo.
      destruct (heap w2 !! virt) as [[]|]; by simplify_eq. }
    rewrite bind_assoc. step Hrun.
    assert (Hsp : fb_ns_apply_setpar virt w2 = Ret 0 w2).
    { unfold fb_ns_apply_setpar.
      step (load_par_ok w2 virt _ _ Hv2 eq_refl).
      by step (Hto w2 _ Hv2 Hvirt _ eq_refl). }
    rewrite bind_assoc. step Hsp. step_ret.
    destruct (Htail w2 _ _ Hv2 Hvirt eq_refl) as [w' Hw'].
    by exists 0, w'.
  - step_ret. destruct (Htail w1 v n Hv1 Hvirt Hn) as [w' Hw'].
    by exists 0, w'.
Qed.

(** C8, amended.  For a shadow whose recorded screen base and screen size
    are still the hardware's, and whose length is zero or one of whose
    buffers is missing: the copy step of either transition returns without
    having done anything; the whole transition, however it ends, logs no
    copy and no sync and leaves every buffer with the contents it had; and
    it returns when the tracked mappings are valid and, on activation, the
    staged palette is one the hardware can take. *)
Theorem zero_length_or_unmapped_copies_nothing w virt activate v n hwi :
  heap w !! virt = Some (BInfo v) ->
  fb_info_is_virt v = true ->
  par v = Some n ->
  heap w !! info n = Some (BInfo hwi) ->
  ns_screen_base n = screen_base hwi ->
  ns_screen_size n = screen_size hwi ->
  smem_len (fix_ v) = 0 \/ screen_base hwi = NULL \/ screen_base v = NULL ->
  fb_ns_swap_vmem virt activate w = Ret tt w /\
  forallb (fun e => negb (is_copy e))
          (events_of (do_fb_activate_ns virt activate) w) = true /\
  (forall p bytes,
     heap w !! p = Some (BMem bytes) ->
     heap (final (do_fb_activate_ns virt activate w)) !! p
     = Some (BMem bytes)) /\
  (forallb (mapping_ok w) (tracked n) = true ->
   (activate = true ->
    exists l ops, staged w n = Some l /\
                  heap w !! fbops hwi = Some (BOps ops) /\
                  is_Some (slot ops op_fb_setcolreg)) ->
   exists r w', do_fb_activate_ns virt activate w = Ret r w').
Proof.
  intros Hv Hvirt Hn Hhw Hbase Hsize Hskip.
  split; [by eapply fb_ns_swap_vmem_skips|].
  assert (Hc : changes only_mem (fun e => negb (is_copy e)) w
                 (final (do_fb_activate_ns virt activate w))).
  { rewrite do_fb_activate_ns_unfold. unfold bind at 1.
    pose proof (changes_fb_ns_swap_mmap virt activate w) as H1.
    assert (Hm : forall w1,
               changes but_vma (only (Some StepRepoint)) w w1 ->
               changes only_mem (fun e => negb (is_copy e)) w w1).
    { intros w1. apply changes_mono; [by intros [] | by intros []]. }
    destruct (fb_ns_swap_mmap virt activate w) as [r w1|w1|w1]; simpl in *;
      [|by apply Hm..].
    destruct (r <? 0); [by apply Hm|].
    assert (Hv1 := changes_kept _ _ _ _ _ _ H1 Hv eq_refl).
    assert (Hhw1 := changes_kept _ _ _ _ _ _ H1 Hhw eq_refl).
    unfold bind at 1.
    rewrite (fb_ns_swap_vmem_skips w1 virt activate v n hwi) by done.
    etrans; [by apply Hm | apply changes_after_copy]. }
  split; [by eapply changes_events|]. split.
  - intros p bytes Hp. by apply (changes_kept _ _ _ _ _ _ Hc Hp).
  - by apply (skipping_transition_returns w virt activate v n hwi).
Qed.

End no_copy.

(** ** Acquire and release *)

Section acquire_release.
Context `{K : kernel}.

Lemma load_info_inv w p i w' :
  load_info p w = Ret i w' -> w' = w /\ heap w !! p = Some (BInfo i).
Proof. unfold load_info. destruct (heap w !! p) as [[]|]; naive_solver. Qed.

Lemma load_ns_inv w p n w' :
  load_ns p w = Ret n w' -> w' = w /\ heap w !! p = Some (BNs n).
Proof. unfold load_ns. destruct (heap w !! p) as [[]|]; naive_solver. Qed.

Lemma load_ops_inv w p o w' :
  load_ops p w = Ret o w' -> w' = w /\ heap w !! p = Some (BOps o).
Proof. unfold load_ops. destruct (heap w !! p) as [[]|]; naive_solver. Qed.

Lemma load_par_inv w p n w' :
  load_par p w = Ret n w' ->
  w' = w /\ exists i, heap w !! p = Some (BInfo i) /\ par i = Some n.
Proof.
  unfold load_par. intros (i & w1 & Hi & Hn)%bind_Ret.
  apply load_info_inv in Hi as [-> Hi]. destruct (par i) eqn:Hp; [|done].
  unfold ret in Hn. naive_solver.
Qed.

Lemma store_inv w p b w' :
  store p b w = Ret tt w' ->
  exists b0, heap w !! p = Some b0 /\ kind_of b0 = kind_of b /\
             w' = set_heap (<[p := b]> (heap w)) w.
Proof.
  unfold store. destruct (heap w !! p) as [b0|]; [|done].
  destruct (decide _); naive_solver.
Qed.

Lemma alloc_inv b w q w' :
  alloc b w = Ret q w' ->
  (q = NULL /\ w' = set_trace (trace w ++ [EvAlloc false]) w) \/
  (q <> NULL /\ heap w !! q = None /\
   w' = set_heap (<[q := b]> (heap w))
                 (set_trace (trace w ++ [EvAlloc true]) w)).
Proof.
  unfold alloc, bind, try_alloc.
  destruct (alloc_ok (trace w)); simpl.
  - intros [= <- <-]. right.
    pose proof (is_fresh ({[NULL]} ∪ dom (heap w))) as Hf.
    split; [set_solver|]. split; [|done].
    apply not_elem_of_dom. set_solver.
  - intros [= <- <-]. by left.
Qed.

Lemma fb_slot_ok w p ns idx v :
  heap w !! p = Some (BNs ns) -> 0 <= idx ->
  fb ns !! Z.to_nat idx = Some v ->
  fb_slot p idx w = Ret v w.
Proof.
  intros Hp Hidx Hv. unfold fb_slot, bind. rewrite (load_ns_ok _ _ _ Hp).
  destruct (Z.ltb_spec idx 0); [lia|]. by rewrite Hv.
Qed.

Lemma atomic_inc_ok w v vi :
  heap w !! v = Some (BInfo vi) ->
  atomic_inc v w
  = Ret tt (set_heap (<[v := BInfo (set_count vi (wrap_int (count vi + 1)))]>
                        (heap w)) w).
Proof.
  intros Hv. unfold atomic_inc. step (load_info_ok _ _ _ Hv).
  unfold store_info. by rewrite (store_ok _ _ _ _ Hv) by done.
Qed.

Lemma put_fb_ns_ok w p ns :
  heap w !! p = Some (BNs ns) ->
  put_fb_ns p w
  = Ret tt (set_heap (<[p := BNs (set_ns_count ns (wrap_int (ns_count ns - 1)))]>
                        (heap w)) w).
Proof.
  intros Hp. unfold put_fb_ns. step (load_ns_ok _ _ _ Hp).
  by rewrite (store_ok _ _ _ _ Hp) by done.
Qed.

(** Another acquire of a shadow that is in the table. *)
Lemma get_fb_info_ns_again w hw hwi v c n :
  shadow_ok w hw hwi v c n ->
  exists w',
    get_fb_info_ns hw w = Ret (Ptr v) w' /\
    shadow_ok w' hw hwi v (wrap_int (c + 1)) n.
Proof.
  intros (ns & vi & Hreg & Hns & Hhw & Hidx & Hslot & Hpn & Hnn & Hne
          & Hv & Hnode & Hc & Hpar & Hmem & Hcol & Hops).
  assert (Hp_hw : fb_ns n <> hw) by neq_by_kind.
  assert (Hp_v : fb_ns n <> v) by neq_by_kind.
  apply Z.eqb_neq in Hpn as Hpz. apply Z.eqb_neq in Hnn as Hvz.
  set (ns' := set_ns_count ns (wrap_int (ns_count ns + 1))).
  set (w1 := set_heap (<[fb_ns n := BNs ns']> (heap w)) w).
  assert (Hcur : get_fb_ns_cur w = Ret (fb_ns n) w1).
  { subst w1 ns'. unfold get_fb_ns_cur. unfold bind at 1, get_world.
    rewrite Hreg. step (load_ns_ok _ _ _ Hns).
    by rewrite (bind_store _ _ _ _ _ Hns) by done. }
  assert (Hns1 : heap w1 !! fb_ns n = Some (BNs ns'))
    by (simpl; by rewrite lookup_insert_eq).
  assert (Hhw1 : heap w1 !! hw = Some (BInfo hwi))
    by (simpl; by rewrite lookup_insert_ne).
  assert (Hv1 : heap w1 !! v = Some (BInfo vi))
    by (simpl; by rewrite lookup_insert_ne).
  set (w2 := set_trace (trace w1 ++ [EvMutexLock]) w1).
  set (vi' := set_count vi (wrap_int (count vi + 1))).
  set (w3 := set_heap (<[v := BInfo vi']> (heap w2)) w2).
  exists (set_trace (trace w3 ++ [EvMutexUnlock]) w3). split.
  - unfold get_fb_info_ns. step Hcur. rewrite Hpz.
    step (load_info_ok _ _ _ Hhw1). step_log. fold w2.
    assert (Hs2 : fb_slot (fb_ns n) (node hwi) w2 = Ret v w2)
      by (by eapply fb_slot_ok).
    step Hs2. rewrite Hvz. step_ret. step Hs2. rewrite Hvz. cbn [negb].
    rewrite bind_assoc. step (atomic_inc_ok w2 v vi Hv1). fold vi' w3.
    step_ret. step_log. step_ret. done.
  - exists ns', vi'. simpl.
    rewrite !lookup_insert_eq, !lookup_insert_ne, !lookup_insert_eq by done.
    rewrite !lookup_insert_ne by done.
    repeat split; try done.
    + by rewrite Hc.
    + destruct Hmem as [|[b Hb]]; [by left|]. right. exists b.
      rewrite !lookup_insert_ne; [done|..]; neq_by_kind.
    + destruct Hcol as [|[b Hb]]; [by left|]. right. exists b.
      rewrite !lookup_insert_ne; [done|..]; neq_by_kind.
    + destruct Hops as [|[b Hb]]; [by left|]. right. exists b.
      rewrite !lookup_insert_ne; [done|..]; neq_by_kind.
Qed.

Lemma free_heap_lookup p h q :
  free_heap p h !! q = if decide (p <> NULL /\ p = q) then None else h !! q.
Proof.
  unfold free_heap. destruct (Z.eqb_spec p NULL) as [->|Hp].
  - by destruct (decide _) as [[]|].
  - destruct (decide _) as [[_ ->]|Hn].
    + apply lookup_delete_eq.
    + apply lookup_delete_ne. naive_solver.
Qed.

Lemma free_heap_None p h q : h !! q = None -> free_heap p h !! q = None.
Proof. intros Hq. rewrite free_heap_lookup. by destruct (decide _). Qed.

Lemma free_heap_same p h : p <> NULL -> free_heap p h !! p = None.
Proof. intros Hp. rewrite free_heap_lookup. by destruct (decide _) as [|[]]. Qed.

Lemma free_heap_other p h q x :
  h !! q = Some x -> (p = NULL \/ p <> q) -> free_heap p h !! q = Some x.
Proof.
  intros Hq Hp. rewrite free_heap_lookup.
  destruct (decide _) as [[Hn He]|]; [|done]. by destruct Hp.
Qed.

Lemma atomic_dec_and_test_ok w v vi :
  heap w !! v = Some (BInfo vi) ->
  atomic_dec_and_test v w
  = Ret (wrap_int (count vi - 1) =? 0)
        (set_heap (<[v := BInfo (set_count vi (wrap_int (count vi - 1)))]>
                     (heap w)) w).
Proof.
  intros Hv. unfold atomic_dec_and_test. step (load_info_ok _ _ _ Hv).
  unfold store_info. by rewrite (bind_store _ _ _ _ _ Hv) by done.
Qed.

(** A release that is not the last one. *)
Lemma put_fb_info_ns_keeps w hw hwi v c n :
  shadow_ok w hw hwi v c n ->
  wrap_int (c - 1) <> 0 ->
  exists w',
    put_fb_info_ns v w = Ret tt w' /\
    shadow_ok w' hw hwi v (wrap_int (c - 1)) n.
Proof.
  intros (ns & vi & Hreg & Hns & Hhw & Hidx & Hslot & Hpn & Hnn & Hne
          & Hv & Hnode & Hc & Hpar & Hmem & Hcol & Hops) Hnz.
  assert (Hp_hw : fb_ns n <> hw) by neq_by_kind.
  assert (Hp_v : fb_ns n <> v) by neq_by_kind.
  set (ns' := set_ns_count ns (wrap_int (ns_count ns - 1))).
  set (w1 := set_heap (<[fb_ns n := BNs ns']> (heap w)) w).
  assert (Hv1 : heap w1 !! v = Some (BInfo vi))
    by (simpl; by rewrite lookup_insert_ne).
  set (vi' := set_count vi (wrap_int (count vi - 1))).
  exists (set_heap (<[v := BInfo vi']> (heap w1)) w1). split.
  - unfold put_fb_info_ns. step (load_par_ok _ _ _ _ Hv Hpar).
    step (put_fb_ns_ok _ _ _ Hns). fold ns' w1.
    step (atomic_dec_and_test_ok w1 v vi Hv1). fold vi'.
    rewrite Hc. by apply Z.eqb_neq in Hnz as ->.
  - exists ns', vi'. simpl.
    rewrite !lookup_insert_eq, !lookup_insert_ne, !lookup_insert_eq by done.
    rewrite !lookup_insert_ne by done.
    repeat split; try done.
    + by rewrite Hc.
    + destruct Hmem as [|[b Hb]]; [by left|]. right. exists b.
      rewrite !lookup_insert_ne; [done|..]; neq_by_kind.
    + destruct Hcol as [|[b Hb]]; [by left|]. right. exists b.
      rewrite !lookup_insert_ne; [done|..]; neq_by_kind.
    + destruct Hops as [|[b Hb]]; [by left|]. right. exists b.
      rewrite !lookup_insert_ne; [done|..]; neq_by_kind.
Qed.

(** The last release: the slot is cleared and the shadow, its backing
    buffer, its staged registers and its operations are freed. *)
Lemma put_fb_info_ns_last w hw hwi v c n :
  shadow_ok w hw hwi v c n ->
  wrap_int (c - 1) = 0 ->
  exists w' vi,
    put_fb_info_ns v w = Ret tt w' /\
    info_at w v = Some vi /\
    slot_at w' (node hwi) = Some NULL /\
    heap w' !! v = None /\
    (vmem_buf n <> NULL -> heap w' !! vmem_buf n = None) /\
    (colreg n <> NULL -> heap w' !! colreg n = None) /\
    (fbops vi <> NULL -> heap w' !! fbops vi = None).
Proof.
  intros (ns & vi & Hreg & Hns & Hhw & Hidx & Hslot & Hpn & Hnn & Hne
          & Hv & Hnode & Hc & Hpar & Hmem & Hcol & Hops) Hz.
  assert (Hp_hw : fb_ns n <> hw) by neq_by_kind.
  assert (Hp_v : fb_ns n <> v) by neq_by_kind.
  set (ns' := set_ns_count ns (wrap_int (ns_count ns - 1))).
  set (w1 := set_heap (<[fb_ns n := BNs ns']> (heap w)) w).
  assert (Hv1 : heap w1 !! v = Some (BInfo vi))
    by (simpl; by rewrite lookup_insert_ne).
  set (vi' := set_count vi (wrap_int (count vi - 1))).
  set (w2 := set_heap (<[v := BInfo vi']> (heap w1)) w1).
  assert (Hv2 : heap w2 !! v = Some (BInfo vi'))
    by (simpl; by rewrite lookup_insert_eq).
  assert (Hns2 : heap w2 !! fb_ns n = Some (BNs ns')).
  { simpl. by rewrite lookup_insert_ne, lookup_insert_eq. }
  set (ns3 := mk_fb_dev_ns (<[Z.to_nat (node hwi) := NULL]> (fb ns'))
                           (dev_ns ns') (ns_count ns')).
  set (w3 := set_heap (<[fb_ns n := BNs ns3]> (heap w2)) w2).
  assert (Hv3 : heap w3 !! v = Some (BInfo vi'))
    by (simpl; by rewrite lookup_insert_ne, lookup_insert_eq).
  assert (Hlen : (Z.to_nat (node hwi) < length (fb ns))%nat)
    by (by eapply lookup_lt_Some).
  assert (Hset : set_fb_slot (fb_ns n) (node hwi) NULL w2 = Ret tt w3).
  { unfold set_fb_slot. step (load_ns_ok _ _ _ Hns2). simpl.
    destruct (Z.ltb_spec (node hwi) 0); [lia|].
    destruct (Z.leb_spec (Z.of_nat (length (fb ns))) (node hwi)); [lia|].
    simpl. by rewrite (store_ok _ _ _ _ Hns2) by done. }
  set (h4 := free_heap v (free_heap (fbops vi') (free_heap (colreg n)
               (free_heap (vmem_buf n) (heap w3))))).
  exists (set_heap h4 w3), vi.
  split; [|split; [by unfold info_at; rewrite Hv|]].
  - unfold put_fb_info_ns. step (load_par_ok _ _ _ _ Hv Hpar).
    step (put_fb_ns_ok _ _ _ Hns). fold ns' w1.
    step (atomic_dec_and_test_ok w1 v vi Hv1). fold vi' w2.
    rewrite Hc, Hz. simpl.
    step (load_info_ok _ _ _ Hv2).
    change (node vi') with (node vi). rewrite Hnode. step Hset.
    unfold fb_ns_info_free.
    step (load_par_ok w3 v vi' n Hv3 Hpar). step (load_info_ok _ _ _ Hv3).
    unfold fb_ns_free_fb_ops, framebuffer_release, free, bind. done.
  - assert (Hp3 : heap w3 !! fb_ns n = Some (BNs ns3))
      by (simpl; by rewrite lookup_insert_eq).
    assert (H4 : h4 !! fb_ns n = Some (BNs ns3)).
    { unfold h4.
      apply free_heap_other; [|right; congruence].
      apply free_heap_other;
        [|destruct Hops as [|[b Hb]]; [by left|]; right; simpl; neq_by_kind].
      apply free_heap_other;
        [|destruct Hcol as [|[b Hb]]; [by left|]; right; neq_by_kind].
      apply free_heap_other; [exact Hp3|].
      destruct Hmem as [|[b Hb]]; [by left|]. right. neq_by_kind. }
    split.
    + unfold slot_at. simpl. rewrite Hreg, H4. simpl.
      by apply list_lookup_insert_eq.
    + simpl. unfold h4. split; [by apply free_heap_same|].
      split; [|split]; intros Hq.
      * do 3 apply free_heap_None. by apply free_heap_same.
      * do 2 apply free_heap_None. by apply free_heap_same.
      * apply free_heap_None. by apply free_heap_same.
Qed.

Lemma shadow_ok_facts w hw hwi v c n :
  shadow_ok w hw hwi v c n ->
  count_at w v = Some c /\ slot_at w (node hwi) = Some v /\
  par_at w v = Some n.
Proof.
  intros (ns & vi & Hreg & Hns & Hhw & Hidx & Hslot & Hpn & Hnn & Hne
          & Hv & Hnode & Hc & Hpar & _).
  unfold count_at, info_at, slot_at, par_at. rewrite Hreg, Hns, Hv. simpl.
  by rewrite Hc.
Qed.

End acquire_release.

Section first_acquire.
Context `{K : kernel}.

Lemma ret_inv {A} (a b : A) w w' : ret a w = Ret b w' -> b = a /\ w' = w.
Proof. unfold ret. naive_solver. Qed.

Lemma store_info_inv w p i w' :
  store_info p i w = Ret tt w' ->
  exists i0, heap w !! p = Some (BInfo i0) /\
             w' = set_heap (<[p := BInfo i]> (heap w)) w.
Proof.
  unfold store_info. intros (b0 & Hb & Hk & ->)%store_inv.
  destruct b0; try done. eauto.
Qed.

(** What a successful fb_ns_make_fb_ops leaves. *)
Lemma fb_ns_make_fb_ops_inv hw w ops w' :
  fb_ns_make_fb_ops hw w = Ret ops w' ->
  ops <> NULL ->
  heap w !! ops = None /\
  exists o t, heap w' = <[ops := BOps o]> (heap w) /\
              w' = set_heap (heap w') (set_trace t w).
Proof.
  unfold fb_ns_make_fb_ops.
  intros (q & w1 & Ha & Hrest)%bind_Ret Hnn.
  apply alloc_inv in Ha as [[-> ->]|(Hq & Hfresh & ->)].
  { simpl in Hrest. apply ret_inv in Hrest as [? _]. done. }
  apply Z.eqb_neq in Hq as Hqz. rewrite Hqz in Hrest.
  apply bind_Ret in Hrest as (i & w2 & Hi & Hrest).
  apply load_info_inv in Hi as [-> Hi].
  apply bind_Ret in Hrest as (o & w2 & Ho & Hrest).
  apply load_ops_inv in Ho as [-> Ho].
  apply bind_Ret in Hrest as ([] & w2 & Hs & Hrest).
  apply store_inv in Hs as (b0 & Hb0 & _ & ->).
  apply ret_inv in Hrest as [-> ->].
  split; [done|]. eexists _, _. simpl. split; [|reflexivity].
  by rewrite insert_insert_eq.
Qed.

(** What a successful fb_ns_info_alloc leaves: a new shadow with count 0,
    its backing buffer when the hardware has memory, its operations; and
    everything that was there before. *)
Lemma fb_ns_info_alloc_inv p hw w v w' hwi :
  fb_ns_info_alloc p hw w = Ret v w' ->
  v <> NULL ->
  heap w !! hw = Some (BInfo hwi) ->
  exists vi n,
    heap w !! v = None /\
    heap w' !! v = Some (BInfo vi) /\
    count vi = 0 /\ node vi = node hwi /\ par vi = Some n /\
    fb_ns n = p /\ info n = hw /\
    colreg n = NULL /\ colreg_pos n = 0 /\ colreg_len n = 0 /\
    (if 0 <? smem_len (fix_ hwi)
     then vmem_buf n <> NULL /\ heap w !! vmem_buf n = None /\
          heap w' !! vmem_buf n
          = Some (BMem (replicate (Z.to_nat (smem_len (fix_ hwi))) 0))
     else vmem_buf n = NULL) /\
    (fbops vi <> NULL /\ heap w !! fbops vi = None /\
     exists o, heap w' !! fbops vi = Some (BOps o)) /\
    (forall q b, heap w !! q = Some b -> heap w' !! q = Some b) /\
    fb_ns_of w' = fb_ns_of w /\ current_dev_ns w' = current_dev_ns w.
Proof.
  unfold fb_ns_info_alloc, framebuffer_alloc, framebuffer_release,
    allocate_backbuffer.
  intros (hwi' & w0 & Hl & Hrest)%bind_Ret Hnn Hhw.
  apply load_info_inv in Hl as [-> Hl].
  assert (hwi' = hwi) as -> by congruence. clear Hl.
  apply bind_Ret in Hrest as (fv & w1 & Ha & Hrest).
  apply alloc_inv in Ha as [[-> ->]|(Hfv & Hfresh & ->)].
  { simpl in Hrest. apply ret_inv in Hrest as [? _]. done. }
  apply Z.eqb_neq in Hfv as Hfz. rewrite Hfz in Hrest.
  apply bind_Ret in Hrest as (nsd & w2 & Hn & Hrest).
  apply load_ns_inv in Hn as [-> _].
  apply bind_Ret in Hrest as ([] & w2 & Hs1 & Hrest).
  apply store_info_inv in Hs1 as (i0 & _ & ->).
  apply bind_Ret in Hrest as (vmem & w3 & Hm & Hrest).
  destruct (0 <? smem_len (fix_ hwi)) eqn:Hlen.
  - apply alloc_inv in Hm as [[-> ->]|(Hvm & Hmfresh & ->)].
    { simpl in Hrest. cbv beta iota delta [bind free ret] in Hrest.
      congruence. }
    apply Z.eqb_neq in Hvm as Hvz. rewrite Hvz in Hrest. simpl in Hrest.
    apply bind_Ret in Hrest as ([] & w4 & Hs2 & Hrest).
    apply store_info_inv in Hs2 as (i1 & _ & ->).
    apply bind_Ret in Hrest as (ops & w5 & Ho & Hrest).
    destruct (Z.eqb_spec ops NULL) as [->|Hon].
    { cbv beta iota delta [bind free ret] in Hrest. congruence. }
    apply fb_ns_make_fb_ops_inv in Ho as (Hofresh & o & t & Hh5 & Hw5);
      [|done].
    apply bind_Ret in Hrest as ([] & w6 & Hs3 & Hrest).
    apply store_info_inv in Hs3 as (i2 & _ & ->).
    apply ret_inv in Hrest as [-> ->].
    simpl in Hmfresh, Hofresh.
    repeat match goal with
           | H : <[_:=_]> _ !! _ = None |- _ =>
               apply lookup_insert_None in H as [H ?]
           end.
    eexists _, _. rewrite Hh5. rewrite Hw5. simpl.
    rewrite lookup_insert_eq.
    do 10 (split; [done|]).
    split.
    { split; [done|]. split; [done|].
      by rewrite !lookup_insert_ne, lookup_insert_eq by done. }
    split.
    { split; [done|]. split; [done|]. exists o.
      by rewrite lookup_insert_ne, lookup_insert_eq by done. }
    split; [|done].
    intros q b Hq. rewrite !lookup_insert_ne; [done|congruence..].
  - apply ret_inv in Hm as [-> ->]. simpl in Hrest.
    apply bind_Ret in Hrest as ([] & w4 & Hs2 & Hrest).
    apply store_info_inv in Hs2 as (i1 & _ & ->).
    apply bind_Ret in Hrest as (ops & w5 & Ho & Hrest).
    destruct (Z.eqb_spec ops NULL) as [->|Hon].
    { cbv beta iota delta [bind free ret] in Hrest. congruence. }
    apply fb_ns_make_fb_ops_inv in Ho as (Hofresh & o & t & Hh5 & Hw5);
      [|done].
    apply bind_Ret in Hrest as ([] & w6 & Hs3 & Hrest).
    apply store_info_inv in Hs3 as (i2 & _ & ->).
    apply ret_inv in Hrest as [-> ->].
    simpl in Hofresh.
    repeat match goal with
           | H : <[_:=_]> _ !! _ = None |- _ =>
               apply lookup_insert_None in H as [H ?]
           end.
    eexists _, _. rewrite Hh5. rewrite Hw5. simpl.
    rewrite lookup_insert_eq.
    do 10 (split; [done|]).
    split; [done|].
    split.
    { split; [done|]. split; [done|]. exists o.
      by rewrite lookup_insert_ne, lookup_insert_eq by done. }
    split; [|done].
    intros q b Hq. rewrite !lookup_insert_ne; [done|congruence..].
Qed.

Lemma fb_slot_inv w p idx s w' :
  fb_slot p idx w = Ret s w' ->
  w' = w /\ 0 <= idx /\
  exists ns, heap w !! p = Some (BNs ns) /\ fb ns !! Z.to_nat idx = Some s.
Proof.
  unfold fb_slot. intros (ns & w1 & Hn & Hrest)%bind_Ret.
  apply load_ns_inv in Hn as [-> Hn].
  destruct (Z.ltb_spec idx 0); [done|].
  destruct (fb ns !! Z.to_nat idx) eqn:Hs; [|done].
  apply ret_inv in Hrest as [-> ->]. eauto.
Qed.

Lemma set_fb_slot_inv w p idx v w' :
  set_fb_slot p idx v w = Ret tt w' ->
  exists ns,
    heap w !! p = Some (BNs ns) /\
    (Z.to_nat idx < length (fb ns))%nat /\
    w' = set_heap (<[p := BNs (mk_fb_dev_ns (<[Z.to_nat idx := v]> (fb ns))
                                            (dev_ns ns) (ns_count ns))]>
                     (heap w)) w.
Proof.
  unfold set_fb_slot. intros (ns & w1 & Hn & Hrest)%bind_Ret.
  apply load_ns_inv in Hn as [-> Hn].
  destruct (Z.ltb_spec idx 0); [done|].
  destruct (Z.leb_spec (Z.of_nat (length (fb ns))) idx); [done|].
  simpl in Hrest. apply store_inv in Hrest as (b0 & _ & _ & ->).
  exists ns. split; [done|]. split; [lia | done].
Qed.

(** The table [get_fb_ns_cur] gives: the one the namespace had, or a new
    one with every slot [NULL]. *)
Lemma get_fb_ns_cur_inv w p wa :
  get_fb_ns_cur w = Ret p wa ->
  p <> NULL ->
  exists ns,
    fb_ns_of wa !! current_dev_ns wa = Some p /\
    heap wa !! p = Some (BNs ns) /\
    (forall q b, heap w !! q = Some b -> kind_of b <> KNs ->
                 heap wa !! q = Some b) /\
    (forall idx x, slot_free w idx -> fb ns !! Z.to_nat idx = Some x ->
                   x = NULL).
Proof.
  unfold get_fb_ns_cur. intros (w0 & w0' & Hw & Hrest)%bind_Ret Hnn.
  unfold get_world in Hw. injection Hw as <- <-.
  destruct (fb_ns_of w !! current_dev_ns w) as [p0|] eqn:Hreg.
  - apply bind_Ret in Hrest as (ns & w1 & Hn & Hrest).
    apply load_ns_inv in Hn as [-> Hn].
    apply bind_Ret in Hrest as ([] & w1 & Hs & Hrest).
    apply store_inv in Hs as (b0 & _ & _ & ->).
    apply ret_inv in Hrest as [-> ->].
    eexists. simpl. rewrite lookup_insert_eq.
    split; [done|]. split; [done|]. split.
    + intros q b Hq Hk. rewrite lookup_insert_ne; [done|].
      intros <-. rewrite Hn in Hq. by simplify_eq.
    + intros idx x [Hfree|Hfree] Hx; [congruence|].
      unfold slot_at in Hfree. rewrite Hreg, Hn in Hfree. simpl in Hx.
      congruence.
  - unfold fb_devns_create in Hrest.
    apply bind_Ret in Hrest as (r & w1 & Hc & Hrest).
    apply bind_Ret in Hc as (q & w2 & Ha & Hc).
    apply alloc_inv in Ha as [[-> ->]|(Hq & Hfresh & ->)].
    { simpl in Hc. apply ret_inv in Hc as [-> ->].
      apply ret_inv in Hrest as [? _]. done. }
    apply Z.eqb_neq in Hq as Hqz. rewrite Hqz in Hc.
    apply bind_Ret in Hc as ([] & w3 & Hl & Hc).
    unfold log in Hl. injection Hl as <-.
    apply ret_inv in Hc as [-> ->].
    apply bind_Ret in Hrest as (ns & w4 & Hn & Hrest).
    apply load_ns_inv in Hn as [-> Hn].
    simpl in Hn. rewrite lookup_insert_eq in Hn. injection Hn as <-.
    apply bind_Ret in Hrest as ([] & w5 & Hs & Hrest).
    apply store_inv in Hs as (b0 & _ & _ & ->).
    apply bind_Ret in Hrest as ([] & w6 & Hf & Hrest).
    injection Hf as <-.
    apply ret_inv in Hrest as [-> ->].
    eexists. simpl. rewrite !lookup_insert_eq.
    split; [done|]. split; [done|]. split.
    + intros q' b Hq' _. rewrite !lookup_insert_ne; [done|congruence..].
    + intros idx x _ Hx. simpl in Hx.
      by apply lookup_replicate in Hx as [-> _].
Qed.

(** The first acquire for a hardware device whose slot is free: when it
    gives a shadow, the shadow is new, in the table, and counted once. *)
Lemma get_fb_info_ns_first w hw hwi v w1 :
  heap w !! hw = Some (BInfo hwi) ->
  slot_free w (node hwi) ->
  get_fb_info_ns hw w = Ret (Ptr v) w1 ->
  exists n,
    shadow_ok w1 hw hwi v 1 n /\
    info n = hw /\ colreg n = NULL /\ colreg_pos n = 0 /\
    (0 < smem_len (fix_ hwi) ->
     vmem_buf n <> NULL /\
     heap w1 !! vmem_buf n
     = Some (BMem (replicate (Z.to_nat (smem_len (fix_ hwi))) 0))).
Proof.
  intros Hhw Hfree. unfold get_fb_info_ns.
  intros (p & wa & Hcur & Hrest)%bind_Ret.
  destruct (Z.eqb_spec p NULL) as [->|Hpn].
  { by apply ret_inv in Hrest as [? _]. }
  destruct (get_fb_ns_cur_inv _ _ _ Hcur Hpn)
    as (ns & Hreg & Hns & Hkept & Hnull).
  assert (Hhwa : heap wa !! hw = Some (BInfo hwi)) by (by apply Hkept).
  apply bind_Ret in Hrest as (hwi' & w2 & Hl & Hrest).
  apply load_info_inv in Hl as [-> Hl].
  assert (hwi' = hwi) as -> by congruence. clear Hl.
  apply bind_Ret in Hrest as ([] & wb & Hlog & Hrest).
  unfold log in Hlog. injection Hlog as <-.
  apply bind_Ret in Hrest as (s & w2 & Hs & Hrest).
  apply fb_slot_inv in Hs as (-> & Hidx & ns0 & Hns0 & Hs).
  simpl in Hns0. assert (ns0 = ns) as -> by congruence. clear Hns0.
  assert (s = NULL) as -> by eauto.
  apply bind_Ret in Hrest as ([] & wd & Hnew & Hrest).
  simpl in Hnew.
  apply bind_Ret in Hnew as (v' & wc & Halloc & Hset).
  apply set_fb_slot_inv in Hset as (nsc & Hnsc & Hlen & ->).
  apply bind_Ret in Hrest as (x & w2 & Hs2 & Hrest).
  apply fb_slot_inv in Hs2 as (-> & _ & nsd & Hnsd & Hx).
  simpl in Hnsd. rewrite lookup_insert_eq in Hnsd. injection Hnsd as <-.
  simpl in Hx. rewrite list_lookup_insert_eq in Hx by done.
  injection Hx as <-.
  apply bind_Ret in Hrest as (r & we & Hinc & Hrest).
  apply bind_Ret in Hrest as ([] & wf & Hlog & Hrest).
  unfold log in Hlog. injection Hlog as <-.
  apply bind_Ret in Hrest as ([] & wg & Hput & Hrest).
  apply ret_inv in Hrest as [<- ->].
  destruct (Z.eqb_spec v' NULL) as [Hvz|Hvn].
  { by apply ret_inv in Hinc as [? _]. }
  simpl in Hinc. apply bind_Ret in Hinc as ([] & wh & Hinc & Hr).
  apply ret_inv in Hr as [Hr ->]. injection Hr as <-.
  apply ret_inv in Hput as [_ ->].
  destruct (fb_ns_info_alloc_inv _ _ _ _ _ hwi Halloc Hvn)
    as (vi & n & Hvfresh & Hv & Hcount & Hnode & Hpar & Hfbns & Hinfo & Hcol
        & Hpos & _ & Hmem & (Hon & Hofresh & o & Ho) & Hold & Hregc & Hcurc);
    [done|].
  assert (Hnsc' : heap wc !! p = Some (BNs ns)) by (by apply Hold).
  assert (nsc = ns) as -> by congruence. clear Hnsc'.
  assert (Hhwc : heap wc !! hw = Some (BInfo hwi)) by (by apply Hold).
  assert (Hpv : p <> v) by (intros ->; simpl in *; congruence).
  assert (Hhv : hw <> v) by (intros ->; simpl in *; congruence).
  assert (Hph : p <> hw) by neq_by_kind.
  apply bind_Ret in Hinc as (vi0 & w2 & Hl & Hinc).
  apply load_info_inv in Hl as [-> Hl].
  simpl in Hl. rewrite lookup_insert_ne in Hl by done.
  assert (vi0 = vi) as -> by congruence. clear Hl.
  apply store_info_inv in Hinc as (_ & _ & ->).
  exists n. split.
  - eexists _, _. simpl.
    rewrite Hfbns, Hregc, Hcurc.
    rewrite lookup_insert_eq.
    rewrite (lookup_insert_ne _ v p), lookup_insert_eq by done.
    rewrite (lookup_insert_ne _ v hw), (lookup_insert_ne _ p hw) by done.
    split; [exact Hreg|]. split; [done|]. split; [done|]. split; [done|].
    simpl. split; [by apply list_lookup_insert_eq|].
    do 3 (split; [done|]). split; [done|]. split; [done|].
    split; [by rewrite Hcount|]. split; [done|].
    split; [|split].
    + destruct (0 <? smem_len (fix_ hwi)); [|by left].
      destruct Hmem as (? & ? & Hm). right. eexists.
      rewrite !lookup_insert_ne; [done|..]; neq_by_kind.
    + by left.
    + right. exists o. rewrite !lookup_insert_ne; [done|..]; neq_by_kind.
  - do 3 (split; [done|]).
    intros Hlenpos. apply Z.ltb_lt in Hlenpos. rewrite Hlenpos in Hmem.
    destruct Hmem as (? & Hmf & Hm). split; [done|].
    simpl. rewrite !lookup_insert_ne; [done|..]; neq_by_kind.
Qed.

Lemma alloc_returns b w :
  alloc_ok (trace w) = true ->
  exists p,
    alloc b w = Ret p (set_heap (<[p := b]> (heap w))
                                (set_trace (trace w ++ [EvAlloc true]) w)) /\
    p <> NULL /\ heap w !! p = None.
Proof.
  intros Hok. destruct (alloc b w) as [p w'| |] eqn:Ha.
  - destruct (alloc_inv _ _ _ _ Ha) as [[-> ->]|(Hp & Hf & ->)].
    + unfold alloc, bind, try_alloc in Ha. rewrite Hok in Ha. simpl in Ha.
      injection Ha as Hp _.
      pose proof (is_fresh ({[NULL]} ∪ dom (heap w))) as Hfr.
      rewrite Hp in Hfr. set_solver.
    + by exists p.
  - unfold alloc, bind, try_alloc in Ha. by rewrite Hok in Ha.
  - unfold alloc, bind, try_alloc in Ha. by rewrite Hok in Ha.
Qed.

Section allocator_succeeds.
Hypothesis alloc_succeeds : forall tr, alloc_ok tr = true.

Lemma get_fb_ns_cur_returns w idx :
  slot_free w idx ->
  (Z.to_nat idx < FB_MAX)%nat ->
  fb_ns_of w !! current_dev_ns w <> Some NULL ->
  exists p wa ns,
    get_fb_ns_cur w = Ret p wa /\ p <> NULL /\
    heap wa !! p = Some (BNs ns) /\
    fb ns !! Z.to_nat idx = Some NULL.
Proof.
  intros Hfree Hidx Hreg0. unfold get_fb_ns_cur.
  unfold bind at 1, get_world.
  destruct (fb_ns_of w !! current_dev_ns w) as [p|] eqn:Hreg.
  - destruct Hfree as [Hn|Hslot]; [congruence|].
    unfold slot_at in Hslot. rewrite Hreg in Hslot.
    destruct (heap w !! p) as [[| | | |ns|]|] eqn:Hp; try done.
    step (load_ns_ok _ _ _ Hp).
    rewrite (bind_store _ _ _ _ _ Hp) by done.
    eexists p, _, _. split; [reflexivity|]. split; [congruence|].
    simpl. by rewrite lookup_insert_eq.
  - unfold fb_devns_create.
    destruct (alloc_returns (BNs (mk_fb_dev_ns (replicate FB_MAX NULL) NULL 0))
                w (alloc_succeeds _)) as (p & Ha & Hp & Hf).
    rewrite !bind_assoc. step Ha.
    apply Z.eqb_neq in Hp as Hpz. rewrite Hpz.
    rewrite bind_assoc. step_log. step_ret.
    match goal with |- context [bind (load_ns p) _ ?w1] => set (wb := w1) end.
    assert (Hb : heap wb !! p
                 = Some (BNs (mk_fb_dev_ns (replicate FB_MAX NULL) NULL 0)))
      by (subst wb; simpl; by rewrite lookup_insert_eq).
    clearbody wb. step (load_ns_ok _ _ _ Hb).
    rewrite (bind_store _ _ _ _ _ Hb) by done.
    unfold bind, ret. eexists p, _, _. split; [reflexivity|].
    split; [done|]. simpl. rewrite lookup_insert_eq. split; [done|].
    simpl. by apply lookup_replicate.
Qed.

Lemma fb_ns_make_fb_ops_returns hw hwi ops w :
  heap w !! hw = Some (BInfo hwi) ->
  heap w !! fbops hwi = Some (BOps ops) ->
  exists q w', fb_ns_make_fb_ops hw w = Ret q w' /\ q <> NULL.
Proof.
  intros Hhw Hops. unfold fb_ns_make_fb_ops.
  destruct (alloc_returns (BOps fb_devns_ops) w (alloc_succeeds _))
    as (q & Ha & Hq & Hf).
  step Ha. apply Z.eqb_neq in Hq as Hqz. rewrite Hqz.
  assert (q <> hw) by congruence.
  assert (q <> fbops hwi) by congruence.
  match goal with |- context [bind (load_info hw) _ ?w1] => set (wa := w1) end.
  assert (Hhwa : heap wa !! hw = Some (BInfo hwi))
    by (subst wa; simpl; by rewrite lookup_insert_ne).
  assert (Hopsa : heap wa !! fbops hwi = Some (BOps ops))
    by (subst wa; simpl; by rewrite lookup_insert_ne).
  assert (Hqa : heap wa !! q = Some (BOps fb_devns_ops))
    by (subst wa; simpl; by rewrite lookup_insert_eq).
  clearbody wa. step (load_info_ok _ _ _ Hhwa).
  step (load_ops_ok _ _ _ Hopsa).
  rewrite (bind_store _ _ _ _ _ Hqa) by done.
  by eexists q, _.
Qed.

Lemma fb_ns_info_alloc_returns p hw hwi ops nsd w :
  heap w !! hw = Some (BInfo hwi) ->
  heap w !! fbops hwi = Some (BOps ops) ->
  heap w !! p = Some (BNs nsd) ->
  exists v w', fb_ns_info_alloc p hw w = Ret v w' /\ v <> NULL.
Proof.
  intros Hhw Hops Hp.
  unfold fb_ns_info_alloc, framebuffer_alloc, allocate_backbuffer, store_info.
  step (load_info_ok _ _ _ Hhw).
  match goal with
  | |- context [alloc ?b] =>
      destruct (alloc_returns b w (alloc_succeeds _)) as (v & Ha & Hv & Hf)
  end.
  step Ha. apply Z.eqb_neq in Hv as Hvz. rewrite Hvz.
  assert (v <> hw) by congruence.
  assert (v <> fbops hwi) by congruence.
  assert (v <> p) by congruence.
  match goal with
  | |- context [bind (load_ns p) _ ?w1] =>
      assert (Hp1 : heap w1 !! p = Some (BNs nsd))
        by (simpl; by rewrite lookup_insert_ne);
      step (load_ns_ok _ _ _ Hp1)
  end.
  erewrite bind_store; [|simpl; by rewrite lookup_insert_eq|done].
  match goal with |- context [bind ?m _ ?w1] => set (wa := w1) end.
  assert (Hhwa : heap wa !! hw = Some (BInfo hwi)).
  { subst wa. simpl. by rewrite !lookup_insert_ne. }
  assert (Hopsa : heap wa !! fbops hwi = Some (BOps ops)).
  { subst wa. simpl. by rewrite !lookup_insert_ne. }
  assert (Hva : exists i, heap wa !! v = Some (BInfo i)).
  { subst wa. simpl. rewrite lookup_insert_eq. by eexists. }
  clearbody wa. destruct Hva as [ia Hva].
  assert (Hmem : exists vmem wb,
             (if 0 <? smem_len (fix_ hwi)
              then alloc (BMem (replicate (Z.to_nat (smem_len (fix_ hwi))) 0))
              else ret NULL) wa = Ret vmem wb /\
             (0 <? smem_len (fix_ hwi)) && (vmem =? NULL) = false /\
             heap wb !! hw = Some (BInfo hwi) /\
             heap wb !! fbops hwi = Some (BOps ops) /\
             heap wb !! v = Some (BInfo ia)).
  { destruct (0 <? smem_len (fix_ hwi)).
    - match goal with
      | |- context [alloc ?b] =>
          destruct (alloc_returns b wa (alloc_succeeds _))
            as (vm & Hm & Hvm & Hfm)
      end.
      eexists vm, _. split; [exact Hm|].
      apply Z.eqb_neq in Hvm as ->. split; [done|]. simpl.
      rewrite !lookup_insert_ne by congruence. done.
    - by eexists NULL, wa. }
  destruct Hmem as (vmem & wb & Hm & Hcond & Hhwb & Hopsb & Hvb).
  step Hm. rewrite Hcond.
  erewrite bind_store; [|exact Hvb|done].
  match goal with |- context [bind ?m _ ?w1] => set (wc := w1) end.
  assert (Hhwc : heap wc !! hw = Some (BInfo hwi)).
  { subst wc. simpl. by rewrite lookup_insert_ne. }
  assert (Hopsc : heap wc !! fbops hwi = Some (BOps ops)).
  { subst wc. simpl. by rewrite lookup_insert_ne. }
  assert (Hvc : exists i, heap wc !! v = Some (BInfo i)).
  { subst wc. simpl. rewrite lookup_insert_eq. by eexists. }
  clearbody wc. destruct Hvc as [ic Hvc].
  destruct (fb_ns_make_fb_ops_returns hw hwi ops wc Hhwc Hopsc)
    as (q & wd & Hmk & Hq).
  pose proof Hmk as Hmk'.
  apply fb_ns_make_fb_ops_inv in Hmk' as (Hqf & o & t & Hhd & Hwd); [|done].
  step Hmk. apply Z.eqb_neq in Hq as Hqz. rewrite Hqz.
  erewrite bind_store; [|rewrite Hhd, lookup_insert_ne; [exact Hvc|congruence]
                        |done].
  by eexists v, _.
Qed.

(** The first acquire for a hardware device whose slot is free gives a
    shadow when no allocation fails. *)
Lemma get_fb_info_ns_first_returns w hw hwi ops :
  heap w !! hw = Some (BInfo hwi) ->
  heap w !! fbops hwi = Some (BOps ops) ->
  slot_free w (node hwi) ->
  0 <= node hwi < Z.of_nat FB_MAX ->
  fb_ns_of w !! current_dev_ns w <> Some NULL ->
  exists v w1, get_fb_info_ns hw w = Ret (Ptr v) w1.
Proof.
  intros Hhw Hops Hfree Hidx Hreg0.
  destruct (get_fb_ns_cur_returns w (node hwi)) as (p & wa & ns & Hcur & Hp
                                                    & Hns & Hslot);
    [done | lia | done |].
  destruct (get_fb_ns_cur_inv _ _ _ Hcur Hp) as (ns' & _ & Hns' & Hkept & _).
  assert (Hhwa : heap wa !! hw = Some (BInfo hwi)) by (by apply Hkept).
  assert (Hopsa : heap wa !! fbops hwi = Some (BOps ops)) by (by apply Hkept).
  unfold get_fb_info_ns. step Hcur.
  apply Z.eqb_neq in Hp as Hpz. rewrite Hpz.
  step (load_info_ok _ _ _ Hhwa). step_log.
  set (wb := set_trace _ wa).
  assert (Hs : fb_slot p (node hwi) wb = Ret NULL wb)
    by (eapply fb_slot_ok; [exact Hns | lia | done]).
  step Hs. rewrite Z.eqb_refl.
  destruct (fb_ns_info_alloc_returns p hw hwi ops ns wb Hhwa Hopsa Hns)
    as (v & wc & Halloc & Hv).
  destruct (fb_ns_info_alloc_inv _ _ _ _ _ hwi Halloc Hv Hhwa)
    as (vi & n & Hvf & Hvc & _ & _ & _ & _ & _ & _ & _ & _ & _ & _ & Hold & _).
  assert (Hnsc : heap wc !! p = Some (BNs ns)) by (by apply Hold).
  assert (Hpv : p <> v) by neq_by_kind.
  rewrite !bind_assoc. step Halloc.
  assert (Hlen : (Z.to_nat (node hwi) < length (fb ns))%nat)
    by (by eapply lookup_lt_Some).
  set (wd := set_heap (<[p := BNs (mk_fb_dev_ns
                                     (<[Z.to_nat (node hwi) := v]> (fb ns))
                                     (dev_ns ns) (ns_count ns))]>
                         (heap wc)) wc).
  assert (Hset : set_fb_slot p (node hwi) v wc = Ret tt wd).
  { unfold set_fb_slot. step (load_ns_ok _ _ _ Hnsc).
    destruct (Z.ltb_spec (node hwi) 0); [lia|].
    destruct (Z.leb_spec (Z.of_nat (length (fb ns))) (node hwi)); [lia|].
    simpl. by rewrite (store_ok _ _ _ _ Hnsc) by done. }
  step Hset.
  assert (Hs2 : fb_slot p (node hwi) wd = Ret v wd).
  { eapply fb_slot_ok; [|lia|].
    - simpl. by rewrite lookup_insert_eq.
    - simpl. by apply list_lookup_insert_eq. }
  step Hs2. apply Z.eqb_neq in Hv as Hvz. rewrite Hvz. cbn [negb].
  assert (Hvd : heap wd !! v = Some (BInfo vi))
    by (simpl; by rewrite lookup_insert_ne).
  rewrite bind_assoc. step (atomic_inc_ok wd v vi Hvd).
  step_ret. step_log. step_ret. by eexists v, _.
Qed.

End allocator_succeeds.

(** C2. In a namespace that has no shadow of a hardware device yet, the
    first acquire gives a shadow when no allocation fails.  When it gives
    one, that shadow is counted once and in the table, and the second acquire
    gives the same shadow, counted twice.  From any such state, whatever has
    been staged meanwhile, the first release leaves the shadow in the table
    counted once, and the second clears the slot and frees the shadow, its
    backing buffer and its staged registers. *)
Theorem acquire_twice_release_twice w hw hwi :
  heap w !! hw = Some (BInfo hwi) ->
  slot_free w (node hwi) ->
  ((forall tr, alloc_ok tr = true) ->
   0 <= node hwi < Z.of_nat FB_MAX ->
   fb_ns_of w !! current_dev_ns w <> Some NULL ->
   (exists ops, heap w !! fbops hwi = Some (BOps ops)) ->
   exists v w1, get_fb_info_ns hw w = Ret (Ptr v) w1) /\
  (forall v w1,
     get_fb_info_ns hw w = Ret (Ptr v) w1 ->
     (exists w2 n,
        count_at w1 v = Some 1 /\ slot_at w1 (node hwi) = Some v /\
        get_fb_info_ns hw w1 = Ret (Ptr v) w2 /\
        count_at w2 v = Some 2 /\ slot_at w2 (node hwi) = Some v /\
        shadow_ok w2 hw hwi v 2 n /\
        (0 < smem_len (fix_ hwi) ->
         vmem_buf n <> NULL /\
         exists b, heap w2 !! vmem_buf n = Some (BMem b))) /\
     (forall w2 n,
        shadow_ok w2 hw hwi v 2 n ->
        exists w3 w4,
          put_fb_info_ns v w2 = Ret tt w3 /\
          count_at w3 v = Some 1 /\ slot_at w3 (node hwi) = Some v /\
          put_fb_info_ns v w3 = Ret tt w4 /\
          slot_at w4 (node hwi) = Some NULL /\
          heap w4 !! v = None /\
          (vmem_buf n <> NULL -> heap w4 !! vmem_buf n = None) /\
          (colreg n <> NULL -> heap w4 !! colreg n = None))).
Proof.
  intros Hhw Hfree. split.
  { intros Hall Hidx Hreg [ops Hops].
    by eapply get_fb_info_ns_first_returns. }
  intros v w1 Hget. split.
  - destruct (get_fb_info_ns_first _ _ _ _ _ Hhw Hfree Hget)
      as (n & Hok1 & _ & _ & _ & Hmem).
    destruct (get_fb_info_ns_again _ _ _ _ _ _ Hok1) as (w2 & Hget2 & Hok2).
    destruct (shadow_ok_facts _ _ _ _ _ _ Hok1) as (Hc1 & Hs1 & _).
    destruct (shadow_ok_facts _ _ _ _ _ _ Hok2) as (Hc2 & Hs2 & _).
    exists w2, n. do 5 (split; [done|]). split; [done|].
    intros Hlen. destruct (Hmem Hlen) as [Hnn Hb]. split; [done|].
    destruct Hok2 as (? & ? & _ & _ & _ & _ & _ & _ & _ & _ & _ & _ & _ & _
                      & [|Hm] & _); [done | exact Hm].
  - intros w2 n Hok2.
    destruct (put_fb_info_ns_keeps _ _ _ _ _ _ Hok2) as (w3 & Hput3 & Hok3);
      [done|].
    destruct (shadow_ok_facts _ _ _ _ _ _ Hok3) as (Hc3 & Hs3 & _).
    destruct (put_fb_info_ns_last _ _ _ _ _ _ Hok3)
      as (w4 & vi & Hput4 & _ & Hs4 & Hv4 & Hm4 & Hc4 & _); [done|].
    by exists w3, w4.
Qed.

End first_acquire.

(** ** Staging *)

Section staging.
Context `{K : kernel}.

Lemma steps_eq_Ret {A} (m : M A) w a w' :
  steps eq m -> m w = Ret a w' -> w' = w.
Proof. intros Hm Hr. specialize (Hm w). by rewrite Hr in Hm. Qed.

Lemma load_colreg_inv w p a w' :
  load_colreg p w = Ret a w' -> w' = w /\ heap w !! p = Some (BColreg a).
Proof. unfold load_colreg. destruct (heap w !! p) as [[]|]; naive_solver. Qed.

(** Whenever the staged sequence is full, which it is on a fresh shadow
    ([colreg_pos = colreg_len = 0]), [fb_ns_setcolreg] that returns returns
    -ENOMEM and has recorded nothing. *)
Lemma fb_ns_setcolreg_full regno red green blue transp virt w v n r w' :
  heap w !! virt = Some (BInfo v) ->
  par v = Some n ->
  colreg_pos n = colreg_len n ->
  fb_ns_setcolreg regno red green blue transp virt w = Ret r w' ->
  r = - ENOMEM /\ par_at w' virt = Some n.
Proof.
  intros Hv Hn Hfull. unfold fb_ns_setcolreg.
  intros (v' & w1 & Hl & Hrest)%bind_Ret.
  apply load_info_inv in Hl as [-> Hl].
  apply bind_Ret in Hrest as ([] & w1 & Hb & Hrest).
  apply (steps_eq_Ret _ _ _ _ (steps_BUG_ON eq _)) in Hb as ->.
  apply bind_Ret in Hrest as ([] & w1 & Hd & Hrest).
  apply (steps_eq_Ret _ _ _ _ (steps_fb_debug_diff eq _)) in Hd as ->.
  apply bind_Ret in Hrest as (n' & w1 & Hp & Hrest).
  apply load_par_inv in Hp as (-> & i & Hi & Hpi).
  assert (n' = n) as -> by congruence.
  rewrite Hfull, Z.eqb_refl in Hrest.
  apply bind_Ret in Hrest as (q & w2 & Hk & Hrest).
  apply ret_inv in Hrest as [-> ->]. split; [done|].
  unfold krealloc_colreg in Hk.
  apply bind_Ret in Hk as (old & w3 & Hold & Hk).
  apply bind_Ret in Hk as (q' & w4 & Ha & Hk).
  assert (w3 = w /\ (colreg n = NULL \/ colreg n <> virt)) as [-> Hcol].
  { destruct (Z.eqb_spec (colreg n) NULL) as [Hz|Hz].
    - apply ret_inv in Hold as [_ ->]. auto.
    - apply load_colreg_inv in Hold as [-> Hold]. split; [done|]. right.
      intros Heq. rewrite Heq in Hold. congruence. }
  unfold par_at.
  apply alloc_inv in Ha as [[-> ->]|(Hq & Hfresh & ->)].
  - simpl in Hk. apply ret_inv in Hk as [_ ->]. simpl. by rewrite Hv.
  - apply Z.eqb_neq in Hq as Hqz. rewrite Hqz in Hk.
    apply bind_Ret in Hk as ([] & w5 & Hf & Hk).
    apply ret_inv in Hk as [_ ->]. unfold free in Hf. injection Hf as <-.
    simpl in *.
    rewrite (free_heap_other _ _ virt (BInfo v)); [done| |done].
    rewrite lookup_insert_ne; [done|]. congruence.
Qed.

(** [fb_ns_apply_setpar] changes nothing: no call of the driver, and the
    staged geometry stays. *)
Lemma fb_ns_apply_setpar_inert virt w :
  final (fb_ns_apply_setpar virt w) = w.
Proof. symmetry. apply (steps_fb_ns_apply_setpar eq). Qed.

End staging.

(** C4, at a failing input.  On the fresh shadow 32 the first
    [fb_ns_setcolreg], for register 3, returns -ENOMEM although the
    allocation it made succeeded, and records nothing: the shadow's private
    data is what it was, with [colreg_pos = 0]. *)
Theorem fb_ns_setcolreg_first_update_fails :
  let o := fb_ns_setcolreg (K := Scenario.K0) 3 255 0 0 255 32 Scenario.w1 in
  returned o = Some (- 12) /\
  events_of (fb_ns_setcolreg (K := Scenario.K0) 3 255 0 0 255 32) Scenario.w1
  = [EvAlloc true] /\
  par_at (final o) 32 = Some Scenario.n1 /\
  colreg_pos Scenario.n1 = 0.
Proof. vm_compute. repeat split; reflexivity. Qed.

(** C5, at a failing input.  With 1024x768 and then 800x600 staged on the
    shadow 32, activation returns 0 without any call of the driver's
    fb_set_par: the hardware keeps its 640x480 and the staged 800x600 is
    still pending. *)
Theorem activation_skips_staged_mode :
  let run := (_ <- Scenario.stage_mode 32 Scenario.G1 ;;
              _ <- Scenario.stage_mode 32 Scenario.G2 ;;
              do_fb_activate_ns (K := Scenario.K0) 32 true) in
  returned (run Scenario.w1) = Some 0 /\
  filter is_set_par (trace (final (run Scenario.w1))) = [] /\
  var <$> info_at (final (run Scenario.w1)) 10 = Some (mk_var 640 480) /\
  ns_var <$> par_at (final (run Scenario.w1)) 32 = Some Scenario.G2.
Proof. vm_compute. repeat split; reflexivity. Qed.

(** The acquire that gives the shadow 35. *)
Example wz_reached :
  get_fb_info_ns (K := Scenario.K0) 11
    (mk_world (<[11 := BInfo Scenario.hwz]> (heap Scenario.w1))
              (trace Scenario.w1) 200 ∅ (fb_ns_of Scenario.w1) ∅)
  = Ret (Ptr 35)
        (set_trace (trace Scenario.w1
                    ++ [EvMutexLock; EvAlloc true; EvAlloc true; EvMutexUnlock])
                   Scenario.wz).
Proof. vm_compute. reflexivity. Qed.

(** C1, refuted as stated.  On the shadow 32 of the machine above the
    activation re-points the two consumers, then copies the backing buffer to
    the hardware, then replays the palette: its events are not in the order
    copy, re-point, replay. *)
Lemma activate_copy_first_refuted :
  events_of (do_fb_activate_ns (K := Scenario.K0) 32 true) Scenario.w2
  = [EvIMmapLock 77; EvAlloc true; EvMmGrab 900; EvIMmapUnlock 77;
     EvDownWrite 900; EvZapPageRange 50 4096 4096; EvVmaAdjust 50;
     EvMmap 50 0; EvUpWrite 900; EvMmDrop 900;
     EvIMmapLock 78; EvAlloc true; EvMmGrab 901; EvIMmapUnlock 78;
     EvDownWrite 901; EvZapPageRange 51 4096 4096; EvVmaAdjust 51;
     EvMmap 51 0; EvUpWrite 901; EvMmDrop 901;
     EvSync 10; EvMemcpyToFb 20 33 8;
     EvSetColreg 10 (mk_fb_colreg 1 10 10 10 0) 0;
     EvSetColreg 10 (mk_fb_colreg 2 20 20 20 0) 0;
     EvSetColreg 10 (mk_fb_colreg 3 255 0 0 255) 0] /\
  in_order copy_first
    (events_of (do_fb_activate_ns (K := Scenario.K0) 32 true) Scenario.w2)
  = false.
Proof. vm_compute. split; reflexivity. Qed.

(** C6, refuted as stated.  With the mmap of both consumers failing, the
    second consumer is still visited, but the switch returns right after the
    re-point pass: nothing is copied, none of the three staged registers is
    replayed, and the code returned is not that of the first failure. *)
Lemma repoint_failure_stops_the_switch :
  let run := do_fb_activate_ns (K := Scenario.K_mmap) 32 true in
  omap locked_mapping (events_of run Scenario.w2) = [77; 78] /\
  omap mmap_of (events_of run Scenario.w2) = [(50, -11); (51, -22)] /\
  existsb is_copy (events_of run Scenario.w2) = false /\
  omap colreg_of (events_of run Scenario.w2) = [] /\
  staged Scenario.w2 Scenario.n2 = Some Scenario.staged3 /\
  heap (final (run Scenario.w2)) !! 20
  = Some (BMem [1; 2; 3; 4; 5; 6; 7; 8]) /\
  returned (run Scenario.w2) = Some (-22).
Proof. vm_compute. repeat split; reflexivity. Qed.

(** C8, refuted as stated.  The shadow 35 has length zero and no buffer on
    either side, but the screen size it recorded is no longer the
    hardware's: both transitions stop in the BUG_ON() of [_fb_debug_diff],
    which the copy step runs before it looks at the length. *)
Lemma zero_length_diverged_transition_is_fatal :
  smem_len (fix_ Scenario.vz) = 0 /\
  screen_base Scenario.hwz_grown = NULL /\
  screen_base Scenario.vz = NULL /\
  info_at Scenario.wz_grown 35 = Some Scenario.vz /\
  info_at Scenario.wz_grown 11 = Some Scenario.hwz_grown /\
  fb_ns_swap_vmem (K := Scenario.K0) 35 true Scenario.wz_grown
  = Bug Scenario.wz_grown /\
  fb_ns_swap_vmem (K := Scenario.K0) 35 false Scenario.wz_grown
  = Bug Scenario.wz_grown /\
  do_fb_activate_ns (K := Scenario.K0) 35 true Scenario.wz_grown
  = Bug Scenario.wz_grown /\
  do_fb_activate_ns (K := Scenario.K0) 35 false Scenario.wz_grown
  = Bug Scenario.wz_grown.
Proof. vm_compute. repeat split; reflexivity. Qed.

(** The machine of [Scenario] before any access, and the acquire that led
    to [w1]. *)
Lemma acquire_twice_release_twice_witness :
  (exists v w1, get_fb_info_ns (K := Scenario.K0) 10 Scenario.w0
                = Ret (Ptr v) w1) /\
  get_fb_info_ns (K := Scenario.K0) 10 Scenario.w0
  = Ret (Ptr 32) Scenario.w1 /\
  (exists w2 n,
     count_at Scenario.w1 32 = Some 1 /\
     slot_at Scenario.w1 (node Scenario.hw0) = Some 32 /\
     get_fb_info_ns (K := Scenario.K0) 10 Scenario.w1 = Ret (Ptr 32) w2 /\
     count_at w2 32 = Some 2 /\
     slot_at w2 (node Scenario.hw0) = Some 32 /\
     shadow_ok w2 10 Scenario.hw0 32 2 n /\
     (0 < smem_len (fix_ Scenario.hw0) ->
      vmem_buf n <> NULL /\
      exists b, heap w2 !! vmem_buf n = Some (BMem b))) /\
  (forall w2 n,
     shadow_ok w2 10 Scenario.hw0 32 2 n ->
     exists w3 w4,
       put_fb_info_ns 32 w2 = Ret tt w3 /\
       count_at w3 32 = Some 1 /\
       slot_at w3 (node Scenario.hw0) = Some 32 /\
       put_fb_info_ns 32 w3 = Ret tt w4 /\
       slot_at w4 (node Scenario.hw0) = Some NULL /\
       heap w4 !! 32 = None /\
       (vmem_buf n <> NULL -> heap w4 !! vmem_buf n = None) /\
       (colreg n <> NULL -> heap w4 !! colreg n = None)).
Proof.
  assert (Hget : get_fb_info_ns (K := Scenario.K0) 10 Scenario.w0
                 = Ret (Ptr 32) Scenario.w1)
    by (vm_compute; reflexivity).
  destruct (acquire_twice_release_twice (K := Scenario.K0) Scenario.w0 10
              Scenario.hw0 eq_refl (or_introl eq_refl)) as [Hfirst Hrest].
  split; [|split; [exact Hget | exact (Hrest 32 Scenario.w1 Hget)]].
  apply Hfirst.
  - reflexivity.
  - simpl. lia.
  - discriminate.
  - exists Scenario.hw_ops. reflexivity.
Defined.

(** The three staged registers of [w2], with a driver that refuses two of
    them. *)
Lemma staged_palette_replayed_in_order_witness :
  exists w',
    fb_ns_apply_colreg (K := Scenario.K_palette) 32 Scenario.w2
    = Ret (first_error
             (omap result_of
                (events_of (fb_ns_apply_colreg (K := Scenario.K_palette) 32)
                           Scenario.w2))) w' /\
    events_of (fb_ns_apply_colreg (K := Scenario.K_palette) 32) Scenario.w2
    = [EvSetColreg 10 (mk_fb_colreg 1 10 10 10 0) 0;
       EvSetColreg 10 (mk_fb_colreg 2 20 20 20 0) (-22);
       EvSetColreg 10 (mk_fb_colreg 3 255 0 0 255) (-5)] /\
    Forall2 (fun e c => exists r, e = EvSetColreg (info Scenario.n2) c r)
            (events_of (fb_ns_apply_colreg (K := Scenario.K_palette) 32)
                       Scenario.w2)
            Scenario.staged3 /\
    par_at w' 32 = Some (set_colreg_pos Scenario.n2 0) /\
    staged w' (set_colreg_pos Scenario.n2 0) = Some [].
Proof.
  apply (staged_palette_replayed_in_order (K := Scenario.K_palette)
           Scenario.w2 32 Scenario.v2 Scenario.n2 Scenario.hw0
           Scenario.hw_ops Scenario.staged3).
  - reflexivity.
  - reflexivity.
  - reflexivity.
  - reflexivity.
  - reflexivity.
  - exists h_driver. reflexivity.
  - reflexivity.
Defined.

(** The replay above calls the driver for registers 1, 2 and 3 in that
    order and returns the error of register 2, the first to fail. *)
Example staged_palette_replay_run :
  returned (fb_ns_apply_colreg (K := Scenario.K_palette) 32 Scenario.w2)
  = Some (-22) /\
  events_of (fb_ns_apply_colreg (K := Scenario.K_palette) 32) Scenario.w2
  = [EvSetColreg 10 (mk_fb_colreg 1 10 10 10 0) 0;
     EvSetColreg 10 (mk_fb_colreg 2 20 20 20 0) (-22);
     EvSetColreg 10 (mk_fb_colreg 3 255 0 0 255) (-5)].
Proof. vm_compute. split; reflexivity. Qed.

(** The two consumers of [w2], with a file whose mmap fails. *)
Lemma repoint_pass_visits_all_then_gates_witness :
  exists err w1,
    fb_ns_swap_mmap (K := Scenario.K_mmap) 32 true Scenario.w2
    = Ret err w1 /\
    omap locked_mapping
         (events_of (fb_ns_swap_mmap (K := Scenario.K_mmap) 32 true)
                    Scenario.w2)
    = tracked Scenario.n2 /\
    (err < 0 ->
     do_fb_activate_ns (K := Scenario.K_mmap) 32 true Scenario.w2
     = Ret err w1).
Proof.
  apply (repoint_pass_visits_all_then_gates (K := Scenario.K_mmap)
           Scenario.w2 32 true Scenario.v2 Scenario.n2).
  - reflexivity.
  - reflexivity.
  - vm_compute. reflexivity.
Defined.

(** The shadow 35 of the hardware without video memory. *)
Lemma zero_length_or_unmapped_copies_nothing_witness :
  fb_ns_swap_vmem (K := Scenario.K0) 35 true Scenario.wz
  = Ret tt Scenario.wz /\
  forallb (fun e => negb (is_copy e))
          (events_of (do_fb_activate_ns (K := Scenario.K0) 35 true)
                     Scenario.wz) = true /\
  (forall p bytes,
     heap Scenario.wz !! p = Some (BMem bytes) ->
     heap (final (do_fb_activate_ns (K := Scenario.K0) 35 true Scenario.wz))
       !! p = Some (BMem bytes)) /\
  (forallb (mapping_ok Scenario.wz) (tracked Scenario.nz) = true ->
   (true = true ->
    exists l ops, staged Scenario.wz Scenario.nz = Some l /\
                  heap Scenario.wz !! fbops Scenario.hwz = Some (BOps ops) /\
                  is_Some (slot ops op_fb_setcolreg)) ->
   exists r w',
     do_fb_activate_ns (K := Scenario.K0) 35 true Scenario.wz = Ret r w').
Proof.
  apply (zero_length_or_unmapped_copies_nothing (K := Scenario.K0)
           Scenario.wz 35 true Scenario.vz Scenario.nz Scenario.hwz).
  - reflexivity.
  - reflexivity.
  - reflexivity.
  - reflexivity.
  - reflexivity.
  - reflexivity.
  - left. reflexivity.
Defined.

(** ** Lists of tracked inodes *)

Section inode_lists.
Implicit Types l : list fb_inode.

Lemma alter_middle {A} (f : A -> A) (l : list A) i e :
  l !! i = Some e -> alter f i l = take i l ++ f e :: drop (S i) l.
Proof.
  revert i. induction l as [|x l IH]; intros [|i] Hi; simplify_eq/=; [done|].
  f_equal. by apply IH.
Qed.

Lemma alter_Permutation {A} (f : A -> A) (l : list A) i e :
  l !! i = Some e -> alter f i l ≡ₚ f e :: delete i l.
Proof.
  intros Hi. rewrite (alter_middle _ _ _ _ Hi), delete_take_drop.
  by rewrite <- Permutation_middle.
Qed.

Lemma insert_Permutation {A} (l : list A) i e x :
  l !! i = Some e -> <[i := x]> l ≡ₚ x :: delete i l.
Proof.
  intros Hi. rewrite list_insert_alter. by apply (alter_Permutation _ _ _ e).
Qed.

Lemma insert_alter_same {A} (f : A -> A) (l : list A) i x :
  <[i := x]> (alter f i l) = <[i := x]> l.
Proof.
  revert i. induction l as [|y l IH]; intros [|i]; simpl; f_equal; auto.
Qed.

Lemma delete_last {A} (l : list A) :
  delete (length l - 1)%nat l = take (length l - 1) l.
Proof.
  rewrite delete_take_drop, drop_ge by lia. by rewrite app_nil_r.
Qed.

(** Removing entry [i] by moving the last entry into its place. *)
Lemma move_last_Permutation {A} (l : list A) i e x last :
  l !! i = Some e ->
  <[i := x]> l !! (length l - 1)%nat = Some last ->
  take (length l - 1) (<[i := last]> (<[i := x]> l)) ≡ₚ delete i l.
Proof.
  intros Hi Hlast.
  assert (Hil : (i < length l)%nat) by (by eapply lookup_lt_Some).
  destruct (lookup_lt_is_Some_2 l (length l - 1)) as [z Hz]; [lia|].
  assert (Hl : l = take (length l - 1) l ++ [z]).
  { rewrite <- (take_drop_middle _ _ _ Hz) at 1.
    by rewrite drop_ge by lia. }
  assert (Hm : (length l - 1 = length (take (length l - 1) l))%nat)
    by (rewrite length_take; lia).
  revert Hm Hl. generalize (take (length l - 1) l). intros l0 Hm ->.
  rewrite Hm in *. clear Hm Hz. rewrite list_insert_insert_eq.
  destruct (decide (i = length l0)) as [->|Hne].
  - rewrite take_insert_ge, take_app_length by lia.
    by rewrite (delete_middle l0 []), app_nil_r.
  - rewrite length_app in Hil. simpl in Hil.
    rewrite list_lookup_insert_ne, list_lookup_middle in Hlast by done.
    simplify_eq. rewrite lookup_app_l in Hi by lia.
    rewrite insert_app_l by lia.
    rewrite take_app_length' by (by rewrite length_insert).
    rewrite (insert_Permutation _ _ _ _ Hi), !delete_take_drop.
    rewrite take_app_le, drop_app_le by lia.
    rewrite app_assoc, Permutation_app_comm.
    by rewrite (Permutation_app_comm _ [last]).
Qed.

(** With distinct inodes, the use count found for an inode is that of the
    one entry that has it. *)
Lemma use_in l j c :
  NoDup (inode <$> l) ->
  (fun p => use_count p.2) <$> list_find (fun e => inode e = j) l = Some c
  <-> mk_fb_inode j c ∈ l.
Proof.
  intros Hnd. split.
  - intros ([k x] & Hf & ->)%fmap_Some.
    apply list_find_Some in Hf as (Hk & <- & _).
    destruct x. by eapply list_elem_of_lookup_2.
  - intros Hin.
    destruct (list_find_elem_of (fun e => inode e = j) l _ Hin eq_refl)
      as [[k y] Hy].
    rewrite Hy. simpl. f_equal.
    apply list_find_Some in Hy as (Hk & Hj & _).
    apply list_elem_of_lookup in Hin as [k' Hk'].
    assert (k = k') as <-.
    { eapply (NoDup_lookup _ _ _ j Hnd); rewrite list_lookup_fmap.
      - by rewrite Hk; simpl; rewrite Hj.
      - by rewrite Hk'. }
    rewrite Hk in Hk'. by injection Hk' as ->.
Qed.

Lemma use_in_Permutation l l' j :
  NoDup (inode <$> l) -> l ≡ₚ l' ->
  (fun p => use_count p.2) <$> list_find (fun e => inode e = j) l
  = (fun p => use_count p.2) <$> list_find (fun e => inode e = j) l'.
Proof.
  intros Hnd Hp. apply option_eq. intros c.
  rewrite !use_in; [by rewrite Hp | by rewrite <- Hp | done].
Qed.

Lemma use_cons e l j :
  NoDup (inode <$> e :: l) ->
  (fun p => use_count p.2) <$> list_find (fun x => inode x = j) (e :: l)
  = if decide (j = inode e) then Some (use_count e)
    else (fun p => use_count p.2) <$> list_find (fun x => inode x = j) l.
Proof.
  intros Hnd. cbn [list_find].
  destruct (decide (inode e = j)) as [<-|Hne].
  - by rewrite decide_True.
  - rewrite decide_False by done. rewrite <- option_fmap_compose.
    apply option_fmap_ext. by intros [k x].
Qed.

End inode_lists.

(** ** Tracking the inodes that map a shadow *)

(** Run the first action of a sequence with a lemma about it, its premises
    read off the state the sequence starts in. *)
Ltac premise :=
  simpl;
  first [ eassumption
        | reflexivity
        | rewrite lookup_insert_eq; reflexivity
        | rewrite lookup_insert_ne by (first [assumption | congruence]);
          premise ].

Ltac step_at lem :=
  lazymatch goal with
  | |- context [bind ?m _ ?w1] =>
      let H := fresh in
      eassert (H : m w1 = Ret _ _); [eapply lem; premise|];
      rewrite (bind_step _ _ _ _ _ H); clear H; cbv beta iota
  end.

Section tracking.
Context `{K : kernel}.

Lemma find_from_list_find l i ino :
  find_from l i ino
  = (fun p => (i + p.1)%nat) <$> list_find (fun e => inode e = ino) l.
Proof.
  revert i. induction l as [|e l IH]; intros i; [done|].
  cbn [find_from list_find]. destruct (Z.eqb_spec (inode e) ino) as [He|He].
  - rewrite decide_True by done. simpl. f_equal. lia.
  - rewrite decide_False by done. rewrite IH, <- option_fmap_compose.
    apply option_fmap_ext. intros [k x]. simpl. lia.
Qed.

Lemma inodes_sized_take n :
  inodes_sized n -> take (Z.to_nat (inodes_len n)) (inodes n) = inodes n.
Proof. intros [_ Hl]. apply take_ge. lia. Qed.

Lemma find_fb_inode_ok w virt v n ino :
  heap w !! virt = Some (BInfo v) -> par v = Some n ->
  find_fb_inode virt ino w
  = Ret (fst <$> list_find (fun e => inode e = ino)
                   (take (Z.to_nat (inodes_len n)) (inodes n))) w.
Proof.
  intros Hv Hn. unfold find_fb_inode. step (load_par_ok _ _ _ _ Hv Hn).
  unfold ret. rewrite find_from_list_find. reflexivity.
Qed.

Lemma tracked_list_find n ino :
  ino ∉ tracked n <->
  list_find (fun e => inode e = ino)
            (take (Z.to_nat (inodes_len n)) (inodes n)) = None.
Proof.
  unfold tracked. rewrite list_find_None, Forall_forall, list_elem_of_fmap.
  split.
  - intros Hn e He Hi. apply Hn. by exists e.
  - intros Hn (e & -> & He). by apply (Hn e).
Qed.

Lemma store_par_ok w virt v n' :
  heap w !! virt = Some (BInfo v) ->
  store_par virt n' w
  = Ret tt (set_heap (<[virt := BInfo (set_par_of v n')]> (heap w)) w).
Proof.
  intros Hv. unfold store_par. step (load_info_ok _ _ _ Hv).
  unfold store_info. by rewrite (store_ok _ _ _ _ Hv).
Qed.

Lemma try_alloc_ok w :
  try_alloc w
  = Ret (alloc_ok (trace w))
        (set_trace (trace w ++ [EvAlloc (alloc_ok (trace w))]) w).
Proof. reflexivity. Qed.

(** The run of [track_fb_inode] for an inode that is in the table. *)
Lemma track_fb_inode_run_old w virt v n ino i e :
  heap w !! virt = Some (BInfo v) -> par v = Some n ->
  list_find (fun e => inode e = ino)
            (take (Z.to_nat (inodes_len n)) (inodes n)) = Some (i, e) ->
  track_fb_inode virt ino w
  = Ret 0 (mk_world
             (<[virt := BInfo (set_par_of v
                  (set_inodes n (alter inc_count i (inodes n))
                              (inodes_len n)))]> (heap w))
             (trace w ++ [EvMutexLock; EvMutexUnlock])
             (current_dev_ns w) (active_dev_ns w) (fb_ns_of w) (i_mmap w)).
Proof.
  intros Hv Hn Hf. unfold track_fb_inode.
  step (load_info_ok _ _ _ Hv). step_log.
  step_at find_fb_inode_ok.
  rewrite Hf. cbn [fmap option_fmap option_map fst]. step_ret.
  step_at load_par_ok.
  step_at store_par_ok. step_log. unfold ret, set_heap, set_trace. simpl.
  by rewrite <- app_assoc.
Qed.

(** The run of [track_fb_inode] for an inode that is not in the table. *)
Lemma track_fb_inode_run_new w virt v n ino :
  heap w !! virt = Some (BInfo v) -> par v = Some n ->
  inodes_sized n ->
  ino ∉ tracked n ->
  alloc_ok (trace w ++ [EvMutexLock]) = true ->
  track_fb_inode virt ino w
  = Ret 0 (mk_world
             (<[virt := BInfo (set_par_of v
                  (set_inodes n (inodes n ++ [mk_fb_inode ino 1])
                              (wrap_int (inodes_len n + 1))))]> (heap w))
             (trace w ++ [EvMutexLock; EvAlloc true; EvMutexUnlock])
             (current_dev_ns w) (active_dev_ns w) (fb_ns_of w) (i_mmap w)).
Proof.
  intros Hv Hn Hsz Hnot Hok. unfold track_fb_inode.
  step (load_info_ok _ _ _ Hv). step_log.
  step_at find_fb_inode_ok.
  apply tracked_list_find in Hnot. rewrite Hnot.
  cbn [fmap option_fmap option_map]. rewrite !bind_assoc.
  step_at load_par_ok.
  cbv zeta. rewrite bind_assoc.
  step (try_alloc_ok (set_trace (trace w ++ [EvMutexLock]) w)).
  simpl trace. rewrite Hok. cbn [negb]. rewrite bind_assoc.
  step_at store_par_ok. step_ret.
  step_at load_par_ok.
  step_at store_par_ok.
  step_log. unfold ret, set_heap, set_trace. simpl.
  rewrite insert_insert_eq, <- !app_assoc. simpl.
  rewrite (inodes_sized_take _ Hsz).
  destruct Hsz as [_ Hlen]. rewrite <- Hlen.
  rewrite alter_app_r_alt by done. rewrite Nat.sub_diag. simpl.
  unfold inc_count. simpl. reflexivity.
Qed.

(** The run of [untrack_fb_inode] for an inode that is in the table: the
    count goes down, and at zero the last entry takes the place of the
    entry. *)
Lemma untrack_fb_inode_run w virt v n ino i e :
  heap w !! virt = Some (BInfo v) -> par v = Some n ->
  inodes_sized n -> inodes_len n < 2 ^ 31 ->
  ino <> NULL ->
  list_find (fun e => inode e = ino)
            (take (Z.to_nat (inodes_len n)) (inodes n)) = Some (i, e) ->
  let c := wrap_int (use_count e - 1) in
  let l := <[i := mk_fb_inode (inode e) c]> (inodes n) in
  exists last,
    l !! (length l - 1)%nat = Some last /\
    untrack_fb_inode virt ino w
    = Ret tt (mk_world
                (<[virt := BInfo (set_par_of v
                     (if c =? 0
                      then set_inodes n (take (length l - 1) (<[i := last]> l))
                                      (inodes_len n - 1)
                      else set_inodes n l (inodes_len n)))]> (heap w))
                (trace w ++ [EvMutexLock; EvMutexUnlock])
                (current_dev_ns w) (active_dev_ns w) (fb_ns_of w)
                (i_mmap w)).
Proof.
  intros Hv Hn Hsz Hmax Hino Hf c l.
  rewrite (inodes_sized_take _ Hsz) in Hf.
  pose proof Hf as Hf'. apply list_find_Some in Hf' as (Hi & _ & _).
  destruct Hsz as [Hlen0 Hlen].
  assert (Hil : (i < length (inodes n))%nat) by (by eapply lookup_lt_Some).
  assert (Hll : length l = length (inodes n))
    by (unfold l; by rewrite length_insert).
  destruct (lookup_lt_is_Some_2 l (length l - 1)) as [last Hlast]; [lia|].
  exists last. split; [done|].
  unfold untrack_fb_inode.
  step (load_info_ok _ _ _ Hv).
  apply Z.eqb_neq in Hino as ->. step_log.
  step_at find_fb_inode_ok.
  rewrite (take_ge (inodes n)) by lia. rewrite Hf.
  cbn [fmap option_fmap option_map fst]. unfold BUG_ON.
  rewrite bool_decide_true by (by eexists). cbn [negb]. step_ret.
  rewrite bind_assoc. step_at load_par_ok. rewrite Hi. cbv zeta.
  fold c. fold l.
  assert (Hw : wrap_int (inodes_len n - 1) = inodes_len n - 1).
  { unfold wrap_int. rewrite Z.mod_small; lia. }
  rewrite Hw.
  replace (Z.to_nat (inodes_len n - 1)) with (length l - 1)%nat by lia.
  destruct (c =? 0).
  - rewrite Hlast. step_at store_par_ok.
    unfold log, set_trace, set_heap. simpl. by rewrite <- app_assoc.
  - step_at store_par_ok.
    unfold log, set_trace, set_heap. simpl. by rewrite <- app_assoc.
Qed.

End tracking.

Section tracking_properties.
Context `{K : kernel}.

Lemma tracked_sized n : inodes_sized n -> tracked n = inode <$> inodes n.
Proof. intros Hsz. unfold tracked. by rewrite inodes_sized_take. Qed.

Lemma use_of_sized n j :
  inodes_sized n ->
  use_of n j
  = (fun p => use_count p.2) <$> list_find (fun e => inode e = j) (inodes n).
Proof. intros Hsz. unfold use_of. by rewrite inodes_sized_take. Qed.

Lemma wrap_int_small z : - 2 ^ 31 <= z < 2 ^ 31 -> wrap_int z = z.
Proof. intros Hz. unfold wrap_int. rewrite Z.mod_small; lia. Qed.

(** X1. [track_fb_inode] on a table of distinct inodes that has room to
    grow returns 0 and adds one use of the inode: an inode that was not
    tracked is appended with use count 1, one that was keeps its place and
    has its count incremented; the counts of all other inodes stay, and the
    table stays well formed. *)
Theorem tracking_adds_one_use w virt v n ino :
  heap w !! virt = Some (BInfo v) -> par v = Some n ->
  inodes_sized n -> NoDup (tracked n) -> inodes_len n < 2 ^ 31 - 1 ->
  (ino ∉ tracked n -> alloc_ok (trace w ++ [EvMutexLock]) = true) ->
  exists n' w',
    track_fb_inode virt ino w = Ret 0 w' /\
    par_at w' virt = Some n' /\
    inodes_sized n' /\ NoDup (tracked n') /\
    tracked n' = (if decide (ino ∈ tracked n) then tracked n
                  else tracked n ++ [ino]) /\
    forall j, use_of n' j
              = if decide (j = ino)
                then Some (wrap_int (default 0 (use_of n ino) + 1))
                else use_of n j.
Proof.
  intros Hv Hn Hsz Hnd Hmax Hok.
  pose proof Hsz as [Hlen0 Hlen].
  rewrite (tracked_sized _ Hsz) in Hnd.
  destruct (list_find (fun e => inode e = ino)
              (take (Z.to_nat (inodes_len n)) (inodes n)))
    as [[i e]|] eqn:Hf.
  - (* tracked already *)
    rewrite (track_fb_inode_run_old _ _ _ _ _ _ _ Hv Hn Hf).
    rewrite (inodes_sized_take _ Hsz) in Hf.
    pose proof Hf as (Hi & He & _)%list_find_Some.
    set (n' := set_inodes n (alter inc_count i (inodes n)) (inodes_len n)).
    assert (Hsz' : inodes_sized n')
      by (split; [done | simpl; by rewrite length_alter]).
    assert (Hkeys : inode <$> inodes n' = inode <$> inodes n).
    { simpl. rewrite (list_fmap_alter _ _ id)
        by (apply Forall_forall; by intros []).
      by rewrite list_alter_id. }
    eexists n', _. split; [reflexivity|].
    split; [unfold par_at; simpl; by rewrite lookup_insert_eq|].
    split; [done|]. rewrite !(tracked_sized _ Hsz'), !(tracked_sized _ Hsz).
    rewrite Hkeys. split; [done|]. split.
    { rewrite decide_True; [done|].
      apply list_elem_of_fmap. exists e. split; [done|].
      by eapply list_elem_of_lookup_2. }
    intros j. rewrite !use_of_sized by done.
    rewrite (use_in_Permutation (inodes n')
               (inc_count e :: delete i (inodes n)));
      [|by rewrite Hkeys | by apply alter_Permutation].
    rewrite (use_in_Permutation (inodes n) (e :: delete i (inodes n)) ino);
      [|done | by apply delete_Permutation].
    rewrite (use_in_Permutation (inodes n) (e :: delete i (inodes n)) j);
      [|done | by apply delete_Permutation].
    assert (Hnd' : NoDup (inode <$> e :: delete i (inodes n)))
      by (by rewrite <- (delete_Permutation _ _ _ Hi)).
    rewrite !use_cons; [|done|done|by destruct e].
    rewrite (decide_True (P := ino = inode e)) by done. simpl.
    subst ino. by destruct (decide (j = inode e)).
  - (* not tracked yet *)
    apply tracked_list_find in Hf.
    rewrite (track_fb_inode_run_new _ _ _ _ _ Hv Hn Hsz Hf (Hok Hf)).
    rewrite (tracked_sized _ Hsz) in Hf.
    rewrite wrap_int_small by lia.
    set (n' := set_inodes n (inodes n ++ [mk_fb_inode ino 1])
                            (inodes_len n + 1)).
    assert (Hsz' : inodes_sized n').
    { split; simpl; [lia|]. rewrite length_app. simpl. lia. }
    assert (Hnd' : NoDup (inode <$> mk_fb_inode ino 1 :: inodes n))
      by (simpl; by constructor).
    eexists n', _. split; [reflexivity|].
    split; [unfold par_at; simpl; by rewrite lookup_insert_eq|].
    split; [done|]. rewrite !(tracked_sized _ Hsz'), !(tracked_sized _ Hsz).
    simpl. rewrite fmap_app. simpl. split.
    { apply NoDup_app. split; [done|]. split; [|apply NoDup_singleton].
      intros x Hx ->%list_elem_of_singleton. done. }
    split; [by rewrite decide_False|].
    intros j. rewrite !use_of_sized by done. simpl.
    rewrite (use_in_Permutation (inodes n ++ [mk_fb_inode ino 1])
               (mk_fb_inode ino 1 :: inodes n));
      [|rewrite fmap_app; simpl; by rewrite <- Permutation_cons_append
       |by rewrite <- Permutation_cons_append].
    rewrite use_cons by done. simpl.
    destruct (decide (j = ino)) as [->|]; [|done].
    assert (list_find (fun e => inode e = ino) (inodes n) = None) as ->.
    { apply list_find_None, Forall_forall. intros x Hx Hi. apply Hf.
      apply list_elem_of_fmap. by exists x. }
    reflexivity.
Qed.

(** X2. When the table cannot grow, [track_fb_inode] for an inode that is
    not tracked returns -ENOMEM with the mutex released and nothing but the
    history changed. *)
Theorem tracking_without_memory_fails_clean w virt v n ino :
  heap w !! virt = Some (BInfo v) -> par v = Some n ->
  ino ∉ tracked n ->
  alloc_ok (trace w ++ [EvMutexLock]) = false ->
  track_fb_inode virt ino w
  = Ret (- ENOMEM)
        (set_trace (trace w ++ [EvMutexLock; EvAlloc false; EvMutexUnlock])
                   w).
Proof.
  intros Hv Hn Hnot Hok. unfold track_fb_inode.
  step (load_info_ok _ _ _ Hv). step_log.
  step_at find_fb_inode_ok.
  apply tracked_list_find in Hnot. rewrite Hnot.
  cbn [fmap option_fmap option_map]. rewrite !bind_assoc.
  step_at load_par_ok.
  cbv zeta. rewrite bind_assoc.
  step (try_alloc_ok (set_trace (trace w ++ [EvMutexLock]) w)).
  simpl trace. rewrite Hok. cbn [negb]. step_ret. step_log.
  unfold ret, set_trace. simpl. by rewrite <- !app_assoc.
Qed.

(** X3. [untrack_fb_inode] of a tracked inode, on a table of distinct
    inodes, takes the mutex, drops one use of the inode and releases the
    mutex: the inode leaves the table when that was its last use and keeps a
    count one lower otherwise; the counts of all other inodes stay, and the
    table stays well formed. *)
Theorem untracking_drops_one_use w virt v n ino c :
  heap w !! virt = Some (BInfo v) -> par v = Some n ->
  inodes_sized n -> NoDup (tracked n) -> inodes_len n < 2 ^ 31 ->
  ino <> NULL -> use_of n ino = Some c ->
  exists n' w',
    untrack_fb_inode virt ino w = Ret tt w' /\
    trace w' = trace w ++ [EvMutexLock; EvMutexUnlock] /\
    par_at w' virt = Some n' /\
    inodes_sized n' /\ NoDup (tracked n') /\
    forall j, use_of n' j
              = if decide (j = ino)
                then (if wrap_int (c - 1) =? 0 then None
                      else Some (wrap_int (c - 1)))
                else use_of n j.
Proof.
  intros Hv Hn Hsz Hnd Hmax Hino Huse.
  pose proof Hsz as [Hlen0 Hlen].
  rewrite (tracked_sized _ Hsz) in Hnd.
  pose proof Huse as ([i e] & Hf & ->)%fmap_Some. simpl.
  destruct (untrack_fb_inode_run _ _ _ _ _ _ _ Hv Hn Hsz Hmax Hino Hf)
    as (last & Hlast & ->).
  rewrite (inodes_sized_take _ Hsz) in Hf.
  pose proof Hf as (Hi & He & _)%list_find_Some.
  assert (Hil : (i < length (inodes n))%nat) by (by eapply lookup_lt_Some).
  assert (Hnd' : NoDup (inode <$> e :: delete i (inodes n)))
    by (by rewrite <- (delete_Permutation _ _ _ Hi)).
  assert (Huse_n : forall j,
             use_of n j
             = if decide (j = ino) then Some (use_count e)
               else (fun p => use_count p.2)
                      <$> list_find (fun x => inode x = j)
                                    (delete i (inodes n))).
  { intros j. rewrite use_of_sized by done.
    rewrite (use_in_Permutation (inodes n) (e :: delete i (inodes n)) j);
      [|done | by apply delete_Permutation].
    rewrite use_cons by done. by rewrite He. }
  set (c := wrap_int (use_count e - 1)) in *.
  rewrite length_insert in *.
  destruct (c =? 0) eqn:Hc.
  - (* the last use *)
    set (l' := take (length (inodes n) - 1)
                 (<[i := last]> (<[i := mk_fb_inode (inode e) c]>
                                   (inodes n)))).
    assert (Hp : l' ≡ₚ delete i (inodes n))
      by (by eapply move_last_Permutation).
    assert (Hndl : NoDup (inode <$> l')).
    { rewrite Hp. simpl in Hnd'. by apply NoDup_cons_1_2 in Hnd'. }
    set (n' := set_inodes n l' (inodes_len n - 1)).
    assert (Hsz' : inodes_sized n').
    { split; simpl; [lia|]. unfold l'.
      rewrite length_take, !length_insert. lia. }
    eexists n', _. split; [reflexivity|]. split; [done|].
    split; [unfold par_at; simpl; by rewrite lookup_insert_eq|].
    split; [done|]. rewrite (tracked_sized _ Hsz'). split; [done|].
    intros j. rewrite Huse_n, use_of_sized by done. simpl.
    rewrite (use_in_Permutation l' (delete i (inodes n))) by done.
    destruct (decide (j = ino)) as [->|]; [|done].
    rewrite (proj2 (list_find_None _ _)); [done|].
    apply Forall_forall. intros x Hx Hxi.
    simpl in Hnd'. apply NoDup_cons_1_1 in Hnd'. apply Hnd'.
    apply list_elem_of_fmap. exists x. split; [congruence | done].
  - (* other uses remain *)
    set (l' := <[i := mk_fb_inode (inode e) c]> (inodes n)).
    assert (Hp : l' ≡ₚ mk_fb_inode (inode e) c :: delete i (inodes n))
      by (by eapply insert_Permutation).
    assert (Hndl : NoDup (inode <$> l')) by (by rewrite Hp).
    set (n' := set_inodes n l' (inodes_len n)).
    assert (Hsz' : inodes_sized n').
    { split; simpl; [lia|]. unfold l'. by rewrite length_insert. }
    eexists n', _. split; [reflexivity|]. split; [done|].
    split; [unfold par_at; simpl; by rewrite lookup_insert_eq|].
    split; [done|]. rewrite (tracked_sized _ Hsz'). split; [done|].
    intros j. rewrite Huse_n, use_of_sized by done. simpl.
    rewrite (use_in_Permutation l' _ j Hndl Hp).
    rewrite use_cons by done. simpl. rewrite He.
    by destruct (decide (j = ino)).
Qed.

Lemma list_find_alter_same {A} (P : A -> Prop) `{!forall x, Decision (P x)}
    (f : A -> A) (l : list A) i e :
  list_find P l = Some (i, e) -> (forall x, P (f x) <-> P x) ->
  list_find P (alter f i l) = Some (i, f e).
Proof.
  intros (Hi & He & Hlt)%list_find_Some Hf. apply list_find_Some.
  split; [by rewrite list_lookup_alter_eq, Hi|]. split; [by apply Hf|].
  intros j y Hj Hji. rewrite list_lookup_alter_ne in Hj by lia. eauto.
Qed.

(** X4. Tracking an inode and then untracking it leaves the state as it
    was, but for the history: a new entry is appended and removed again, an
    existing one gets its use count back. *)
Theorem track_untrack_round_trip w virt v n ino :
  heap w !! virt = Some (BInfo v) -> par v = Some n ->
  inodes_sized n -> inodes_len n < 2 ^ 31 - 1 -> ino <> NULL ->
  (forall c, use_of n ino = Some c -> 0 < c < 2 ^ 31 - 1) ->
  (ino ∉ tracked n -> alloc_ok (trace w ++ [EvMutexLock]) = true) ->
  exists evs,
    (track_fb_inode virt ino ;;; untrack_fb_inode virt ino) w
    = Ret tt (set_trace (trace w ++ evs) w).
Proof.
  intros Hv Hn Hsz Hmax Hino Hc Hok.
  pose proof Hsz as [Hlen0 Hlen].
  assert (Hvn : forall a, set_par_of (set_par_of v a) n = v)
    by (intros a; destruct v; simpl in *; by subst).
  destruct (list_find (fun e => inode e = ino)
              (take (Z.to_nat (inodes_len n)) (inodes n)))
    as [[i e]|] eqn:Hf.
  - (* tracked already *)
    rewrite (bind_step _ _ _ _ _
               (track_fb_inode_run_old _ _ _ _ _ _ _ Hv Hn Hf)).
    specialize (Hc (use_count e)). unfold use_of in Hc. rewrite Hf in Hc.
    specialize (Hc eq_refl).
    rewrite (inodes_sized_take _ Hsz) in Hf.
    pose proof Hf as (Hi & He & _)%list_find_Some.
    set (n1 := set_inodes n (alter inc_count i (inodes n)) (inodes_len n)).
    cbv beta.
    match goal with
    | |- context [untrack_fb_inode _ _ ?w1] => set (w1' := w1)
    end.
    assert (Hsz1 : inodes_sized n1)
      by (split; [done | simpl; by rewrite length_alter]).
    edestruct (untrack_fb_inode_run w1' virt (set_par_of v n1) n1 ino i
                 (inc_count e)) as (last & _ & ->);
      [subst w1'; simpl; by rewrite lookup_insert_eq | done | done
      | simpl; lia | done | |].
    { rewrite (inodes_sized_take _ Hsz1). simpl.
      apply list_find_alter_same; [done | by intros []]. }
    simpl.
    rewrite (wrap_int_small (use_count e + 1)) by lia.
    replace (use_count e + 1 - 1) with (use_count e) by lia.
    rewrite (wrap_int_small (use_count e)) by lia.
    destruct (Z.eqb_spec (use_count e) 0) as [|_]; [lia|].
    rewrite insert_alter_same.
    replace (mk_fb_inode (inode e) (use_count e)) with e by (by destruct e).
    rewrite list_insert_id by done.
    exists [EvMutexLock; EvMutexUnlock; EvMutexLock; EvMutexUnlock].
    unfold set_trace. subst w1'. simpl.
    rewrite insert_insert_eq, <- app_assoc. simpl.
    replace (set_inodes n1 (inodes n) (inodes_len n)) with n
      by (subst n1; by destruct n).
    rewrite Hvn, insert_id by done. by destruct w.
  - (* not tracked yet *)
    pose proof Hf as Hnot%tracked_list_find.
    rewrite (bind_step _ _ _ _ _
               (track_fb_inode_run_new _ _ _ _ _ Hv Hn Hsz Hnot (Hok Hnot))).
    rewrite (inodes_sized_take _ Hsz) in Hf.
    rewrite wrap_int_small by lia.
    set (n1 := set_inodes n (inodes n ++ [mk_fb_inode ino 1])
                            (inodes_len n + 1)).
    cbv beta.
    match goal with
    | |- context [untrack_fb_inode _ _ ?w1] => set (w1' := w1)
    end.
    assert (Hsz1 : inodes_sized n1).
    { split; simpl; [lia|]. rewrite length_app. simpl. lia. }
    edestruct (untrack_fb_inode_run w1' virt (set_par_of v n1) n1 ino
                 (length (inodes n)) (mk_fb_inode ino 1))
      as (last & _ & ->);
      [subst w1'; simpl; by rewrite lookup_insert_eq | done | done
      | simpl; lia | done | |].
    { rewrite (inodes_sized_take _ Hsz1). simpl.
      rewrite list_find_app_r by done. simpl.
      by rewrite decide_True. }
    simpl.
    rewrite take_insert_ge by (rewrite length_insert, length_app; simpl; lia).
    rewrite take_insert_ge by (rewrite length_insert, length_app; simpl; lia).
    rewrite length_insert, length_app. simpl.
    replace (length (inodes n) + 1 - 1)%nat with (length (inodes n)) by lia.
    rewrite take_app_length.
    exists [EvMutexLock; EvAlloc true; EvMutexUnlock; EvMutexLock;
            EvMutexUnlock].
    unfold set_trace. subst w1'. simpl.
    rewrite insert_insert_eq, <- app_assoc. simpl.
    replace (inodes_len n + 1 - 1) with (inodes_len n) by lia.
    replace (set_inodes n1 (inodes n) (inodes_len n)) with n
      by (subst n1; by destruct n).
    rewrite Hvn, insert_id by done. by destruct w.
Qed.

End tracking_properties.

(** ** The operations table of a shadow *)

Section ops_table.
Context `{K : kernel} `{N : notifications}.

Lemma clear_slot_same o ops : slot (clear_slot o ops) o = None.
Proof.
  induction ops as [|[o1 h] ops IH]; [done|].
  unfold clear_slot in *. cbn.
  destruct (decide (o1 <> o)) as [Hd|Hd]; cbn; [|apply IH].
  destruct (decide (o1 = o)); [done | apply IH].
Qed.

Lemma null_unless_same hw probe o ops :
  slot (null_unless hw probe o ops) o
  = match slot hw probe with Some _ => slot ops o | None => None end.
Proof.
  unfold null_unless. destruct (slot hw probe); [done|].
  apply clear_slot_same.
Qed.

Ltac table_slot :=
  unfold make_fb_ops_table;
  repeat first [ rewrite null_unless_other by done
               | rewrite null_unless_same ].

(** X5. The table [fb_ns_make_fb_ops] builds, slot by slot: an optional
    operation is offered exactly when the hardware has it; fb_debug_enter is
    offered only when the hardware has both fb_debug_enter and
    fb_debug_leave; fb_debug_leave is offered always; every other slot is as
    in [fb_devns_ops], so fb_blank, fb_pan_display and fb_sync are never
    offered. *)
Theorem shadow_table_slots hw :
  (forall o, o ∈ optional_ops ->
     slot (make_fb_ops_table hw) o
     = match slot hw o with
       | Some _ => slot fb_devns_ops o
       | None => None
       end) /\
  slot (make_fb_ops_table hw) op_fb_debug_enter
  = match slot hw op_fb_debug_enter, slot hw op_fb_debug_leave with
    | Some _, Some _ => Some h_fb_ns_debug_enter
    | _, _ => None
    end /\
  slot (make_fb_ops_table hw) op_fb_debug_leave = Some h_fb_ns_debug_leave /\
  (forall o, o ∉ optional_ops -> o <> op_fb_debug_enter ->
     o <> op_fb_debug_leave ->
     slot (make_fb_ops_table hw) o = slot fb_devns_ops o) /\
  slot fb_devns_ops op_fb_blank = None /\
  slot fb_devns_ops op_fb_pan_display = None /\
  slot fb_devns_ops op_fb_sync = None.
Proof.
  split; [|split; [|split; [|split; [|done]]]].
  - intros o Ho. unfold optional_ops in Ho.
    repeat (apply elem_of_cons in Ho as [->|Ho]);
      [..|by apply elem_of_nil in Ho]; by table_slot.
  - table_slot.
    by destruct (slot hw op_fb_debug_enter), (slot hw op_fb_debug_leave).
  - by table_slot.
  - intros o Ho He Hl. unfold optional_ops in Ho.
    destruct o; try done; try by table_slot.
    all: destruct Ho; set_solver.
Qed.

End ops_table.

(** ** The handlers of a shadow *)

Section handlers.
Context `{K : kernel} `{N : notifications}.

Lemma fb_virt_to_info_ok w virt v n :
  heap w !! virt = Some (BInfo v) -> fb_info_is_virt v = true ->
  par v = Some n ->
  fb_virt_to_info virt w = Ret (info n) w.
Proof.
  intros Hv Hvirt Hn. unfold fb_virt_to_info.
  step (load_info_ok _ _ _ Hv). rewrite Hvirt. cbn [negb].
  by step (load_par_ok _ _ _ _ Hv Hn).
Qed.

Lemma fb_debug_diff_ok w virt v n hwi :
  shadow_at w virt v n hwi -> fb_debug_diff virt w = Ret tt w.
Proof.
  intros (Hv & Hvirt & Hn & Hhw & Hbase & Hsize). unfold fb_debug_diff.
  step (load_info_ok _ _ _ Hv). rewrite Hvirt. cbn [negb BUG_ON]. step_ret.
  step (load_par_ok _ _ _ _ Hv Hn).
  step (fb_virt_to_info_ok _ _ _ _ Hv Hvirt Hn).
  step (load_info_ok _ _ _ Hhw).
  by rewrite Hbase, Hsize, !Z.eqb_refl.
Qed.

(** The recorded geometry differs from the hardware's: the check of
    [_fb_debug_diff] stops the caller. *)
Lemma fb_debug_diff_bug w virt v n hwi :
  heap w !! virt = Some (BInfo v) -> fb_info_is_virt v = true ->
  par v = Some n -> heap w !! info n = Some (BInfo hwi) ->
  ns_screen_base n <> screen_base hwi \/ ns_screen_size n <> screen_size hwi ->
  fb_debug_diff virt w = Bug w.
Proof.
  intros Hv Hvirt Hn Hhw Hdiff. unfold fb_debug_diff.
  step (load_info_ok _ _ _ Hv). rewrite Hvirt. cbn [negb BUG_ON]. step_ret.
  step (load_par_ok _ _ _ _ Hv Hn).
  step (fb_virt_to_info_ok _ _ _ _ Hv Hvirt Hn).
  step (load_info_ok _ _ _ Hhw).
  destruct Hdiff as [Hd|Hd]; apply Z.eqb_neq in Hd as ->; [done|].
  by rewrite orb_true_r.
Qed.

Lemma bind_Bug {A B} (m : M A) (k : A -> M B) w w1 :
  m w = Bug w1 -> bind m k w = Bug w1.
Proof. unfold bind. by intros ->. Qed.

(** X6. Palette maps, cursor changes and ioctls on a shadow are accepted
    and dropped: [fb_ns_setcmap] with a palette map it can read,
    [fb_ns_cursor], [fb_ns_ioctl] and [fb_ns_compat_ioctl] return 0 and
    [fb_ns_rotate] returns, all leaving the state, history included, as it
    was; nothing is staged and the hardware is not called.  A palette map
    that cannot be read is an invalid access: [fb_ns_setcmap] reads it for
    its message. *)
Theorem unsupported_operations_are_dropped w virt v n hwi cmap cursor cmd arg
    angle :
  shadow_at w virt v n hwi ->
  fb_ns_setcmap (Some cmap) virt w = Ret 0 w /\
  fb_ns_setcmap None virt w = Oops w /\
  fb_ns_cursor virt cursor w = Ret 0 w /\
  fb_ns_ioctl virt cmd arg w = Ret 0 w /\
  fb_ns_compat_ioctl virt cmd arg w = Ret 0 w /\
  fb_ns_rotate virt angle w = Ret tt w.
Proof.
  intros Hs. pose proof Hs as (Hv & Hvirt & _).
  pose proof (fb_debug_diff_ok _ _ _ _ _ Hs) as Hd.
  unfold fb_ns_setcmap, fb_ns_cursor, fb_ns_ioctl, fb_ns_compat_ioctl,
    fb_ns_rotate.
  repeat split; step (load_info_ok _ _ _ Hv); rewrite ?Hvirt;
    cbn [negb BUG_ON]; try step_ret; try step Hd; reflexivity.
Qed.

(** X7. Handed a framebuffer that is not a shadow, each of these handlers
    stops in BUG_ON() with the state as it was; [fb_ns_rotate] does not
    check its argument and returns. *)
Theorem handlers_refuse_hardware w p i var cmap cursor cmd arg caps angle
    regno red green blue transp :
  heap w !! p = Some (BInfo i) ->
  fb_info_is_virt i = false ->
  fb_ns_check_var var p w = Bug w /\
  fb_ns_set_par p w = Bug w /\
  fb_ns_setcolreg regno red green blue transp p w = Bug w /\
  fb_ns_setcmap cmap p w = Bug w /\
  fb_ns_cursor p cursor w = Bug w /\
  fb_ns_ioctl p cmd arg w = Bug w /\
  fb_ns_compat_ioctl p cmd arg w = Bug w /\
  fb_ns_get_caps p caps var w = Bug w /\
  fb_ns_debug_enter p w = Bug w /\
  fb_ns_debug_leave p w = Bug w /\
  fb_ns_rotate p angle w = Ret tt w.
Proof.
  intros Hp Hvirt.
  unfold fb_ns_check_var, fb_ns_set_par, fb_ns_setcolreg, fb_ns_setcmap,
    fb_ns_cursor, fb_ns_ioctl, fb_ns_compat_ioctl, fb_ns_get_caps,
    fb_ns_debug_enter, fb_ns_debug_leave, fb_ns_rotate.
  repeat split; step (load_info_ok _ _ _ Hp); rewrite ?Hvirt; reflexivity.
Qed.

(** X8. When the geometry a shadow recorded at creation is no longer the
    hardware's, every operation that runs the check of [_fb_debug_diff]
    stops in BUG_ON() with the state as it was: the check of a mode,
    staging a mode or a palette entry, a palette map, an ioctl, a capability
    query and the copy of a switch. *)
Theorem geometry_divergence_is_fatal w virt v n hwi cmap cmd arg caps var
    regno red green blue transp activate :
  heap w !! virt = Some (BInfo v) -> fb_info_is_virt v = true ->
  par v = Some n -> heap w !! info n = Some (BInfo hwi) ->
  ns_screen_base n <> screen_base hwi \/ ns_screen_size n <> screen_size hwi ->
  fb_ns_check_var var virt w = Bug w /\
  fb_ns_set_par virt w = Bug w /\
  fb_ns_setcolreg regno red green blue transp virt w = Bug w /\
  fb_ns_setcmap cmap virt w = Bug w /\
  fb_ns_ioctl virt cmd arg w = Bug w /\
  fb_ns_compat_ioctl virt cmd arg w = Bug w /\
  fb_ns_get_caps virt caps var w = Bug w /\
  fb_ns_swap_vmem virt activate w = Bug w.
Proof.
  intros Hv Hvirt Hn Hhw Hdiff.
  pose proof (fb_debug_diff_bug _ _ _ _ _ Hv Hvirt Hn Hhw Hdiff) as Hd.
  unfold fb_ns_check_var, fb_ns_set_par, fb_ns_setcolreg, fb_ns_setcmap,
    fb_ns_ioctl, fb_ns_compat_ioctl, fb_ns_get_caps, fb_ns_swap_vmem.
  repeat split;
    try step (fb_virt_to_info_ok _ _ _ _ Hv Hvirt Hn);
    step (load_info_ok _ _ _ Hv); rewrite ?Hvirt; cbn [negb BUG_ON];
    try step_ret; by rewrite (bind_Bug _ _ _ _ Hd).
Qed.

Lemma hw_slot_ok w hw hwi ops o h :
  heap w !! hw = Some (BInfo hwi) -> heap w !! fbops hwi = Some (BOps ops) ->
  slot ops o = Some h -> hw_slot o hw w = Ret h w.
Proof.
  intros Hhw Hops Hs. unfold hw_slot. step (load_info_ok _ _ _ Hhw).
  step (load_ops_ok _ _ _ Hops). by rewrite Hs.
Qed.

Lemma hw_slot_null w hw hwi ops o :
  heap w !! hw = Some (BInfo hwi) -> heap w !! fbops hwi = Some (BOps ops) ->
  slot ops o = None -> hw_slot o hw w = Oops w.
Proof.
  intros Hhw Hops Hs. unfold hw_slot. step (load_info_ok _ _ _ Hhw).
  step (load_ops_ok _ _ _ Hops). by rewrite Hs.
Qed.

Lemma bind_Oops {A B} (m : M A) (k : A -> M B) w w1 :
  m w = Oops w1 -> bind m k w = Oops w1.
Proof. unfold bind. by intros ->. Qed.


(** X10. The last test of [fb_ns_make_fb_ops] reads the hardware's
    fb_debug_leave and clears fb_debug_enter.  So for a hardware without
    fb_debug_leave the table still offers fb_debug_leave (and withholds
    fb_debug_enter, whether the hardware has it or not), and
    [fb_ns_debug_leave] on the shadow calls through the hardware's [NULL]
    slot: an invalid access. *)
Theorem debug_leave_offered_without_handler w virt v n hwi hwops :
  heap w !! virt = Some (BInfo v) -> fb_info_is_virt v = true ->
  par v = Some n -> heap w !! info n = Some (BInfo hwi) ->
  heap w !! fbops hwi = Some (BOps hwops) ->
  slot hwops op_fb_debug_leave = None ->
  slot (make_fb_ops_table hwops) op_fb_debug_leave
  = Some h_fb_ns_debug_leave /\
  slot (make_fb_ops_table hwops) op_fb_debug_enter = None /\
  fb_ns_debug_leave virt w = Oops w.
Proof.
  intros Hv Hvirt Hn Hhw Hops Hnone. split; [|split].
  - unfold make_fb_ops_table. by rewrite !null_unless_other by done.
  - unfold make_fb_ops_table. by rewrite null_unless_same, Hnone.
  - unfold fb_ns_debug_leave. step (load_info_ok _ _ _ Hv). rewrite Hvirt.
    cbn [negb BUG_ON]. step_ret.
    step (fb_virt_to_info_ok _ _ _ _ Hv Hvirt Hn).
    by rewrite (bind_Oops _ _ _ _ (hw_slot_null _ _ _ _ _ Hhw Hops Hnone)).
Qed.

End handlers.

(** ** Staging a mode and palette entries *)

Section staging_properties.
Context `{K : kernel}.


Lemma alloc_fails b w :
  alloc_ok (trace w) = false ->
  alloc b w = Ret NULL (set_trace (trace w ++ [EvAlloc false]) w).
Proof. intros Hok. unfold alloc, bind, try_alloc. by rewrite Hok. Qed.

Lemma free_heap_null h : free_heap NULL h = h.
Proof. reflexivity. Qed.



End staging_properties.

(** ** The copy between the hardware buffer and the backing buffer *)

Section buffer_copy.
Context `{K : kernel}.

Lemma load_mem_ok w p b :
  heap w !! p = Some (BMem b) -> load_mem p w = Ret b w.
Proof. unfold load_mem. by intros ->. Qed.

Lemma memcpy_ok w dst src size s d :
  heap w !! src = Some (BMem s) -> heap w !! dst = Some (BMem d) ->
  size <= Z.of_nat (length s) -> size <= Z.of_nat (length d) ->
  memcpy dst src size w
  = Ret tt (set_heap (<[dst := BMem (take (Z.to_nat size) s
                                     ++ drop (Z.to_nat size) d)]> (heap w))
                     w).
Proof.
  intros Hs Hd Hls Hld. unfold memcpy.
  step (load_mem_ok _ _ _ Hs). step (load_mem_ok _ _ _ Hd).
  destruct (Z.ltb_spec (Z.of_nat (length s)) size); [lia|].
  destruct (Z.ltb_spec (Z.of_nat (length d)) size); [lia|].
  cbn [orb]. by rewrite (store_ok _ _ _ _ Hd).
Qed.

Lemma peek_two_longs_ok w p m :
  heap w !! p = Some (BMem m) ->
  2 * sizeof_long <= Z.of_nat (length m) ->
  peek_two_longs p w = Ret tt w.
Proof.
  intros Hp Hm. unfold peek_two_longs. step (load_mem_ok _ _ _ Hp).
  by destruct (Z.ltb_spec (Z.of_nat (length m)) (2 * sizeof_long)); [lia|].
Qed.

(** The two longs can still be read after a copy into a buffer that was
    long enough. *)
Lemma peek_two_longs_after w w2 p q m new :
  heap w !! p = Some (BMem m) ->
  heap w2 = <[q := BMem new]> (heap w) ->
  2 * sizeof_long <= Z.of_nat (length m) ->
  2 * sizeof_long <= Z.of_nat (length new) ->
  peek_two_longs p w2 = Ret tt w2.
Proof.
  intros Hp Hh Hm Hnew. destruct (decide (p = q)) as [->|Hne].
  - apply (peek_two_longs_ok w2 q new); [|done].
    by rewrite Hh, lookup_insert_eq.
  - apply (peek_two_longs_ok w2 p m); [|done].
    by rewrite Hh, lookup_insert_ne.
Qed.

Lemma length_copied size (s d : list Z) :
  size <= Z.of_nat (length s) -> size <= Z.of_nat (length d) ->
  length (take (Z.to_nat size) s ++ drop (Z.to_nat size) d) = length d.
Proof. intros Hs Hd. rewrite length_app, length_take, length_drop. lia. Qed.

(** The run of [fb_ns_swap_vmem] when there is something to copy. *)
Lemma fb_ns_swap_vmem_run w virt v n hwi ops scr buf activate :
  shadow_at w virt v n hwi ->
  heap w !! fbops hwi = Some (BOps ops) ->
  heap w !! screen_base hwi = Some (BMem scr) ->
  heap w !! screen_base v = Some (BMem buf) ->
  screen_base hwi <> NULL -> screen_base v <> NULL ->
  0 < smem_len (fix_ v) ->
  smem_len (fix_ v) <= Z.of_nat (length scr) ->
  smem_len (fix_ v) <= Z.of_nat (length buf) ->
  2 * sizeof_long <= Z.of_nat (length scr) ->
  2 * sizeof_long <= Z.of_nat (length buf) ->
  let size := Z.to_nat (smem_len (fix_ v)) in
  fb_ns_swap_vmem virt activate w
  = Ret tt
      (mk_world
         (if activate
          then <[screen_base hwi := BMem (take size buf ++ drop size scr)]>
                 (heap w)
          else <[screen_base v := BMem (take size scr ++ drop size buf)]>
                 (heap w))
         (trace w
          ++ copy_events ops (info n)
               (if activate
                then EvMemcpyToFb (screen_base hwi) (screen_base v)
                                  (smem_len (fix_ v))
                else EvMemcpyFromFb (screen_base v) (screen_base hwi)
                                    (smem_len (fix_ v))))
         (current_dev_ns w) (active_dev_ns w) (fb_ns_of w) (i_mmap w)).
Proof.
  intros Hs Hops Hscr Hbuf Hnn1 Hnn2 Hpos Hl1 Hl2 Hp1 Hp2 size.
  pose proof Hs as (Hv & Hvirt & Hn & Hhw & _).
  unfold fb_ns_swap_vmem.
  step (fb_virt_to_info_ok _ _ _ _ Hv Hvirt Hn).
  step (load_info_ok _ _ _ Hv). cbv zeta.
  step (fb_debug_diff_ok _ _ _ _ _ Hs).
  step (load_info_ok _ _ _ Hhw).
  destruct (Z.eqb_spec (smem_len (fix_ v)) 0); [lia|].
  apply Z.eqb_neq in Hnn1 as ->. apply Z.eqb_neq in Hnn2 as ->. cbn [orb].
  step (peek_two_longs_ok _ _ _ Hscr Hp1).
  step (peek_two_longs_ok _ _ _ Hbuf Hp2).
  step (load_ops_ok _ _ _ Hops).
  pose proof (length_copied _ buf scr Hl2 Hl1) as Hlen1.
  pose proof (length_copied _ scr buf Hl1 Hl2) as Hlen2.
  unfold copy_events, fb_memcpy_tofb, fb_memcpy_fromfb.
  destruct (slot ops op_fb_sync); [step_log | step_ret];
    destruct activate; rewrite !bind_assoc; step_log;
    match goal with
    | |- context [bind (memcpy ?d ?s ?z) _ ?w1] =>
        first [ step (memcpy_ok w1 d s z buf scr Hbuf Hscr Hl2 Hl1)
              | step (memcpy_ok w1 d s z scr buf Hscr Hbuf Hl1 Hl2) ]
    end;
    match goal with
    | |- context [bind (peek_two_longs ?p) _ ?w2] =>
        erewrite (bind_step _ _ w2 _ _
                    (peek_two_longs_after w w2 p _ scr _ Hscr eq_refl Hp1 _))
    end;
    cbv beta;
    match goal with
    | |- peek_two_longs ?p ?w2 = _ =>
        erewrite (peek_two_longs_after w w2 p _ buf _ Hbuf eq_refl Hp2 _)
    end;
    unfold set_heap, set_trace; simpl; by rewrite <- ?app_assoc.
  Unshelve. all: lia.
Qed.

Lemma after_copy_returns w virt v n hwi activate :
  heap w !! virt = Some (BInfo v) -> fb_info_is_virt v = true ->
  par v = Some n -> heap w !! info n = Some (BInfo hwi) ->
  (activate = true ->
   exists l ops, staged w n = Some l /\
                 heap w !! fbops hwi = Some (BOps ops) /\
                 is_Some (slot ops op_fb_setcolreg)) ->
  exists w', after_copy virt activate w = Ret 0 w'.
Proof.
  intros Hv Hvirt Hn Hhw Hpal.
  assert (Htail : forall w2 v2 n2,
            heap w2 !! virt = Some (BInfo v2) -> fb_info_is_virt v2 = true ->
            par v2 = Some n2 ->
            exists w',
              ((if CONFIG_FB_DEV_NS_PAN && activate then
                  hw <- fb_virt_to_info virt ;;
                  v3 <- load_info virt ;;
                  fb_pan_display hw (var v3)
                else ret tt) ;;; ret 0) w2 = Ret 0 w').
  { intros w2 v2 n2 Hv2 Hvirt2 Hn2.
    destruct (CONFIG_FB_DEV_NS_PAN && activate); [|by eexists].
    rewrite bind_assoc. step (fb_virt_to_info_ok _ _ _ _ Hv2 Hvirt2 Hn2).
    rewrite bind_assoc. step (load_info_ok _ _ _ Hv2).
    unfold fb_pan_display. step_log. by eexists. }
  unfold after_copy. destruct activate.
  - destruct (Hpal eq_refl) as (l & ops & Hst & Hops & Hslot).
    destruct (fb_ns_apply_colreg_runs w virt v n hwi ops l)
      as (w2 & Hrun & _ & _ & Hinfo); try done.
    assert (Hv2 : heap w2 !! virt
                  = Some (BInfo (set_par_of v (set_colreg_pos n 0)))).
    { unfold info_at in Hinfo.
      destruct (heap w2 !! virt) as [[]|]; by simplify_eq. }
    rewrite bind_assoc. step Hrun.
    assert (Hsp : fb_ns_apply_setpar virt w2 = Ret 0 w2).
    { unfold fb_ns_apply_setpar.
      step (load_par_ok w2 virt _ _ Hv2 eq_refl).
      by step (fb_virt_to_info_ok w2 _ _ _ Hv2 Hvirt eq_refl). }
    rewrite bind_assoc. step Hsp. step_ret.
    apply (Htail w2 _ _ Hv2 Hvirt eq_refl).
  - step_ret. apply (Htail w v n Hv Hvirt Hn).
Qed.

(** A transition of a shadow with something to copy: it returns; when the
    re-point pass failed both buffers are as they were, otherwise the copy
    was made. *)
Lemma do_fb_activate_ns_copies w virt v n hwi ops scr buf activate :
  shadow_at w virt v n hwi ->
  heap w !! fbops hwi = Some (BOps ops) ->
  buffers_at w v hwi scr buf ->
  forallb (mapping_ok w) (tracked n) = true ->
  (activate = true ->
   exists l, staged w n = Some l /\ is_Some (slot ops op_fb_setcolreg)) ->
  let size := Z.to_nat (smem_len (fix_ v)) in
  exists r w',
    do_fb_activate_ns virt activate w = Ret r w' /\
    (r < 0 \/ r = 0) /\
    (r < 0 -> buffers_at w' v hwi scr buf) /\
    (r = 0 ->
     buffers_at w' v hwi
       (if activate then take size buf ++ drop size scr else scr)
       (if activate then buf else take size scr ++ drop size buf)).
Proof.
  intros Hs Hops Hb Hmaps Hpal size.
  pose proof Hs as (Hv & Hvirt & Hn & Hhw & Hbase & Hsize).
  pose proof Hb as (Hscr & Hbuf & Hnn1 & Hnn2 & Hne & Hpos & Hl1 & Hl2
                    & Hp1 & Hp2).
  destruct (swap_mmap_loop_returns virt
              (take (Z.to_nat (inodes_len n)) (inodes n)) 0 w Hmaps)
    as (err & w1 & evs & Hr & _ & _).
  assert (Hsw : fb_ns_swap_mmap virt activate w = Ret err w1).
  { unfold fb_ns_swap_mmap. by step (load_par_ok _ _ _ _ Hv Hn). }
  pose proof (changes_fb_ns_swap_mmap virt activate w) as H1.
  rewrite Hsw in H1. simpl in H1.
  assert (Hv1 := changes_kept _ _ _ _ _ _ H1 Hv eq_refl).
  assert (Hhw1 := changes_kept _ _ _ _ _ _ H1 Hhw eq_refl).
  assert (Hops1 := changes_kept _ _ _ _ _ _ H1 Hops eq_refl).
  assert (Hscr1 := changes_kept _ _ _ _ _ _ H1 Hscr eq_refl).
  assert (Hbuf1 := changes_kept _ _ _ _ _ _ H1 Hbuf eq_refl).
  rewrite do_fb_activate_ns_unfold. step Hsw.
  destruct (Z.ltb_spec err 0) as [Hneg|Hnneg].
  { exists err, w1. split; [done|]. split; [by left|].
    split; [by intros _ | lia]. }
  assert (Hs1 : shadow_at w1 virt v n hwi) by done.
  rewrite (bind_step _ _ _ _ _
             (fb_ns_swap_vmem_run w1 virt v n hwi ops scr buf activate
                Hs1 Hops1 Hscr1 Hbuf1 Hnn1 Hnn2 Hpos Hl1 Hl2 Hp1 Hp2)).
  cbv beta. fold size.
  match goal with |- context [after_copy _ _ ?w] => set (w2 := w) end.
  assert (Hv2 : heap w2 !! virt = Some (BInfo v)).
  { subst w2. simpl. destruct activate;
      (rewrite lookup_insert_ne; [done | congruence]). }
  assert (Hhw2 : heap w2 !! info n = Some (BInfo hwi)).
  { subst w2. simpl. destruct activate;
      (rewrite lookup_insert_ne; [done | congruence]). }
  assert (Hops2 : heap w2 !! fbops hwi = Some (BOps ops)).
  { subst w2. simpl. destruct activate;
      (rewrite lookup_insert_ne; [done | congruence]). }
  assert (Hscr2 : heap w2 !! screen_base hwi
                  = Some (BMem (if activate
                                then take size buf ++ drop size scr
                                else scr))).
  { subst w2. simpl. destruct activate.
    - by rewrite lookup_insert_eq.
    - by rewrite lookup_insert_ne. }
  assert (Hbuf2 : heap w2 !! screen_base v
                  = Some (BMem (if activate then buf
                                else take size scr ++ drop size buf))).
  { subst w2. simpl. destruct activate.
    - by rewrite lookup_insert_ne.
    - by rewrite lookup_insert_eq. }
  assert (Hpal2 : activate = true ->
                  exists l ops0, staged w2 n = Some l /\
                                 heap w2 !! fbops hwi = Some (BOps ops0) /\
                                 is_Some (slot ops0 op_fb_setcolreg)).
  { intros Ha. destruct (Hpal Ha) as (l & Hst & Hslot).
    exists l, ops. split; [|done].
    apply (staged_kept _ _ _ _ _ _ H1 eq_refl) in Hst.
    revert Hst. unfold staged. destruct (colreg_pos n =? 0); [done|].
    subst w2. simpl. rewrite Ha.
    destruct (heap w1 !! colreg n) as [[]|] eqn:Hc; try done.
    rewrite lookup_insert_ne; [by rewrite Hc | congruence]. }
  clearbody w2.
  destruct (after_copy_returns w2 virt v n hwi activate Hv2 Hvirt Hn Hhw2
              Hpal2) as [w3 Hac].
  pose proof (changes_after_copy virt activate w2) as H3.
  rewrite Hac in H3. simpl in H3.
  exists 0, w3. split; [done|]. split; [by right|]. split; [lia|].
  intros _. unfold buffers_at.
  rewrite (changes_kept _ _ _ _ _ _ H3 Hscr2 eq_refl).
  rewrite (changes_kept _ _ _ _ _ _ H3 Hbuf2 eq_refl).
  repeat split; try done.
  - destruct activate; [|done].
    rewrite length_app, length_take, length_drop. lia.
  - destruct activate; [done|].
    rewrite length_app, length_take, length_drop. lia.
  - destruct activate; [|done].
    rewrite length_app, length_take, length_drop. lia.
  - destruct activate; [done|].
    rewrite length_app, length_take, length_drop. lia.
Qed.




End buffer_copy.

(** ** Re-pointing the mappings of one inode *)

Section remap.
Context `{K : kernel}.

Lemma remap_drop_run l w :
  remap_drop l w
  = Ret tt (set_trace (trace w ++ ((fun m => EvMmDrop (mm m)) <$> l)) w).
Proof.
  revert w. induction l as [|m l IH]; intros w; simpl.
  - unfold ret, set_trace. rewrite app_nil_r. by destruct w.
  - step_log. rewrite IH. unfold set_trace. simpl.
    by rewrite <- app_assoc.
Qed.

Lemma set_trace_nil w : set_trace (trace w ++ []) w = w.
Proof. unfold set_trace. rewrite app_nil_r. by destruct w. Qed.

Lemma set_trace_app t evs w :
  set_trace (trace (set_trace t w) ++ evs) (set_trace t w)
  = set_trace (t ++ evs) w.
Proof. reflexivity. Qed.

(** The first loop: the entries pushed, newest first, the events logged,
    and whether an allocation failed. *)
Lemma remap_collect_run vmas mmhead w :
  forallb (is_vma w) vmas = true ->
  exists e new evs,
    remap_collect vmas mmhead w
    = Ret (e, new ++ mmhead) (set_trace (trace w ++ evs) w) /\
    omap grabbed_mm evs = reverse (mm <$> new) /\
    forallb collects evs = true /\
    forallb (fun m => is_vma w (mm_vma m)) new = true /\
    ((e = 0 /\ (EvAlloc false ∉ evs) /\ mm_vma <$> new = reverse vmas) \/
     (e = - ENOMEM /\ EvAlloc false ∈ evs)).
Proof.
  revert mmhead w. induction vmas as [|vma rest IH]; intros mmhead w Hok.
  - exists 0, [], []. simpl. unfold ret. rewrite set_trace_nil.
    repeat split; try done. left. repeat split; try done.
    apply not_elem_of_nil.
  - simpl in Hok. apply andb_true_iff in Hok as [Hvma Hrest].
    destruct (is_vma_Some _ _ Hvma) as [v Hv].
    cbn [remap_collect]. step (try_alloc_ok w).
    destruct (alloc_ok (trace w)) eqn:Hal; cbn [negb].
    + step_at load_vma_ok. step_log.
      match goal with
      | |- context [remap_collect rest ?h ?w1] =>
          destruct (IH h w1) as (e & new & evs & Hrun & Hg & Hc & Hn & He)
      end; [done|].
      rewrite Hrun.
      exists e, (new ++ [mk_mmlist (vm_mm v) (vm_start v)
                                   (vm_end v - vm_start v) vma]),
        ([EvAlloc true; EvMmGrab (vm_mm v)] ++ evs).
      split; [unfold set_trace; simpl; by rewrite <- !app_assoc|].
      split; [by rewrite omap_app, Hg, fmap_app, reverse_app|].
      split; [by rewrite forallb_app, Hc|].
      split.
      { rewrite forallb_app. simpl. rewrite andb_true_r.
        apply andb_true_iff. split; [|done]. exact Hn. }
      destruct He as [(-> & Hno & Hvs)|(-> & Hyes)]; [left | right].
      * split; [done|]. split.
        { simpl. rewrite !not_elem_of_cons. done. }
        rewrite fmap_app, Hvs. simpl. by rewrite reverse_cons.
      * split; [done|]. simpl. by do 2 apply list_elem_of_further.
    + unfold ret.
      exists (- ENOMEM), [], [EvAlloc false].
      repeat split; try done. right. split; [done|].
      apply list_elem_of_here.
Qed.

Lemma mmap_faithful_app t evs1 evs2 :
  mmap_faithful t evs1 -> mmap_faithful (t ++ evs1) evs2 ->
  mmap_faithful t (evs1 ++ evs2).
Proof.
  revert t. induction evs1 as [|e evs1 IH]; intros t; simpl.
  - intros _. by rewrite app_nil_r.
  - intros [He H1] H2. split; [done|]. apply IH; [done|].
    by rewrite <- app_assoc.
Qed.

Lemma mmap_faithful_none t evs :
  omap mmap_of evs = [] -> mmap_faithful t evs.
Proof.
  revert t. induction evs as [|e evs IH]; intros t; simpl; [done|].
  destruct e; simpl; try done; intros He; (split; [done|]); by apply IH.
Qed.

(** The second loop: each entry's vma is re-pointed in turn, whatever the
    file's mmap gave for the one before, and the first error is kept; only
    these vmas change. *)
Lemma remap_apply_run l err w :
  forallb (fun m => is_vma w (mm_vma m)) l = true ->
  exists rs w' evs,
    remap_apply l err w
    = Ret (if err =? 0 then first_error rs else err) w' /\
    trace w' = trace w ++ evs /\
    omap mmap_of evs = zip (mm_vma <$> l) rs /\
    length rs = length l /\
    forallb touches_mapping evs = true /\
    mmap_faithful (trace w) evs /\
    (forall p, p ∉ mm_vma <$> l -> heap w' !! p = heap w !! p) /\
    (forall p, is_vma w p = true -> is_vma w' p = true).
Proof.
  revert err w. induction l as [|m l IH]; intros err w Hok.
  - exists [], w, []. simpl. unfold ret. rewrite app_nil_r.
    split; [by destruct (Z.eqb_spec err 0) as [->|]|].
    repeat split; try done.
  - simpl in Hok. apply andb_true_iff in Hok as [Hm Hl].
    destruct (is_vma_Some _ _ Hm) as [v Hv].
    cbn [remap_apply]. step_log. step_at load_vma_ok. step_log. step_log.
    rewrite (bind_store _ _ (BVma v)) by done. cbv beta.
    match goal with
    | |- context [bind (call_f_op_mmap ?x) _ ?w1] =>
        step (call_f_op_mmap_run w1 x (clear_vm_io (vma_adjust v 0))
                (lookup_insert_eq _ _ _))
    end.
    step_log. simpl trace. simpl heap.
    set (r := f_op_mmap _ _).
    match goal with
    | |- context [remap_apply l ?e ?w1] =>
        destruct (IH e w1) as (rs & w' & evs & Hrun & Ht & Hmm & Hlen & Hto
                               & Hfa & Hframe & Hvmas)
    end.
    { rewrite forallb_forall in *. intros p Hp. unfold is_vma. simpl.
      destruct (decide (mm_vma m = mm_vma p)) as [->|Hne].
      - by rewrite lookup_insert_eq.
      - rewrite !lookup_insert_ne by done. by apply Hl. }
    exists (r :: rs), w',
      ([EvDownWrite (mm m); EvZapPageRange (mm_vma m) (start m) (size m);
        EvVmaAdjust (mm_vma m); EvMmap (mm_vma m) r; EvUpWrite (mm m)]
       ++ evs).
    split.
    { rewrite Hrun. f_equal. simpl.
      destruct (r <? 0) eqn:Hr0, (err =? 0) eqn:He0; simpl;
        rewrite ?He0; try done.
      apply Z.ltb_lt in Hr0. by rewrite (proj2 (Z.eqb_neq r 0)) by lia. }
    split.
    { rewrite Ht. simpl. rewrite <- !app_assoc. reflexivity. }
    split; [by rewrite omap_app, Hmm|].
    split; [simpl; by rewrite Hlen|].
    split; [by rewrite forallb_app, Hto|].
    split.
    { apply mmap_faithful_app.
      - subst r. simpl. rewrite <- !app_assoc. done.
      - simpl in Hfa. rewrite <- !app_assoc in Hfa. exact Hfa. }
    split.
    + intros p Hp. apply not_elem_of_cons in Hp as [Hne Hp].
      rewrite (Hframe p Hp). simpl. by rewrite !lookup_insert_ne.
    + intros p Hp. apply Hvmas. unfold is_vma. simpl.
      destruct (decide (mm_vma m = p)) as [->|Hne].
      * by rewrite lookup_insert_eq.
      * by rewrite !lookup_insert_ne.
Qed.

Lemma collects_facts evs :
  forallb collects evs = true ->
  omap dropped_mm evs = [] /\ omap mmap_of evs = [] /\
  forallb (fun e => negb (touches_mapping e)) evs = true.
Proof.
  induction evs as [|e evs IH]; [done|]. simpl.
  intros [He Hevs]%andb_true_iff. destruct (IH Hevs) as (? & ? & ?).
  by destruct e.
Qed.

Lemma touches_facts evs :
  forallb touches_mapping evs = true ->
  omap grabbed_mm evs = [] /\ omap dropped_mm evs = [] /\
  (EvAlloc false ∉ evs).
Proof.
  induction evs as [|e evs IH]; simpl.
  - intros _. repeat split. apply not_elem_of_nil.
  - intros [He Hevs]%andb_true_iff. destruct (IH Hevs) as (? & ? & ?).
    rewrite not_elem_of_cons. by destruct e.
Qed.

Lemma drops_facts (l : list fb_mmlist) :
  let evs := (fun m => EvMmDrop (mm m)) <$> l in
  omap grabbed_mm evs = [] /\ omap dropped_mm evs = mm <$> l /\
  omap mmap_of evs = [] /\ (EvAlloc false ∉ evs) /\
  forallb (fun e => negb (touches_mapping e)) evs = true.
Proof.
  induction l as [|m l (? & ? & ? & ? & ?)]; simpl.
  - repeat split. apply not_elem_of_nil.
  - rewrite not_elem_of_cons. repeat split; try done. by f_equal.
Qed.

(** One call of [do_fb_ns_remap] over valid vmas. *)
Lemma do_fb_ns_remap_run virt mapping w :
  let vmas := default [] (i_mmap w !! mapping) in
  forallb (is_vma w) vmas = true ->
  0 < ENOMEM ->
  exists r w' evs,
    do_fb_ns_remap virt mapping w = Ret r w' /\
    trace w' = trace w ++ evs /\
    omap dropped_mm evs = reverse (omap grabbed_mm evs) /\
    (((EvAlloc false ∈ evs) /\ r = - ENOMEM /\ heap w' = heap w /\
      forallb (fun e => negb (touches_mapping e)) evs = true) \/
     ((EvAlloc false ∉ evs) /\
      (omap mmap_of evs).*1 = reverse vmas /\
      r = first_error ((omap mmap_of evs).*2) /\
      mmap_faithful (trace w) evs /\
      (forall p, p ∉ vmas -> heap w' !! p = heap w !! p) /\
      forallb (is_vma w') vmas = true)).
Proof.
  intros vmas Hok Hpos. unfold do_fb_ns_remap. step_log.
  unfold bind at 1, get_world. simpl i_mmap. fold vmas.
  destruct (remap_collect_run vmas []
              (set_trace (trace w ++ [EvIMmapLock mapping]) w) Hok)
    as (e & new & evs1 & Hrun & Hg & Hc & Hn & He).
  rewrite app_nil_r in Hrun. step Hrun. step_log. simpl fst. simpl snd.
  destruct (collects_facts _ Hc) as (Hd1 & Hm1 & Ht1).
  destruct (drops_facts new) as (Hg3 & Hd3 & Hm3 & Ha3 & Ht3).
  destruct He as [(-> & Hno & Hvs)|(-> & Hyes)].
  - (* every entry was allocated *)
    change (0 <? 0) with false. cbv iota.
    match goal with
    | |- context [bind (remap_apply new 0) _ ?w1] =>
        destruct (remap_apply_run new 0 w1 Hn)
          as (rs & w3 & evs2 & Happ & Ht & Hmm & Hlen & Hto & Hfa & Hframe
              & Hvmas)
    end.
    change (0 =? 0) with true in Happ. cbv iota in Happ. step Happ.
    step (remap_drop_run new w3). unfold ret.
    destruct (touches_facts _ Hto) as (Hg2 & Hd2 & Ha2).
    eexists _, _, ([EvIMmapLock mapping] ++ evs1 ++ [EvIMmapUnlock mapping]
                   ++ evs2 ++ ((fun m => EvMmDrop (mm m)) <$> new)).
    split; [reflexivity|]. split.
    { simpl. rewrite Ht. simpl. by rewrite <- !app_assoc. }
    rewrite !omap_app, Hd1, Hd2, Hd3, Hg, Hg2, Hg3, Hm1, Hm3. simpl.
    rewrite !app_nil_r, Hmm. split; [by rewrite reverse_involutive|].
    right. split.
    { rewrite not_elem_of_cons, not_elem_of_app, not_elem_of_cons,
        not_elem_of_app. done. }
    rewrite fst_zip, snd_zip by (rewrite length_fmap; lia).
    split; [done|]. split; [done|]. split.
    { change (mmap_faithful (trace w)
                ([EvIMmapLock mapping] ++ evs1 ++ [EvIMmapUnlock mapping]
                 ++ evs2 ++ ((fun m => EvMmDrop (mm m)) <$> new))).
      apply mmap_faithful_app; [done|].
      apply mmap_faithful_app; [by apply mmap_faithful_none|].
      apply mmap_faithful_app; [done|].
      apply mmap_faithful_app; [|by apply mmap_faithful_none].
      simpl in Hfa. by rewrite <- !app_assoc in Hfa |- *. }
    split.
    + intros p Hp. simpl. rewrite Hframe; [done|].
      by rewrite Hvs, elem_of_reverse.
    + apply forallb_forall. intros p Hp. apply Hvmas.
      rewrite forallb_forall in Hok. by apply Hok.
  - (* an allocation failed *)
    rewrite (proj2 (Z.ltb_lt (- ENOMEM) 0)) by lia.
    step_ret.
    match goal with
    | |- context [bind (remap_drop new) _ ?w1] => step (remap_drop_run new w1)
    end.
    unfold ret.
    eexists _, _, ([EvIMmapLock mapping] ++ evs1 ++ [EvIMmapUnlock mapping]
                   ++ ((fun m => EvMmDrop (mm m)) <$> new)).
    split; [reflexivity|]. split.
    { simpl. by rewrite <- !app_assoc. }
    rewrite !omap_app, Hd1, Hd3, Hg, Hg3. simpl.
    rewrite !app_nil_r. split; [by rewrite reverse_involutive|].
    left. split.
    { apply list_elem_of_further, elem_of_app. by left. }
    split; [done|]. split; [done|].
    simpl. rewrite forallb_app, Ht1. simpl. exact Ht3.
Qed.

Lemma events_of_Ret {A} (m : M A) w a w' evs :
  m w = Ret a w' -> trace w' = trace w ++ evs -> events_of m w = evs.
Proof.
  intros Hm Ht. unfold events_of. rewrite Hm. simpl.
  by rewrite Ht, drop_app_length.
Qed.

(** X17. [do_fb_ns_remap] over valid vmas returns, and it drops each
    reference it took on an address space: the address spaces dropped are
    the ones grabbed, in the opposite order - also when an allocation
    failed part of the way through the mapping's vmas. *)
Theorem remap_drops_every_reference virt mapping w :
  forallb (is_vma w) (default [] (i_mmap w !! mapping)) = true ->
  0 < ENOMEM ->
  exists r w',
    do_fb_ns_remap virt mapping w = Ret r w' /\
    omap dropped_mm (events_of (do_fb_ns_remap virt mapping) w)
    = reverse (omap grabbed_mm (events_of (do_fb_ns_remap virt mapping) w)).
Proof.
  intros Hok Hpos.
  destruct (do_fb_ns_remap_run virt mapping w Hok Hpos)
    as (r & w' & evs & Hrun & Ht & Hbal & _).
  exists r, w'. split; [done|].
  by rewrite (events_of_Ret _ _ _ _ _ Hrun Ht).
Qed.

(** X18. When one of its allocations fails, [do_fb_ns_remap] returns
    -ENOMEM without having touched any mapping: no address space was
    locked, nothing was unmapped or mapped, and every object is as it
    was. *)
Theorem remap_without_memory_touches_nothing virt mapping w :
  forallb (is_vma w) (default [] (i_mmap w !! mapping)) = true ->
  0 < ENOMEM ->
  EvAlloc false ∈ events_of (do_fb_ns_remap virt mapping) w ->
  exists w',
    do_fb_ns_remap virt mapping w = Ret (- ENOMEM) w' /\
    heap w' = heap w /\
    forallb (fun e => negb (touches_mapping e))
            (events_of (do_fb_ns_remap virt mapping) w) = true.
Proof.
  intros Hok Hpos Hfail.
  destruct (do_fb_ns_remap_run virt mapping w Hok Hpos)
    as (r & w' & evs & Hrun & Ht & _ & Hcase).
  rewrite (events_of_Ret _ _ _ _ _ Hrun Ht) in *.
  destruct Hcase as [(_ & -> & Hheap & Hno)|(Hnot & _)]; [|done].
  by exists w'.
Qed.

(** X19. When no allocation fails, [do_fb_ns_remap] calls the file's mmap
    once for each vma of the mapping, last collected first, going on after
    a failure; each call is recorded with the result the file gave, and the
    first error among them, or 0, is returned.  Only these vmas can have
    changed - they are still vmas, as the file's mmap left them; every other
    object is as it was. *)
Theorem remap_repoints_every_vma virt mapping w :
  let vmas := default [] (i_mmap w !! mapping) in
  let calls := omap mmap_of (events_of (do_fb_ns_remap virt mapping) w) in
  forallb (is_vma w) vmas = true ->
  0 < ENOMEM ->
  EvAlloc false ∉ events_of (do_fb_ns_remap virt mapping) w ->
  exists w',
    do_fb_ns_remap virt mapping w = Ret (first_error (calls.*2)) w' /\
    calls.*1 = reverse vmas /\
    mmap_faithful (trace w) (events_of (do_fb_ns_remap virt mapping) w) /\
    (forall p, p ∉ vmas -> heap w' !! p = heap w !! p) /\
    forallb (is_vma w') vmas = true.
Proof.
  intros vmas calls Hok Hpos Hfine. subst calls.
  destruct (do_fb_ns_remap_run virt mapping w Hok Hpos)
    as (r & w' & evs & Hrun & Ht & _ & Hcase).
  rewrite (events_of_Ret _ _ _ _ _ Hrun Ht) in *.
  destruct Hcase as [(Hin & _)|(_ & Hcalls & -> & Hfa & Hframe & Hvmas)];
    [done|].
  by exists w'.
Qed.

End remap.

(** ** Creating a shadow: the failure paths *)

Section shadow_allocation.
Context `{K : kernel}.

Lemma free_insert h p b :
  h !! p = None -> p <> NULL -> free_heap p (<[p := b]> h) = h.
Proof.
  intros Hp Hn. unfold free_heap. apply Z.eqb_neq in Hn as ->.
  by apply delete_insert_id.
Qed.

(** The last steps of [fb_ns_info_alloc], from the allocation of the
    operations table on, with the fb_info [v] and the backing buffer [vm]
    ([NULL] when there is none) allocated. *)
Lemma fb_ns_info_alloc_tail hw hwi ops w w2 v vm i2 (h2 : gmap Z block)
    (fin : Z -> fb_info) evs :
  heap w !! hw = Some (BInfo hwi) ->
  heap w !! fbops hwi = Some (BOps ops) ->
  heap w !! v = None -> v <> NULL ->
  trace w2 = trace w ++ evs ->
  heap w2 = <[v := BInfo i2]> h2 ->
  (vm = NULL /\ h2 = heap w \/
   vm <> NULL /\ vm <> v /\ heap w !! vm = None /\
   exists b, h2 = <[vm := BMem b]> (heap w)) ->
  Forall (fun e => e = EvAlloc true) evs ->
  exists r w' evs',
    (ops' <- fb_ns_make_fb_ops hw ;;
     if ops' =? NULL then
       free vm ;;; framebuffer_release v ;;; ret NULL
     else store_info v (fin ops') ;;; ret v) w2
    = Ret r w' /\
    trace w' = trace w ++ evs' /\
    (r = NULL <-> EvAlloc false ∈ evs') /\
    (r = NULL -> heap w' = heap w) /\
    (r <> NULL ->
     r = v /\
     exists q,
       q <> NULL /\ heap w2 !! q = None /\
       heap w' !! v = Some (BInfo (fin q)) /\
       heap w' !! q = Some (BOps (make_fb_ops_table ops)) /\
       forall p, p <> v -> p <> q -> heap w' !! p = heap w2 !! p) /\
    (forall p b, heap w !! p = Some b -> heap w' !! p = Some b).
Proof.
  intros Hhw Hops Hf Hv Ht2 Hh2 Hvm Hall.
  assert (Hvhw : v <> hw) by congruence.
  assert (Hvops : v <> fbops hwi) by congruence.
  assert (Hkeep : forall p b, heap w !! p = Some b -> heap w2 !! p = Some b).
  { intros p b Hp. rewrite Hh2.
    rewrite lookup_insert_ne by congruence.
    destruct Hvm as [[_ ->]|(_ & _ & Hfm & b0 & ->)]; [done|].
    rewrite lookup_insert_ne by congruence. done. }
  unfold fb_ns_make_fb_ops, framebuffer_release, store_info.
  rewrite bind_assoc.
  destruct (alloc_ok (trace w2)) eqn:Hok; cycle 1.
  - step (alloc_fails (BOps fb_devns_ops) w2 Hok).
    rewrite Z.eqb_refl. step_ret. rewrite Z.eqb_refl.
    unfold free at 1. unfold bind at 1. simpl.
    unfold free at 1. unfold bind at 1. simpl. unfold ret.
    eexists NULL, _, (evs ++ [EvAlloc false]).
    split; [reflexivity|]. split; [simpl; by rewrite Ht2, <- app_assoc|].
    split.
    { split; [intros _|done]. apply elem_of_app. right.
      apply list_elem_of_here. }
    assert (Hback : free_heap v (free_heap vm (heap w2)) = heap w).
    { rewrite Hh2.
      destruct Hvm as [[-> ->]|(Hvmn & Hvmv & Hfm & b0 & ->)].
      + rewrite free_heap_null. by apply free_insert.
      + rewrite (insert_insert_ne _ v vm) by done.
        rewrite free_insert; [|by rewrite lookup_insert_ne|done].
        by apply free_insert. }
    split; [done|]. split; [done|]. intros p b Hp. simpl.
    by rewrite Hback.
  - destruct (alloc_returns (BOps fb_devns_ops) w2 Hok)
      as (q & Hq & Hqn & Hfq).
    step Hq. apply Z.eqb_neq in Hqn as Hqz. rewrite Hqz.
    assert (Hqv : q <> v).
    { intros ->. rewrite Hh2, lookup_insert_eq in Hfq. done. }
    assert (Hqhw : q <> hw).
    { intros ->. by rewrite (Hkeep _ _ Hhw) in Hfq. }
    assert (Hqops : q <> fbops hwi).
    { intros ->. by rewrite (Hkeep _ _ Hops) in Hfq. }
    match goal with |- context [bind _ _ ?w0] => set (w3 := w0) end.
    assert (Hhw3 : heap w3 !! hw = Some (BInfo hwi)).
    { subst w3. simpl. rewrite lookup_insert_ne by done. by apply Hkeep. }
    assert (Hops3 : heap w3 !! fbops hwi = Some (BOps ops)).
    { subst w3. simpl. rewrite lookup_insert_ne by done. by apply Hkeep. }
    assert (Hq3 : heap w3 !! q = Some (BOps fb_devns_ops)).
    { subst w3. simpl. by rewrite lookup_insert_eq. }
    assert (Hv3 : heap w3 !! v = Some (BInfo i2)).
    { subst w3. simpl. by rewrite lookup_insert_ne, Hh2, lookup_insert_eq. }
    assert (Ht3 : trace w3 = trace w ++ evs ++ [EvAlloc true]).
    { subst w3. simpl. by rewrite Ht2, <- app_assoc. }
    assert (Hkeep3 : forall p b,
               heap w !! p = Some b -> heap w3 !! p = Some b).
    { intros p b Hp. subst w3. simpl.
      rewrite lookup_insert_ne; [by apply Hkeep|].
      intros <-. by rewrite (Hkeep _ _ Hp) in Hfq. }
    assert (Hframe3 : forall p, p <> q -> heap w3 !! p = heap w2 !! p).
    { intros p Hp. subst w3. simpl. by rewrite lookup_insert_ne. }
    clearbody w3.
    rewrite bind_assoc. step (load_info_ok _ _ _ Hhw3).
    rewrite bind_assoc. step (load_ops_ok _ _ _ Hops3).
    rewrite bind_assoc. rewrite (bind_store _ _ _ _ _ Hq3) by done.
    cbv beta. step_ret. rewrite Hqz.
    erewrite bind_store;
      [|simpl; rewrite lookup_insert_ne by done; exact Hv3|done].
    cbv beta. unfold ret.
    eexists v, _, (evs ++ [EvAlloc true]).
    split; [reflexivity|]. split; [done|].
    split.
    { split; [done|]. intros [Hin|Hin]%elem_of_app.
      - rewrite Forall_forall in Hall. by apply Hall in Hin.
      - by apply list_elem_of_singleton in Hin. }
    split; [done|]. split.
    { intros _. split; [done|]. exists q. simpl.
      split; [done|]. split; [done|].
      split; [by rewrite lookup_insert_eq|].
      split; [by rewrite lookup_insert_ne, lookup_insert_eq|].
      intros p Hpv Hpq. rewrite !lookup_insert_ne by done.
      by apply Hframe3. }
    intros p b Hp. simpl.
    assert (p <> v) by congruence.
    assert (p <> q) by (intros ->; by rewrite (Hkeep _ _ Hp) in Hfq).
    rewrite !lookup_insert_ne by done. by apply Hkeep3.
Qed.

(** The run of [fb_ns_info_alloc]: what it returns, the allocations it
    tried, and what it leaves. *)
Lemma fb_ns_info_alloc_run ns hw w hwi ops nsd :
  heap w !! hw = Some (BInfo hwi) ->
  heap w !! fbops hwi = Some (BOps ops) ->
  heap w !! ns = Some (BNs nsd) ->
  exists v w' evs,
    fb_ns_info_alloc ns hw w = Ret v w' /\
    trace w' = trace w ++ evs /\
    (v = NULL <-> EvAlloc false ∈ evs) /\
    (v = NULL -> heap w' = heap w) /\
    (v <> NULL ->
     heap w !! v = None /\
     exists q vm,
       let n := mk_fb_ns_info ns hw zero_var NULL 0 0 vm
                              (smem_len (fix_ hwi)) (screen_base hwi)
                              (screen_size hwi) [] 0 in
       q <> NULL /\
       heap w' !! v
       = Some (BInfo
                 (mk_fb_info (node hwi) (Z.lor (flags hwi) FBINFO_DEV_NS) 0
                    (mk_fix (fix_id (fix_ hwi)) vm (smem_len (fix_ hwi)))
                    (var hwi) (pseudo_palette hwi) (cmap hwi) (pixmap hwi)
                    vm (screen_size hwi) q (device hwi) (Some n))) /\
       heap w' !! q = Some (BOps (make_fb_ops_table ops)) /\
       (if 0 <? smem_len (fix_ hwi)
        then vm <> NULL /\ heap w !! vm = None /\
             heap w' !! vm
             = Some (BMem (replicate (Z.to_nat (smem_len (fix_ hwi))) 0))
        else vm = NULL)) /\
    (forall p b, heap w !! p = Some b -> heap w' !! p = Some b).
Proof.
  intros Hhw Hops Hns.
  unfold fb_ns_info_alloc, framebuffer_alloc, allocate_backbuffer.
  step (load_info_ok _ _ _ Hhw).
  (* the fb_info *)
  destruct (alloc_ok (trace w)) eqn:Hok1; cycle 1.
  { match goal with
    | |- context [alloc ?b] => step (alloc_fails b w Hok1)
    end.
    rewrite Z.eqb_refl. eexists NULL, _, [EvAlloc false].
    split; [reflexivity|]. split; [done|]. split; [|by repeat split].
    split; [intros _; apply list_elem_of_here | done]. }
  match goal with
  | |- context [alloc ?b] =>
      destruct (alloc_returns b w Hok1) as (v & Ha & Hv & Hf)
  end.
  step Ha. apply Z.eqb_neq in Hv as Hvz. rewrite Hvz.
  assert (Hvns : v <> ns) by congruence.
  match goal with
  | |- context [bind (load_ns ns) _ ?w0] =>
      assert (Hns0 : heap w0 !! ns = Some (BNs nsd))
        by (simpl; by rewrite lookup_insert_ne);
      step (load_ns_ok _ _ _ Hns0)
  end.
  unfold store_info at 1.
  erewrite bind_store; [|simpl; by rewrite lookup_insert_eq|done].
  cbv beta. simpl set_heap. rewrite insert_insert_eq.
  match goal with |- context [bind _ _ ?w0] => set (w1 := w0) end.
  assert (Ht1 : trace w1 = trace w ++ [EvAlloc true]) by done.
  assert (Hh1 : exists i1, heap w1 = <[v := BInfo i1]> (heap w))
    by (by eexists).
  clearbody w1. destruct Hh1 as [i1 Hh1].
  assert (Hv1 : heap w1 !! v = Some (BInfo i1))
    by (by rewrite Hh1, lookup_insert_eq).
  cbv zeta.
  destruct (0 <? smem_len (fix_ hwi)) eqn:Hlen.
  - (* the backing buffer *)
    destruct (alloc_ok (trace w1)) eqn:Hok2; cycle 1.
    { match goal with
      | |- context [alloc ?b] => step (alloc_fails b w1 Hok2)
      end.
      rewrite Z.eqb_refl. cbn [andb]. unfold framebuffer_release.
      unfold free at 1. unfold bind at 1. simpl. unfold ret.
      eexists NULL, _, [EvAlloc true; EvAlloc false].
      split; [reflexivity|].
      split; [simpl; by rewrite Ht1, <- app_assoc|]. split.
      { split; [intros _|done].
        apply list_elem_of_further, list_elem_of_here. }
      assert (Hback : free_heap v (heap w1) = heap w)
        by (rewrite Hh1; by apply free_insert).
      split; [done|]. split; [done|]. intros p b Hp. simpl.
      by rewrite Hback. }
    match goal with
    | |- context [alloc ?b] =>
        destruct (alloc_returns b w1 Hok2) as (vm & Hm & Hvm & Hfm)
    end.
    step Hm. apply Z.eqb_neq in Hvm as Hvmz. rewrite Hvmz. cbn [andb].
    assert (Hvmv : vm <> v) by congruence.
    assert (Hfm' : heap w !! vm = None).
    { rewrite Hh1, lookup_insert_ne in Hfm by done. done. }
    unfold store_info at 1.
    erewrite bind_store;
      [|simpl; rewrite lookup_insert_ne by done; exact Hv1|done].
    cbv beta.
    match goal with
    | |- context [bind _ _ ?w0] =>
        destruct (fb_ns_info_alloc_tail hw hwi ops w w0 v vm
                    (mk_fb_info (node hwi) (Z.lor (flags hwi) FBINFO_DEV_NS)
                       0 (fix_ hwi) (var hwi) (pseudo_palette hwi)
                       (cmap hwi) (pixmap hwi) NULL 0 NULL (device hwi)
                       (Some (mk_fb_ns_info ns hw zero_var NULL 0 0 vm
                                (smem_len (fix_ hwi)) (screen_base hwi)
                                (screen_size hwi) [] 0)))
                    (<[vm := BMem (replicate
                                     (Z.to_nat (smem_len (fix_ hwi))) 0)]>
                       (heap w))
                    (fun o =>
                       mk_fb_info (node hwi)
                         (Z.lor (flags hwi) FBINFO_DEV_NS) 0
                         (mk_fix (fix_id (fix_ hwi)) vm
                                 (smem_len (fix_ hwi)))
                         (var hwi) (pseudo_palette hwi) (cmap hwi)
                         (pixmap hwi) vm (screen_size hwi) o (device hwi)
                         (Some (mk_fb_ns_info ns hw zero_var NULL 0 0 vm
                                  (smem_len (fix_ hwi)) (screen_base hwi)
                                  (screen_size hwi) [] 0)))
                    [EvAlloc true; EvAlloc true])
          as (r & w' & evs' & Hrun & Ht' & Hiff & Hnull & Hnn & Hkeep)
    end; try done.
    { simpl. rewrite Ht1, <- app_assoc. done. }
    { simpl. rewrite Hh1. rewrite (insert_insert_ne _ vm v) by done.
      by rewrite insert_insert_eq. }
    { right. repeat split; try done. by eexists. }
    { by repeat constructor. }
    exists r, w', evs'. split; [exact Hrun|]. split; [done|].
    split; [done|]. split; [done|]. split; [|done].
    intros Hr.
    destruct (Hnn Hr) as [-> (q & Hq & Hfq & Hvq & Hopsq & Hframe)].
    split; [done|]. exists q, vm. cbv beta iota zeta.
    split; [done|]. split; [exact Hvq|]. split; [done|].
    split; [done|]. split; [done|].
    assert (vm <> q).
    { intros ->. simpl in Hfq.
      by rewrite lookup_insert_ne, lookup_insert_eq in Hfq. }
    rewrite Hframe by done. simpl.
    by rewrite lookup_insert_ne, lookup_insert_eq.
  - (* no video memory: no backing buffer *)
    step_ret. rewrite Z.eqb_refl. cbn [andb].
    unfold store_info at 1.
    erewrite bind_store; [|exact Hv1|done].
    cbv beta.
    match goal with
    | |- context [bind _ _ ?w0] =>
        destruct (fb_ns_info_alloc_tail hw hwi ops w w0 v NULL
                    (mk_fb_info (node hwi) (Z.lor (flags hwi) FBINFO_DEV_NS)
                       0 (fix_ hwi) (var hwi) (pseudo_palette hwi)
                       (cmap hwi) (pixmap hwi) NULL 0 NULL (device hwi)
                       (Some (mk_fb_ns_info ns hw zero_var NULL 0 0 NULL
                                (smem_len (fix_ hwi)) (screen_base hwi)
                                (screen_size hwi) [] 0)))
                    (heap w)
                    (fun o =>
                       mk_fb_info (node hwi)
                         (Z.lor (flags hwi) FBINFO_DEV_NS) 0
                         (mk_fix (fix_id (fix_ hwi)) NULL
                                 (smem_len (fix_ hwi)))
                         (var hwi) (pseudo_palette hwi) (cmap hwi)
                         (pixmap hwi) NULL (screen_size hwi) o (device hwi)
                         (Some (mk_fb_ns_info ns hw zero_var NULL 0 0 NULL
                                  (smem_len (fix_ hwi)) (screen_base hwi)
                                  (screen_size hwi) [] 0)))
                    [EvAlloc true])
          as (r & w' & evs' & Hrun & Ht' & Hiff & Hnull & Hnn & Hkeep)
    end; try done.
    { simpl. rewrite Hh1. by rewrite insert_insert_eq. }
    { by left. }
    { by repeat constructor. }
    exists r, w', evs'. split; [exact Hrun|]. split; [done|].
    split; [done|]. split; [done|]. split; [|done].
    intros Hr.
    destruct (Hnn Hr) as [-> (q & Hq & Hfq & Hvq & Hopsq & Hframe)].
    split; [done|]. exists q, NULL. cbv beta iota zeta.
    split; [done|]. split; [exact Hvq|]. by split.
Qed.

(** X20. [fb_ns_info_alloc] for a valid hardware device and a valid
    namespace table (the table is read for the message that follows the
    first allocation) returns.  It returns [NULL] exactly when one of its
    allocations - the fb_info, the backing buffer, the operations table -
    failed, and then whatever it had allocated before is freed again: every
    object is as it was. *)
Theorem failed_shadow_allocation_frees_all ns hw w hwi ops nsd :
  heap w !! hw = Some (BInfo hwi) ->
  heap w !! fbops hwi = Some (BOps ops) ->
  heap w !! ns = Some (BNs nsd) ->
  exists v w',
    fb_ns_info_alloc ns hw w = Ret v w' /\
    (v = NULL <-> EvAlloc false ∈ events_of (fb_ns_info_alloc ns hw) w) /\
    (v = NULL -> heap w' = heap w) /\
    (v <> NULL -> heap w !! v = None /\ is_Some (info_at w' v)).
Proof.
  intros Hhw Hops Hns.
  destruct (fb_ns_info_alloc_run ns hw w hwi ops nsd Hhw Hops Hns)
    as (v & w' & evs & Hrun & Ht & Hiff & Hnull & Hnn & _).
  exists v, w'. split; [done|].
  rewrite (events_of_Ret _ _ _ _ _ Hrun Ht).
  split; [done|]. split; [done|]. intros Hv.
  destruct (Hnn Hv) as (Hf & q & vm & _ & Hvq & _).
  split; [done|]. unfold info_at. rewrite Hvq. by eexists.
Qed.

(** X21. The first acquire of a framebuffer in a namespace that has its
    table returns.  It returns ERR_PTR(-ENOMEM) exactly when one of the
    allocations of the new shadow failed, and then it has undone what it
    did: the slot is still empty, the reference on the table is dropped,
    every object is as it was.  Either way [fb_ns_mutex] is released. *)
Theorem failed_acquire_changes_nothing w hw hwi ops p ns :
  heap w !! hw = Some (BInfo hwi) ->
  heap w !! fbops hwi = Some (BOps ops) ->
  fb_ns_of w !! current_dev_ns w = Some p -> p <> NULL ->
  heap w !! p = Some (BNs ns) ->
  0 <= node hwi -> fb ns !! Z.to_nat (node hwi) = Some NULL ->
  - 2 ^ 31 <= ns_count ns < 2 ^ 31 - 1 ->
  exists r w',
    get_fb_info_ns hw w = Ret r w' /\
    (r = ERR_PTR (- ENOMEM)
     <-> EvAlloc false ∈ events_of (get_fb_info_ns hw) w) /\
    (r = ERR_PTR (- ENOMEM) -> heap w' = heap w) /\
    (r <> ERR_PTR (- ENOMEM) -> exists v, r = Ptr v /\ v <> NULL) /\
    last (trace w') = Some EvMutexUnlock.
Proof.
  intros Hhw Hops Hreg Hp Hns Hidx Hslot Hcount.
  assert (Hp_hw : p <> hw) by neq_by_kind.
  assert (Hp_ops : p <> fbops hwi) by neq_by_kind.
  apply Z.eqb_neq in Hp as Hpz.
  set (ns1 := set_ns_count ns (wrap_int (ns_count ns + 1))).
  set (w1 := set_heap (<[p := BNs ns1]> (heap w)) w).
  assert (Hcur : get_fb_ns_cur w = Ret p w1).
  { subst w1 ns1. unfold get_fb_ns_cur. unfold bind at 1, get_world.
    rewrite Hreg. step (load_ns_ok _ _ _ Hns).
    by rewrite (bind_store _ _ _ _ _ Hns) by done. }
  assert (Hhw1 : heap w1 !! hw = Some (BInfo hwi))
    by (simpl; by rewrite lookup_insert_ne).
  set (w2 := set_trace (trace w1 ++ [EvMutexLock]) w1).
  assert (Hhw2 : heap w2 !! hw = Some (BInfo hwi)) by exact Hhw1.
  assert (Hops2 : heap w2 !! fbops hwi = Some (BOps ops))
    by (simpl; by rewrite lookup_insert_ne).
  assert (Hns2 : heap w2 !! p = Some (BNs ns1))
    by (simpl; by rewrite lookup_insert_eq).
  assert (Hs2 : fb_slot p (node hwi) w2 = Ret NULL w2)
    by (by eapply fb_slot_ok).
  assert (Hlen : (Z.to_nat (node hwi) < length (fb ns))%nat)
    by (by eapply lookup_lt_Some).
  destruct (fb_ns_info_alloc_run p hw w2 hwi ops ns1 Hhw2 Hops2 Hns2)
    as (v & w3 & evs & Hrun & Ht3 & Hiff & Hnull & Hnn & Hkeep).
  assert (Hns3 : heap w3 !! p = Some (BNs ns1)) by (by apply Hkeep).
  assert (Hstart :
             get_fb_info_ns hw w
             = (set_fb_slot p (node hwi) v ;;;
                fb_virt <- fb_slot p (node hwi) ;;
                r <- (if negb (fb_virt =? NULL) then
                        atomic_inc fb_virt ;;; ret (Ptr fb_virt)
                      else ret (ERR_PTR (- ENOMEM))) ;;
                log EvMutexUnlock ;;;
                match r with
                | ERR_PTR _ => put_fb_ns p
                | Ptr _ => ret tt
                end ;;;
                ret r) w3).
  { unfold get_fb_info_ns. step Hcur. rewrite Hpz.
    step (load_info_ok _ _ _ Hhw1). step_log. fold w2.
    step Hs2. rewrite Z.eqb_refl. rewrite !bind_assoc.
    step Hrun. reflexivity. }
  destruct (decide (v = NULL)) as [->|Hv].
  - (* an allocation failed *)
    assert (Hh3 : heap w3 = heap w2) by (by apply Hnull).
    set (w4 := set_heap (<[p := BNs ns1]> (heap w3)) w3).
    assert (Hset : set_fb_slot p (node hwi) NULL w3 = Ret tt w4).
    { unfold set_fb_slot. step (load_ns_ok _ _ _ Hns3). simpl.
      destruct (Z.ltb_spec (node hwi) 0); [lia|].
      destruct (Z.leb_spec (Z.of_nat (length (fb ns))) (node hwi)); [lia|].
      simpl. rewrite (list_insert_id _ _ _ Hslot).
      by rewrite (store_ok _ _ _ _ Hns3) by done. }
    assert (Hns4 : heap w4 !! p = Some (BNs ns1))
      by (simpl; by rewrite lookup_insert_eq).
    assert (Hs4 : fb_slot p (node hwi) w4 = Ret NULL w4)
      by (by eapply fb_slot_ok).
    set (w5 := set_trace (trace w4 ++ [EvMutexUnlock]) w4).
    assert (Hns5 : heap w5 !! p = Some (BNs ns1)) by exact Hns4.
    set (ns2 := set_ns_count ns1 (wrap_int (ns_count ns1 - 1))).
    set (w6 := set_heap (<[p := BNs ns2]> (heap w5)) w5).
    assert (Hrun6 : get_fb_info_ns hw w = Ret (ERR_PTR (- ENOMEM)) w6).
    { rewrite Hstart. step Hset. step Hs4. rewrite Z.eqb_refl. cbn [negb].
      step_ret. step_log. fold w5.
      step (put_fb_ns_ok _ _ _ Hns5). reflexivity. }
    assert (Ht6 : trace w6
                  = trace w ++ [EvMutexLock] ++ evs ++ [EvMutexUnlock]).
    { simpl. rewrite Ht3. simpl. by rewrite <- !app_assoc. }
    exists (ERR_PTR (- ENOMEM)), w6. split; [exact Hrun6|].
    rewrite (events_of_Ret _ _ _ _ _ Hrun6 Ht6).
    split.
    { split; [intros _|done]. apply elem_of_app. right.
      apply elem_of_app. left. by apply Hiff. }
    split.
    { intros _. simpl. rewrite Hh3. simpl.
      rewrite !insert_insert_eq. apply insert_id.
      rewrite Hns. do 2 f_equal. unfold ns2, ns1, set_ns_count. simpl.
      rewrite (wrap_int_small (ns_count ns + 1)) by lia.
      replace (ns_count ns + 1 - 1) with (ns_count ns) by lia.
      rewrite wrap_int_small by lia. by destruct ns. }
    split; [done|]. simpl. apply last_snoc.
  - (* the shadow is there *)
    destruct (Hnn Hv) as (Hfv & q & vm & _ & Hv3 & _).
    match type of Hv3 with
    | _ = Some (BInfo ?i) => set (vi := i) in Hv3
    end.
    assert (Hpv : p <> v) by congruence.
    apply Z.eqb_neq in Hv as Hvz.
    set (ns1' := mk_fb_dev_ns (<[Z.to_nat (node hwi) := v]> (fb ns1))
                              (dev_ns ns1) (ns_count ns1)).
    set (w4 := set_heap (<[p := BNs ns1']> (heap w3)) w3).
    assert (Hset : set_fb_slot p (node hwi) v w3 = Ret tt w4).
    { unfold set_fb_slot. step (load_ns_ok _ _ _ Hns3). simpl.
      destruct (Z.ltb_spec (node hwi) 0); [lia|].
      destruct (Z.leb_spec (Z.of_nat (length (fb ns))) (node hwi)); [lia|].
      simpl. by rewrite (store_ok _ _ _ _ Hns3) by done. }
    assert (Hns4 : heap w4 !! p = Some (BNs ns1'))
      by (simpl; by rewrite lookup_insert_eq).
    assert (Hv4 : heap w4 !! v = Some (BInfo vi))
      by (simpl; by rewrite lookup_insert_ne).
    assert (Hs4 : fb_slot p (node hwi) w4 = Ret v w4).
    { eapply fb_slot_ok; [done..|]. simpl.
      by apply list_lookup_insert_eq. }
    set (w5 := set_heap (<[v := BInfo (set_count vi
                                         (wrap_int (count vi + 1)))]>
                           (heap w4)) w4).
    set (w6 := set_trace (trace w5 ++ [EvMutexUnlock]) w5).
    assert (Hrun6 : get_fb_info_ns hw w = Ret (Ptr v) w6).
    { rewrite Hstart. step Hset. step Hs4. rewrite Hvz. cbn [negb].
      rewrite bind_assoc.
      step (atomic_inc_ok w4 v vi Hv4). fold w5. step_ret. step_log.
      step_ret. reflexivity. }
    assert (Ht6 : trace w6
                  = trace w ++ [EvMutexLock] ++ evs ++ [EvMutexUnlock]).
    { simpl. rewrite Ht3. simpl. by rewrite <- !app_assoc. }
    exists (Ptr v), w6. split; [exact Hrun6|].
    rewrite (events_of_Ret _ _ _ _ _ Hrun6 Ht6).
    split.
    { split; [done|].
      intros [Hin|[Hin|Hin]%elem_of_app]%elem_of_app.
      - by apply list_elem_of_singleton in Hin.
      - by apply Hiff in Hin.
      - by apply list_elem_of_singleton in Hin. }
    split; [done|]. split; [by exists v|]. simpl. apply last_snoc.
Qed.

Lemma lor_land_same a b : Z.land (Z.lor a b) b = b.
Proof.
  apply Z.bits_inj'. intros i _. rewrite Z.land_spec, Z.lor_spec.
  by destruct (Z.testbit a i), (Z.testbit b i).
Qed.

(** X27. For a valid hardware device and a valid namespace table,
    [fb_ns_info_alloc] returns, and the shadow it creates is at a new
    address and is well formed: it is marked as a shadow, belongs to the
    table and the hardware device it was made for, records the hardware's
    geometry, has the hardware's index and mode, reference count 0, nothing
    staged and nothing tracked, and the operations table made for the
    hardware's driver.  Its screen is its backing buffer: zero-filled, of
    the length of the hardware's video memory, and distinct from the
    hardware's buffer; when both hold the two longs the copy prints, the
    pair is ready for the copy between them. *)
Theorem created_shadow_is_well_formed ns hw w hwi ops nsd :
  heap w !! hw = Some (BInfo hwi) ->
  heap w !! fbops hwi = Some (BOps ops) ->
  heap w !! ns = Some (BNs nsd) ->
  FBINFO_DEV_NS <> 0 ->
  exists v w',
    fb_ns_info_alloc ns hw w = Ret v w' /\
    (v <> NULL ->
     exists vi n,
       heap w !! v = None /\
       shadow_at w' v vi n hwi /\
       fb_ns n = ns /\ info n = hw /\
       node vi = node hwi /\ count vi = 0 /\ var vi = var hwi /\
       heap w' !! fbops vi = Some (BOps (make_fb_ops_table ops)) /\
       staged w' n = Some [] /\ tracked n = [] /\
       screen_base vi = vmem_buf n /\
       smem_len (fix_ vi) = smem_len (fix_ hwi) /\
       (0 < smem_len (fix_ hwi) ->
        heap w' !! vmem_buf n
        = Some (BMem (replicate (Z.to_nat (smem_len (fix_ hwi))) 0)) /\
        forall scr,
          heap w !! screen_base hwi = Some (BMem scr) ->
          screen_base hwi <> NULL ->
          smem_len (fix_ hwi) <= Z.of_nat (length scr) ->
          2 * sizeof_long <= smem_len (fix_ hwi) ->
          buffers_at w' vi hwi scr
                     (replicate (Z.to_nat (smem_len (fix_ hwi))) 0))).
Proof.
  intros Hhw Hops Hns Hflag.
  destruct (fb_ns_info_alloc_run ns hw w hwi ops nsd Hhw Hops Hns)
    as (v & w' & evs & Hrun & Ht & Hiff & Hnull & Hnn & Hkeep).
  exists v, w'. split; [done|]. intros Hv.
  destruct (Hnn Hv) as (Hf & q & vm & Hq & Hvq & Hopsq & Hvm).
  cbv zeta in Hvq.
  eexists _, _. split; [exact Hf|]. split.
  { split; [exact Hvq|]. split.
    { unfold fb_info_is_virt. simpl. rewrite lor_land_same.
      by apply Z.eqb_neq in Hflag as ->. }
    split; [reflexivity|]. simpl.
    split; [by apply Hkeep|]. done. }
  simpl. repeat (split; [done|]).
  intros Hlen. apply Z.ltb_lt in Hlen as Hlenb. rewrite Hlenb in Hvm.
  destruct Hvm as (Hvmn & Hvmf & Hvmb). split; [done|].
  intros scr Hscr Hbase Hsize Hlongs. unfold buffers_at. simpl.
  split; [by apply Hkeep|]. split; [done|]. split; [done|].
  split; [done|]. split; [congruence|]. split; [done|]. split; [done|].
  rewrite length_replicate. lia.
Qed.

End shadow_allocation.

(** ** The notifier callbacks *)

Section callbacks.
Context `{K : kernel} `{N : notifications}.

Lemma fb_virt_is_active_background w virt v n ns :
  heap w !! virt = Some (BInfo v) -> par v = Some n ->
  heap w !! fb_ns n = Some (BNs ns) -> owner_active w ns = false ->
  fb_virt_is_active virt w = Ret false w.
Proof.
  intros Hv Hp Hns Ha. unfold fb_virt_is_active.
  step (load_info_ok _ _ _ Hv). destruct (negb (fb_info_is_virt v)); [done|].
  step (load_par_ok _ _ _ _ Hv Hp). step (load_ns_ok _ _ _ Hns).
  unfold is_active_dev_ns, bind, ret. unfold owner_active in Ha.
  by rewrite Ha.
Qed.

(** X22. An unregistration event for a framebuffer whose shadow the calling
    task's namespace holds while in the background takes a reference on the
    shadow and drops it again: the callback returns 0, the shadow stays in
    its slot with the reference count it had, and nothing is switched,
    copied or freed. *)
Theorem unregistration_keeps_background_shadow w hw hwi v c n ns :
  shadow_ok w hw hwi v c n ->
  hw <> NULL ->
  heap w !! fb_ns n = Some (BNs ns) ->
  owner_active w ns = false ->
  FB_EVENT_FB_UNREGISTERED <> FB_EVENT_FB_REGISTERED ->
  0 < c < 2 ^ 31 - 1 ->
  exists w',
    fb_ns_event_callback FB_EVENT_FB_UNREGISTERED (Some hw) w = Ret 0 w' /\
    trace w' = trace w ++ [EvMutexLock; EvMutexUnlock] /\
    shadow_ok w' hw hwi v c n.
Proof.
  intros (ns0 & vi & Hreg & Hns0 & Hhw & Hidx & Hslot & Hpn & Hnn & Hne
          & Hv & Hnode & Hc & Hpar & Hmem & Hcol & Hops)
         Hhwn Hns Hbg Hact Hrange.
  assert (ns0 = ns) as -> by congruence. clear Hns0.
  assert (Hp_hw : fb_ns n <> hw) by neq_by_kind.
  assert (Hp_v : fb_ns n <> v) by neq_by_kind.
  apply Z.eqb_neq in Hpn as Hpz. apply Z.eqb_neq in Hnn as Hvz.
  apply Z.eqb_neq in Hhwn as Hhwz. apply Z.eqb_neq in Hact as Hactz.
  (* the acquire *)
  set (ns1 := set_ns_count ns (wrap_int (ns_count ns + 1))).
  set (w1 := set_heap (<[fb_ns n := BNs ns1]> (heap w)) w).
  assert (Hcur : get_fb_ns_cur w = Ret (fb_ns n) w1).
  { subst w1 ns1. unfold get_fb_ns_cur. unfold bind at 1, get_world.
    rewrite Hreg. step (load_ns_ok _ _ _ Hns).
    by rewrite (bind_store _ _ _ _ _ Hns) by done. }
  assert (Hns1 : heap w1 !! fb_ns n = Some (BNs ns1))
    by (simpl; by rewrite lookup_insert_eq).
  assert (Hhw1 : heap w1 !! hw = Some (BInfo hwi))
    by (simpl; by rewrite lookup_insert_ne).
  assert (Hv1 : heap w1 !! v = Some (BInfo vi))
    by (simpl; by rewrite lookup_insert_ne).
  set (w2 := set_trace (trace w1 ++ [EvMutexLock]) w1).
  set (vi1 := set_count vi (wrap_int (count vi + 1))).
  set (w3 := set_heap (<[v := BInfo vi1]> (heap w2)) w2).
  set (w4 := set_trace (trace w3 ++ [EvMutexUnlock]) w3).
  assert (Hget : get_fb_info_ns hw w = Ret (Ptr v) w4).
  { unfold get_fb_info_ns. step Hcur. rewrite Hpz.
    step (load_info_ok _ _ _ Hhw1). step_log. fold w2.
    assert (Hs2 : fb_slot (fb_ns n) (node hwi) w2 = Ret v w2)
      by (by eapply fb_slot_ok).
    step Hs2. rewrite Hvz. step_ret. step Hs2. rewrite Hvz. cbn [negb].
    rewrite bind_assoc. step (atomic_inc_ok w2 v vi Hv1). fold vi1 w3.
    step_ret. step_log. step_ret. done. }
  assert (Hv4 : heap w4 !! v = Some (BInfo vi1))
    by (simpl; by rewrite lookup_insert_eq).
  assert (Hns4 : heap w4 !! fb_ns n = Some (BNs ns1))
    by (simpl; by rewrite lookup_insert_ne, lookup_insert_eq).
  (* the release *)
  set (ns2 := set_ns_count ns1 (wrap_int (ns_count ns1 - 1))).
  set (w5 := set_heap (<[fb_ns n := BNs ns2]> (heap w4)) w4).
  assert (Hv5 : heap w5 !! v = Some (BInfo vi1))
    by (simpl; by rewrite lookup_insert_ne, lookup_insert_eq).
  set (vi2 := set_count vi1 (wrap_int (count vi1 - 1))).
  set (w6 := set_heap (<[v := BInfo vi2]> (heap w5)) w5).
  assert (Hcount : count vi2 = c).
  { simpl. rewrite Hc, (wrap_int_small (c + 1)) by lia.
    replace (c + 1 - 1) with c by lia. apply wrap_int_small. lia. }
  assert (Hput : put_fb_info_ns v w4 = Ret tt w6).
  { unfold put_fb_info_ns. step (load_par_ok w4 v vi1 n Hv4 Hpar).
    step (put_fb_ns_ok _ _ _ Hns4). fold ns2 w5.
    step (atomic_dec_and_test_ok w5 v vi1 Hv5). fold vi2.
    change (wrap_int (count vi1 - 1)) with (count vi2). rewrite Hcount.
    destruct (Z.eqb_spec c 0); [lia|done]. }
  exists w6. split; [|split].
  - unfold fb_ns_event_callback. rewrite Hhwz.
    step (load_info_ok _ _ _ Hhw). rewrite Hactz, Z.eqb_refl.
    step Hget. cbn [ptr_of].
    step (fb_virt_is_active_background w4 v vi1 n ns1 Hv4 Hpar Hns4 Hbg).
    step_ret. step Hput. done.
  - simpl. by rewrite <- app_assoc.
  - exists ns2, vi2. simpl.
    rewrite !lookup_insert_eq.
    rewrite !(lookup_insert_ne _ v (fb_ns n)) by done.
    rewrite !lookup_insert_eq.
    rewrite !(lookup_insert_ne _ _ hw) by done.
    repeat split; try done.
    + destruct Hmem as [|[b Hb]]; [by left|]. right. exists b.
      rewrite !lookup_insert_ne; [done|..]; neq_by_kind.
    + destruct Hcol as [|[b Hb]]; [by left|]. right. exists b.
      rewrite !lookup_insert_ne; [done|..]; neq_by_kind.
    + destruct Hops as [|[b Hb]]; [by left|]. right. exists b.
      rewrite !lookup_insert_ne; [done|..]; neq_by_kind.
Qed.

(** X23. [fb_ns_event_callback] uses what [get_fb_info_ns] returns without
    testing it.  When the acquire fails for lack of memory - the namespace
    has no table and none can be allocated, or it has one with the slot
    empty and no fb_info can be allocated - the callback takes the error
    pointer for a shadow and reads through it: an invalid access. *)
Theorem unregistration_without_memory_faults w hw hwi :
  heap w !! hw = Some (BInfo hwi) -> hw <> NULL ->
  heap w !! (- ENOMEM) = None ->
  FB_EVENT_FB_UNREGISTERED <> FB_EVENT_FB_REGISTERED ->
  (fb_ns_of w !! current_dev_ns w = None /\ alloc_ok (trace w) = false) \/
  (exists p ns,
     fb_ns_of w !! current_dev_ns w = Some p /\ p <> NULL /\
     heap w !! p = Some (BNs ns) /\ 0 <= node hwi /\
     fb ns !! Z.to_nat (node hwi) = Some NULL /\
     alloc_ok (trace w ++ [EvMutexLock]) = false) ->
  exists w',
    fb_ns_event_callback FB_EVENT_FB_UNREGISTERED (Some hw) w = Oops w' /\
    heap w' !! hw = Some (BInfo hwi).
Proof.
  intros Hhw Hhwn Herr Hact Hfail.
  apply Z.eqb_neq in Hhwn as Hhwz. apply Z.eqb_neq in Hact as Hactz.
  unfold fb_ns_event_callback. rewrite Hhwz.
  step (load_info_ok _ _ _ Hhw). rewrite Hactz, Z.eqb_refl.
  destruct Hfail as [[Hnone Hok]|(p & ns & Hreg & Hp & Hns & Hidx & Hslot
                                  & Hok)].
  - (* no table, and none to be had *)
    assert (Hget : get_fb_info_ns hw w
                   = Ret (ERR_PTR (- ENOMEM))
                         (set_trace (trace w ++ [EvAlloc false]) w)).
    { unfold get_fb_info_ns, get_fb_ns_cur.
      rewrite !bind_assoc. unfold bind at 1, get_world. rewrite Hnone.
      unfold fb_devns_create. rewrite !bind_assoc.
      match goal with
      | |- context [alloc ?b] => step (alloc_fails b w Hok)
      end.
      rewrite Z.eqb_refl. by repeat step_ret. }
    step Hget. cbn [ptr_of]. unfold fb_virt_is_active, load_info, bind.
    simpl. rewrite Herr. eexists. split; [reflexivity|done].
  - (* a table, but no fb_info to be had *)
    assert (Hp_hw : p <> hw) by neq_by_kind.
    apply Z.eqb_neq in Hp as Hpz.
    set (ns1 := set_ns_count ns (wrap_int (ns_count ns + 1))).
    set (w1 := set_heap (<[p := BNs ns1]> (heap w)) w).
    assert (Hcur : get_fb_ns_cur w = Ret p w1).
    { subst w1 ns1. unfold get_fb_ns_cur. unfold bind at 1, get_world.
      rewrite Hreg. step (load_ns_ok _ _ _ Hns).
      by rewrite (bind_store _ _ _ _ _ Hns) by done. }
    assert (Hhw1 : heap w1 !! hw = Some (BInfo hwi))
      by (simpl; by rewrite lookup_insert_ne).
    set (w2 := set_trace (trace w1 ++ [EvMutexLock]) w1).
    assert (Hns2 : heap w2 !! p = Some (BNs ns1))
      by (simpl; by rewrite lookup_insert_eq).
    assert (Hs2 : fb_slot p (node hwi) w2 = Ret NULL w2)
      by (by eapply fb_slot_ok).
    set (w3 := set_trace (trace w2 ++ [EvAlloc false]) w2).
    assert (Halloc : fb_ns_info_alloc p hw w2 = Ret NULL w3).
    { unfold fb_ns_info_alloc, framebuffer_alloc.
      step (load_info_ok w2 hw hwi Hhw1).
      match goal with
      | |- context [alloc ?b] => step (alloc_fails b w2 Hok)
      end.
      by rewrite Z.eqb_refl. }
    assert (Hns3 : heap w3 !! p = Some (BNs ns1)) by done.
    assert (Hlen : (Z.to_nat (node hwi) < length (fb ns))%nat)
      by (by eapply lookup_lt_Some).
    set (w4 := set_heap (<[p := BNs ns1]> (heap w3)) w3).
    assert (Hset : set_fb_slot p (node hwi) NULL w3 = Ret tt w4).
    { unfold set_fb_slot. step (load_ns_ok _ _ _ Hns3). simpl.
      destruct (Z.ltb_spec (node hwi) 0); [lia|].
      destruct (Z.leb_spec (Z.of_nat (length (fb ns))) (node hwi)); [lia|].
      simpl. rewrite (list_insert_id _ _ _ Hslot).
      by rewrite (store_ok _ _ _ _ Hns3) by done. }
    assert (Hns4 : heap w4 !! p = Some (BNs ns1))
      by (simpl; by rewrite lookup_insert_eq).
    assert (Hs4 : fb_slot p (node hwi) w4 = Ret NULL w4)
      by (by eapply fb_slot_ok).
    set (w5 := set_trace (trace w4 ++ [EvMutexUnlock]) w4).
    assert (Hns5 : heap w5 !! p = Some (BNs ns1)) by exact Hns4.
    assert (Hget : exists w6,
               get_fb_info_ns hw w = Ret (ERR_PTR (- ENOMEM)) w6 /\
               heap w6 !! (- ENOMEM) = None /\
               heap w6 !! hw = Some (BInfo hwi)).
    { eexists. split.
      - unfold get_fb_info_ns. step Hcur. rewrite Hpz.
        step (load_info_ok _ _ _ Hhw1). step_log. fold w2.
        step Hs2. rewrite Z.eqb_refl. rewrite !bind_assoc.
        step Halloc. step Hset. step Hs4. rewrite Z.eqb_refl. cbn [negb].
        step_ret. step_log. fold w5.
        step (put_fb_ns_ok _ _ _ Hns5). reflexivity.
      - assert (p <> - ENOMEM) by congruence. simpl.
        rewrite !lookup_insert_ne by done. done. }
    destruct Hget as (w6 & Hget & Herr6 & Hhw6).
    step Hget. cbn [ptr_of]. unfold fb_virt_is_active, load_info, bind.
    rewrite Herr6. eexists. split; [reflexivity|done].
Qed.

End callbacks.

(** ** The check of a mode *)

Section mode_check.
Context `{K : kernel} `{N : notifications}.


End mode_check.

(** ** The mutex *)

Section lock_discipline.
Context `{K : kernel}.

Lemma repoint_inner_off_mutex e :
  repoint_inner e = true -> off_mutex e = true.
Proof. by destruct e. Qed.

Lemma quiet_do_fb_ns_remap virt mapping :
  steps (changes no_kinds off_mutex) (do_fb_ns_remap virt mapping).
Proof.
  rewrite do_fb_ns_remap_unfold.
  apply steps_bind; [apply _ | by apply changes_log | intros _].
  eapply steps_mono; [|apply changes_remap_locked].
  intros w w'. apply changes_mono; [done | apply repoint_inner_off_mutex].
Qed.

#[local] Hint Resolve quiet_do_fb_ns_remap : steps.

Lemma quiet_swap_mmap_loop virt l err :
  steps (changes no_kinds off_mutex) (swap_mmap_loop virt l err).
Proof.
  revert err. induction l as [|e l IH]; intros err; simpl; steps_go.
Qed.

#[local] Hint Resolve quiet_swap_mmap_loop : steps.

Lemma quiet_fb_ns_swap_mmap virt activate :
  steps (changes no_kinds off_mutex) (fb_ns_swap_mmap virt activate).
Proof. unfold fb_ns_swap_mmap. steps_go. Qed.

Lemma quiet_fb_ns_swap_vmem virt activate :
  steps (changes no_kinds off_mutex) (fb_ns_swap_vmem virt activate).
Proof.
  unfold fb_ns_swap_vmem, fb_memcpy_tofb, fb_memcpy_fromfb, memcpy.
  steps_go.
Qed.

Lemma quiet_call_fb_setcolreg hw c :
  steps (changes no_kinds off_mutex) (call_fb_setcolreg hw c).
Proof.
  unfold call_fb_setcolreg. steps_go.
  intros w. split; try done.
  - intros p b Hb. by exists b.
  - by eexists [_].
Qed.

#[local] Hint Resolve quiet_call_fb_setcolreg : steps.

Lemma quiet_apply_colreg_loop hw l err :
  steps (changes no_kinds off_mutex) (apply_colreg_loop hw l err).
Proof.
  revert err. induction l as [|c l IH]; intros err; simpl; steps_go.
Qed.

#[local] Hint Resolve quiet_apply_colreg_loop : steps.

Lemma quiet_fb_ns_apply_colreg virt :
  steps (changes no_kinds off_mutex) (fb_ns_apply_colreg virt).
Proof. unfold fb_ns_apply_colreg, store_par, store_info. steps_go. Qed.

#[local] Hint Resolve quiet_fb_ns_swap_mmap quiet_fb_ns_swap_vmem
  quiet_fb_ns_apply_colreg steps_fb_ns_apply_setpar : steps.

(** A transition does not touch [fb_ns_mutex]. *)
Lemma quiet_do_fb_activate_ns virt activate :
  steps (changes no_kinds off_mutex) (do_fb_activate_ns virt activate).
Proof. unfold do_fb_activate_ns, fb_pan_display. steps_go. Qed.

#[local] Hint Resolve quiet_do_fb_activate_ns : steps.

Lemma steps_fb_slot R `{!PreOrder R} p idx : steps R (fb_slot p idx).
Proof. unfold fb_slot. steps_go. Qed.

#[local] Hint Resolve steps_fb_slot : steps.

Lemma quiet_activate_loop fb_ns idx activate err :
  steps (changes no_kinds off_mutex) (activate_loop fb_ns idx activate err).
Proof.
  revert err. induction idx as [|i idx IH]; intros err; simpl; steps_go.
Qed.

(** X26. [fb_activate_ns] takes [fb_ns_mutex] first and does all the
    transitions of the namespace's shadows under it, without touching it in
    between.  When it returns it has released the mutex, once, as its last
    action; when a transition stops in a BUG_ON() or an invalid access the
    mutex stays taken. *)
Theorem switch_runs_under_the_mutex w dev_ns activate :
  exists mid,
    forallb off_mutex mid = true /\
    events_of (fb_activate_ns dev_ns activate) w
    = match fb_activate_ns dev_ns activate w with
      | Ret _ _ => EvMutexLock :: mid ++ [EvMutexUnlock]
      | _ => EvMutexLock :: mid
      end.
Proof.
  set (w1 := set_trace (trace w ++ [EvMutexLock]) w).
  set (o := activate_loop (default NULL (fb_ns_of w1 !! dev_ns))
                          (seq 0 FB_MAX) activate 0 w1).
  assert (Hrun : fb_activate_ns dev_ns activate w
                 = match o with
                   | Ret err w2 =>
                       Ret err (set_trace (trace w2 ++ [EvMutexUnlock]) w2)
                   | Bug w2 => Bug w2
                   | Oops w2 => Oops w2
                   end).
  { unfold fb_activate_ns. step_log. fold w1.
    unfold find_fb_ns. unfold bind at 1. unfold bind at 1. fold o.
    by destruct o. }
  destruct (quiet_activate_loop (default NULL (fb_ns_of w1 !! dev_ns))
              (seq 0 FB_MAX) activate 0 w1)
    as [_ (mid & Ht & Hmid) _ _ _ _].
  fold o in Ht. exists mid. split; [done|].
  unfold events_of. rewrite Hrun.
  destruct o as [err w2|w2|w2]; simpl in *; rewrite Ht;
    rewrite <- ?app_assoc; by rewrite drop_app_length.
Qed.

End lock_discipline.

(** ** The further properties on the machines of [Scenario] and [Cases] *)

(** In [w2] the shadow 32 tracks the inodes 77 and 78: tracking 79 appends
    it. *)
Lemma tracking_adds_one_use_witness :
  exists n' w',
    track_fb_inode (K := Scenario.K0) 32 79 Scenario.w2 = Ret 0 w' /\
    par_at w' 32 = Some n' /\
    inodes_sized n' /\ NoDup (tracked n') /\
    tracked n' = (if decide (79 ∈ tracked Scenario.n2)
                  then tracked Scenario.n2
                  else tracked Scenario.n2 ++ [79]) /\
    forall j, use_of n' j
              = if decide (j = 79)
                then Some (wrap_int (default 0 (use_of Scenario.n2 79) + 1))
                else use_of Scenario.n2 j.
Proof.
  apply (tracking_adds_one_use (K := Scenario.K0) Scenario.w2 32
           Scenario.v2 Scenario.n2 79).
  - reflexivity.
  - reflexivity.
  - split; [simpl; lia | reflexivity].
  - apply (bool_decide_unpack _). vm_compute. exact I.
  - simpl. lia.
  - intros _. reflexivity.
Defined.

(** The same call when the table cannot grow. *)
Lemma tracking_without_memory_fails_clean_witness :
  track_fb_inode (K := Cases.K_nomem) 32 79 Scenario.w2
  = Ret (- 12)
        (set_trace (trace Scenario.w2
                    ++ [EvMutexLock; EvAlloc false; EvMutexUnlock])
                   Scenario.w2).
Proof.
  apply (tracking_without_memory_fails_clean (K := Cases.K_nomem) Scenario.w2 32
           Scenario.v2 Scenario.n2 79).
  - reflexivity.
  - reflexivity.
  - apply (bool_decide_unpack _). vm_compute. exact I.
  - reflexivity.
Defined.

(** Untracking 77, which [w2] tracks with one use, removes it. *)
Lemma untracking_drops_one_use_witness :
  exists n' w',
    untrack_fb_inode 32 77 Scenario.w2 = Ret tt w' /\
    trace w' = trace Scenario.w2 ++ [EvMutexLock; EvMutexUnlock] /\
    par_at w' 32 = Some n' /\
    inodes_sized n' /\ NoDup (tracked n') /\
    forall j, use_of n' j
              = if decide (j = 77)
                then (if wrap_int (1 - 1) =? 0 then None
                      else Some (wrap_int (1 - 1)))
                else use_of Scenario.n2 j.
Proof.
  apply (untracking_drops_one_use Scenario.w2 32 Scenario.v2 Scenario.n2
           77 1).
  - reflexivity.
  - reflexivity.
  - split; [simpl; lia | reflexivity].
  - apply (bool_decide_unpack _). vm_compute. exact I.
  - simpl. lia.
  - discriminate.
  - reflexivity.
Defined.

(** Tracking and untracking 79 in [w2]. *)
Lemma track_untrack_round_trip_witness :
  exists evs,
    (track_fb_inode (K := Scenario.K0) 32 79 ;;; untrack_fb_inode 32 79)
      Scenario.w2
    = Ret tt (set_trace (trace Scenario.w2 ++ evs) Scenario.w2).
Proof.
  apply (track_untrack_round_trip (K := Scenario.K0) Scenario.w2 32
           Scenario.v2 Scenario.n2 79).
  - reflexivity.
  - reflexivity.
  - split; [simpl; lia | reflexivity].
  - simpl. lia.
  - discriminate.
  - intros c Hc. vm_compute in Hc. discriminate.
  - intros _. reflexivity.
Defined.

(** The shadow 32 of [w1] drops what it does not support. *)
Lemma unsupported_operations_are_dropped_witness :
  fb_ns_setcmap (K := Scenario.K0) (Some (mk_fb_cmap 0 256)) 32 Scenario.w1
  = Ret 0 Scenario.w1 /\
  fb_ns_setcmap (K := Scenario.K0) None 32 Scenario.w1 = Oops Scenario.w1 /\
  fb_ns_cursor (K := Scenario.K0) 32 0 Scenario.w1 = Ret 0 Scenario.w1 /\
  fb_ns_ioctl (K := Scenario.K0) 32 0 0 Scenario.w1 = Ret 0 Scenario.w1 /\
  fb_ns_compat_ioctl (K := Scenario.K0) 32 0 0 Scenario.w1
  = Ret 0 Scenario.w1 /\
  fb_ns_rotate 32 0 Scenario.w1 = Ret tt Scenario.w1.
Proof.
  apply (unsupported_operations_are_dropped (K := Scenario.K0) Scenario.w1
           32 Scenario.v1 Scenario.n1 Scenario.hw0 (mk_fb_cmap 0 256) 0 0 0
           0).
  repeat split; reflexivity.
Defined.

(** The hardware fb_info 10 of [w1] is no shadow. *)
Lemma handlers_refuse_hardware_witness :
  fb_ns_check_var (K := Scenario.K0) (N := Cases.N0) 0 10 Scenario.w1
  = Bug Scenario.w1 /\
  fb_ns_set_par (K := Scenario.K0) 10 Scenario.w1 = Bug Scenario.w1 /\
  fb_ns_setcolreg (K := Scenario.K0) 1 2 3 4 5 10 Scenario.w1
  = Bug Scenario.w1 /\
  fb_ns_setcmap (K := Scenario.K0) (Some (mk_fb_cmap 0 256)) 10 Scenario.w1
  = Bug Scenario.w1 /\
  fb_ns_cursor (K := Scenario.K0) 10 0 Scenario.w1 = Bug Scenario.w1 /\
  fb_ns_ioctl (K := Scenario.K0) 10 0 0 Scenario.w1 = Bug Scenario.w1 /\
  fb_ns_compat_ioctl (K := Scenario.K0) 10 0 0 Scenario.w1
  = Bug Scenario.w1 /\
  fb_ns_get_caps (K := Scenario.K0) 10 0 0 Scenario.w1 = Bug Scenario.w1 /\
  fb_ns_debug_enter (K := Scenario.K0) (N := Cases.N0) 10 Scenario.w1
  = Bug Scenario.w1 /\
  fb_ns_debug_leave (K := Scenario.K0) (N := Cases.N0) 10 Scenario.w1
  = Bug Scenario.w1 /\
  fb_ns_rotate 10 0 Scenario.w1 = Ret tt Scenario.w1.
Proof.
  apply (handlers_refuse_hardware (K := Scenario.K0) (N := Cases.N0)
           Scenario.w1 10 Scenario.hw0 0 (Some (mk_fb_cmap 0 256)) 0 0 0 0
           0 1 2 3 4 5).
  - reflexivity.
  - reflexivity.
Defined.

(** The shadow 32 after the driver moved its video memory. *)
Lemma geometry_divergence_is_fatal_witness :
  fb_ns_check_var (K := Scenario.K0) (N := Cases.N0) 0 32 Cases.w_moved
  = Bug Cases.w_moved /\
  fb_ns_set_par (K := Scenario.K0) 32 Cases.w_moved = Bug Cases.w_moved /\
  fb_ns_setcolreg (K := Scenario.K0) 1 2 3 4 5 32 Cases.w_moved
  = Bug Cases.w_moved /\
  fb_ns_setcmap (K := Scenario.K0) (Some (mk_fb_cmap 0 256)) 32
                Cases.w_moved
  = Bug Cases.w_moved /\
  fb_ns_ioctl (K := Scenario.K0) 32 0 0 Cases.w_moved = Bug Cases.w_moved /\
  fb_ns_compat_ioctl (K := Scenario.K0) 32 0 0 Cases.w_moved
  = Bug Cases.w_moved /\
  fb_ns_get_caps (K := Scenario.K0) 32 0 0 Cases.w_moved
  = Bug Cases.w_moved /\
  fb_ns_swap_vmem (K := Scenario.K0) 32 true Cases.w_moved
  = Bug Cases.w_moved.
Proof.
  apply (geometry_divergence_is_fatal (K := Scenario.K0) (N := Cases.N0)
           Cases.w_moved 32
           Scenario.v1 Scenario.n1 Cases.hw_moved (Some (mk_fb_cmap 0 256))
           0 0 0 0 1 2 3 4 5 true).
  - reflexivity.
  - reflexivity.
  - reflexivity.
  - reflexivity.
  - left. discriminate.
Defined.


(** The driver of [w1] has no fb_debug_leave. *)
Lemma debug_leave_offered_without_handler_witness :
  slot (make_fb_ops_table Scenario.hw_ops) op_fb_debug_leave
  = Some h_fb_ns_debug_leave /\
  slot (make_fb_ops_table Scenario.hw_ops) op_fb_debug_enter = None /\
  fb_ns_debug_leave (K := Scenario.K0) (N := Cases.N0) 32 Scenario.w1
  = Oops Scenario.w1.
Proof.
  apply (debug_leave_offered_without_handler (K := Scenario.K0)
           (N := Cases.N0) Scenario.w1 32 Scenario.v1 Scenario.n1
           Scenario.hw0 Scenario.hw_ops).
  - reflexivity.
  - reflexivity.
  - reflexivity.
  - reflexivity.
  - reflexivity.
  - reflexivity.
Defined.







(** The mapping of inode 77 in [w2], which the vma 50 maps. *)
Lemma remap_drops_every_reference_witness :
  exists r w',
    do_fb_ns_remap (K := Scenario.K0) 32 77 Scenario.w2 = Ret r w' /\
    omap dropped_mm
         (events_of (do_fb_ns_remap (K := Scenario.K0) 32 77) Scenario.w2)
    = reverse (omap grabbed_mm
                 (events_of (do_fb_ns_remap (K := Scenario.K0) 32 77)
                            Scenario.w2)).
Proof.
  apply (remap_drops_every_reference (K := Scenario.K0) 32 77 Scenario.w2).
  - vm_compute. reflexivity.
  - reflexivity.
Defined.

(** The same mapping, out of memory. *)
Lemma remap_without_memory_touches_nothing_witness :
  exists w',
    do_fb_ns_remap (K := Cases.K_nomem) 32 77 Scenario.w2
    = Ret (- 12) w' /\
    heap w' = heap Scenario.w2 /\
    forallb (fun e => negb (touches_mapping e))
            (events_of (do_fb_ns_remap (K := Cases.K_nomem) 32 77)
                       Scenario.w2) = true.
Proof.
  apply (remap_without_memory_touches_nothing (K := Cases.K_nomem) 32 77
           Scenario.w2).
  - vm_compute. reflexivity.
  - reflexivity.
  - vm_compute. apply list_elem_of_further, list_elem_of_here.
Defined.

(** The same mapping, with a file whose mmap fails and marks the vma as I/O
    memory again. *)
Lemma remap_repoints_every_vma_witness :
  exists w',
    do_fb_ns_remap (K := Cases.K_io) 32 77 Scenario.w2
    = Ret (first_error
             ((omap mmap_of
                 (events_of (do_fb_ns_remap (K := Cases.K_io) 32 77)
                            Scenario.w2)).*2)) w' /\
    (omap mmap_of
       (events_of (do_fb_ns_remap (K := Cases.K_io) 32 77)
                  Scenario.w2)).*1
    = reverse (default [] (i_mmap Scenario.w2 !! 77)) /\
    mmap_faithful (K := Cases.K_io) (trace Scenario.w2)
      (events_of (do_fb_ns_remap (K := Cases.K_io) 32 77) Scenario.w2) /\
    (forall p, p ∉ default [] (i_mmap Scenario.w2 !! 77) ->
               heap w' !! p = heap Scenario.w2 !! p) /\
    forallb (is_vma w') (default [] (i_mmap Scenario.w2 !! 77)) = true.
Proof.
  apply (remap_repoints_every_vma (K := Cases.K_io) 32 77 Scenario.w2).
  - vm_compute. reflexivity.
  - reflexivity.
  - intros Hin. vm_compute in Hin.
    repeat (apply elem_of_cons in Hin as [Hin|Hin]; [discriminate|]).
    by apply elem_of_nil in Hin.
Defined.

(** Creating the shadow of hardware 10 when the third allocation, that of
    the operations table, fails. *)
Lemma failed_shadow_allocation_frees_all_witness :
  exists v w',
    fb_ns_info_alloc (K := Cases.K_short) 31 10 Cases.w_tabled = Ret v w' /\
    (v = NULL
     <-> EvAlloc false
         ∈ events_of (fb_ns_info_alloc (K := Cases.K_short) 31 10)
                     Cases.w_tabled) /\
    (v = NULL -> heap w' = heap Cases.w_tabled) /\
    (v <> NULL ->
     heap Cases.w_tabled !! v = None /\ is_Some (info_at w' v)).
Proof.
  apply (failed_shadow_allocation_frees_all (K := Cases.K_short) 31 10
           Cases.w_tabled Scenario.hw0 Scenario.hw_ops
           (mk_fb_dev_ns [0; 0; 0; 0] 200 1)).
  - reflexivity.
  - reflexivity.
  - reflexivity.
Defined.

(** The unregistration of hardware 10 seen from namespace 200, which holds
    the shadow 32 and is in the background. *)
Lemma unregistration_keeps_background_shadow_witness :
  exists w',
    fb_ns_event_callback (K := Scenario.K0) (N := Cases.N0) 6 (Some 10)
                         Scenario.w1 = Ret 0 w' /\
    trace w' = trace Scenario.w1 ++ [EvMutexLock; EvMutexUnlock] /\
    shadow_ok w' 10 Scenario.hw0 32 1 Scenario.n1.
Proof.
  apply (unregistration_keeps_background_shadow (K := Scenario.K0)
           (N := Cases.N0) Scenario.w1 10 Scenario.hw0 32 1 Scenario.n1
           Scenario.ns1).
  - exists Scenario.ns1, Scenario.v1.
    repeat split; try reflexivity; try discriminate.
    + right. eexists. reflexivity.
    + by left.
    + right. eexists. reflexivity.
  - discriminate.
  - reflexivity.
  - reflexivity.
  - discriminate.
  - lia.
Defined.

(** The same event before namespace 200 has a table, out of memory. *)
Lemma unregistration_without_memory_faults_witness :
  exists w',
    fb_ns_event_callback (K := Cases.K_nomem) (N := Cases.N0) 6 (Some 10)
                         Scenario.w0 = Oops w' /\
    heap w' !! 10 = Some (BInfo Scenario.hw0).
Proof.
  apply (unregistration_without_memory_faults (K := Cases.K_nomem)
           (N := Cases.N0) Scenario.w0 10 Scenario.hw0).
  - reflexivity.
  - discriminate.
  - reflexivity.
  - discriminate.
  - left. split; reflexivity.
Defined.

(** The first acquire of the second hardware framebuffer, out of memory. *)
Lemma failed_acquire_changes_nothing_witness :
  exists r w',
    get_fb_info_ns (K := Cases.K_nomem) 11 Cases.w_two = Ret r w' /\
    (r = ERR_PTR (- 12)
     <-> EvAlloc false
         ∈ events_of (get_fb_info_ns (K := Cases.K_nomem) 11) Cases.w_two) /\
    (r = ERR_PTR (- 12) -> heap w' = heap Cases.w_two) /\
    (r <> ERR_PTR (- 12) -> exists v, r = Ptr v /\ v <> NULL) /\
    last (trace w') = Some EvMutexUnlock.
Proof.
  apply (failed_acquire_changes_nothing (K := Cases.K_nomem) Cases.w_two 11
           Scenario.hwz Scenario.hw_ops 31 Scenario.ns1).
  - reflexivity.
  - reflexivity.
  - reflexivity.
  - discriminate.
  - reflexivity.
  - simpl. lia.
  - reflexivity.
  - simpl. lia.
Defined.


(** The shadow of hardware 10 created for the table 31 of namespace 200. *)
Lemma created_shadow_is_well_formed_witness :
  exists v w',
    fb_ns_info_alloc (K := Scenario.K0) 31 10 Cases.w_tabled = Ret v w' /\
    (v <> NULL ->
     exists vi n,
       heap Cases.w_tabled !! v = None /\
       shadow_at (K := Scenario.K0) w' v vi n Scenario.hw0 /\
       fb_ns n = 31 /\ info n = 10 /\
       node vi = 0 /\ count vi = 0 /\ var vi = mk_var 640 480 /\
       heap w' !! fbops vi
       = Some (BOps (make_fb_ops_table Scenario.hw_ops)) /\
       staged w' n = Some [] /\ tracked n = [] /\
       screen_base vi = vmem_buf n /\
       smem_len (fix_ vi) = 8 /\
       (0 < 8 ->
        heap w' !! vmem_buf n = Some (BMem (replicate (Z.to_nat 8) 0)) /\
        forall scr,
          heap Cases.w_tabled !! 20 = Some (BMem scr) ->
          20 <> NULL ->
          8 <= Z.of_nat (length scr) ->
          2 * 4 <= 8 ->
          buffers_at (K := Scenario.K0) w' vi Scenario.hw0 scr
                     (replicate (Z.to_nat 8) 0))).
Proof.
  apply (created_shadow_is_well_formed (K := Scenario.K0) 31 10
           Cases.w_tabled Scenario.hw0 Scenario.hw_ops
           (mk_fb_dev_ns [0; 0; 0; 0] 200 1)).
  - reflexivity.
  - reflexivity.
  - reflexivity.
  - discriminate.
Defined.
